(** * Homebrew bottles sync: error handling, recovery and the hash file

    A shallow embedding of [shared/error_handling.py] and of the hash-file
    part of [shared/models.py], with the properties of the retry engine, the
    recovery decision table, the partial-sync ledger and the atomic save /
    corruption / rebuild protocol of [HashFileManager].

    Conventions.
    - Python [int] is [Z]; [str] is [string]; [Optional[T]] is [option T].
    - A Python [dict] is an insertion-ordered association list with the
      update-in-place semantics of [d[k] = v] (module [PyDict]).
    - Code that raises or changes state runs in the monad [M S]: state
      passing over [S] with an exception layer.  For code that talks to S3
      the state is a [World]: the object store and a log of the calls
      issued to it.  The clock is an argument of the methods that read it.
    - Python [float] arithmetic is the class [FloatOps]; its instance
      [Binary64] computes IEEE 754 doubles.
    - The standard-library parsers of dates and timestamps
      ([datetime.strptime], [datetime.fromisoformat]) are parameters of the
      model, gathered in the class [Datetime]. *)

From Stdlib Require Import String Ascii List ZArith Lia Bool.
From Stdlib Require SpecFloat.
Import ListNotations.
Local Open Scope string_scope.
Local Open Scope Z_scope.

Set Implicit Arguments.

(** ** Strings as Python uses them *)

Module PyStr.

(** [needle in hay]. *)
Fixpoint contains (needle hay : string) : bool :=
  if String.prefix needle hay then true
  else match hay with
       | EmptyString => false
       | String _ rest => contains needle rest
       end.

(** [s.endswith(suffix)]. *)
Definition endswith (s suffix : string) : bool :=
  let n := String.length s in
  let k := String.length suffix in
  if (k <=? n)%nat then String.eqb (String.substring (n - k) k s) suffix
  else false.

(** [s[:-k]] for [0 < k]; Python clamps at the empty string. *)
Definition drop_last (k : nat) (s : string) : string :=
  String.substring 0 (String.length s - k) s.

Definition rev (s : string) : string :=
  string_of_list_ascii (List.rev (list_ascii_of_string s)).

(** Characters up to the first [c], and what follows it when there is one. *)
Fixpoint break_at (c : ascii) (s : string) : string * option string :=
  match s with
  | EmptyString => (EmptyString, None)
  | String a rest =>
      if Ascii.eqb a c then (EmptyString, Some rest)
      else let '(h, t) := break_at c rest in (String a h, t)
  end.

(** [s.split(c)] for a one-character separator: never empty. *)
Fixpoint split_fuel (fuel : nat) (c : ascii) (s : string) : list string :=
  match fuel with
  | O => [s]
  | S fuel' =>
      match break_at c s with
      | (h, None) => [h]
      | (h, Some t) => h :: split_fuel fuel' c t
      end
  end.

Definition split (c : ascii) (s : string) : list string :=
  split_fuel (String.length s) c s.

(** [s.rsplit(c, 1)]: one piece when [c] does not occur, else the text
    before the last [c] and the text after it. *)
Definition rsplit1 (c : ascii) (s : string) : list string :=
  match break_at c (rev s) with
  | (_, None) => [s]
  | (t, Some h) => [rev h; rev t]
  end.

(** [sep.join(parts)]. *)
Fixpoint join (sep : string) (parts : list string) : string :=
  match parts with
  | [] => EmptyString
  | [p] => p
  | p :: ps => p ++ sep ++ join sep ps
  end.

(** [s.replace('Z', '+00:00')]. *)
Fixpoint replace_Z (s : string) : string :=
  match s with
  | EmptyString => EmptyString
  | String a rest =>
      if Ascii.eqb a "Z"%char then "+00:00" ++ replace_Z rest
      else String a (replace_Z rest)
  end.

Definition is_hex (a : ascii) : bool :=
  let n := nat_of_ascii a in
  ((48 <=? n) && (n <=? 57) || (65 <=? n) && (n <=? 70)
   || (97 <=? n) && (n <=? 102))%nat.

(** [re.match(r'^[a-fA-F0-9]{64}$', s)]: sixty-four hexadecimal
    characters; [$] also matches just before one final newline. *)
Definition is_sha256_hex (s : string) : bool :=
  let l := list_ascii_of_string s in
  forallb is_hex (firstn 64 l)
  && ((List.length l =? 64)%nat
      || ((List.length l =? 65)%nat
          && match nth_error l 64 with
             | Some a => Ascii.eqb a "010"%char
             | None => false
             end)).

End PyStr.

(** ** The error taxonomy ([error_handling.py]) *)

Inductive ErrorType : Type :=
| NETWORK_ERROR
| S3_ERROR
| VALIDATION_ERROR
| HASH_CORRUPTION
| RESOURCE_EXHAUSTION
| TIMEOUT_ERROR
| AUTHENTICATION_ERROR
| UNKNOWN_ERROR.

Inductive RecoveryAction : Type :=
| RETRY
| SKIP
| ABORT
| REBUILD
| FALLBACK.

Record ErrorContext : Type := mkErrorContext {
  error_type : ErrorType;
  error_message : string;
  operation : string;
  resource_id : option string;
  attempt_number : Z;
  timestamp : option string;
  stack_trace : option string;
  metadata : list (string * string)
}.

(** [ErrorClassifier.determine_recovery_action]. *)
Definition determine_recovery_action (error_context : ErrorContext)
  : RecoveryAction :=
  let attempt := attempt_number error_context in
  match error_type error_context with
  | NETWORK_ERROR => if attempt <? 5 then RETRY else SKIP
  | S3_ERROR =>
      if PyStr.contains "NoSuchKey" (error_message error_context) then SKIP
      else if attempt <? 3 then RETRY else SKIP
  | HASH_CORRUPTION => REBUILD
  | RESOURCE_EXHAUSTION => if attempt <? 10 then RETRY else ABORT
  | VALIDATION_ERROR => SKIP
  | AUTHENTICATION_ERROR => ABORT
  | TIMEOUT_ERROR => if attempt <? 3 then RETRY else SKIP
  | UNKNOWN_ERROR => if attempt <? 2 then RETRY else SKIP
  end.

(** ** Python values the code passes around *)

(** Exceptions, by the classes the code tests with [isinstance] or names in
    an [except] clause.  [OverflowError] is what a float power out of range
    raises; [OtherError] is any other subclass of [Exception]. *)
Inductive PyExc : Type :=
| ConnectionError (msg : string)
| TimeoutError (msg : string)
| ClientError (code : string) (msg : string)
| ValueError (msg : string)
| KeyError (key : string)
| PermissionError (msg : string)
| TypeError (msg : string)
| AttributeError (msg : string)
| OverflowError (msg : string)
| OtherError (msg : string).

(** The outcome of a call: a value or a raised exception. *)
Inductive Res (A : Type) : Type :=
| Ret (a : A)
| Raise (e : PyExc).
Arguments Ret {A} a.
Arguments Raise {A} e.

(** Insertion-ordered dictionaries with string keys. *)
Module PyDict.

Definition t (V : Type) : Type := list (string * V).

Fixpoint get {V} (k : string) (d : t V) : option V :=
  match d with
  | [] => None
  | (k', v) :: rest => if String.eqb k' k then Some v else get k rest
  end.

(** [d[k] = v]: in place when [k] is present, appended otherwise. *)
Fixpoint set {V} (k : string) (v : V) (d : t V) : t V :=
  match d with
  | [] => [(k, v)]
  | (k', v') :: rest =>
      if String.eqb k' k then (k', v) :: rest
      else (k', v') :: set k v rest
  end.

Definition mem {V} (k : string) (d : t V) : bool :=
  match get k d with Some _ => true | None => false end.

Definition keys {V} (d : t V) : list string := map fst d.
Definition values {V} (d : t V) : list V := map snd d.

(** Every key once: what a Python [dict] always satisfies. *)
Definition wf {V} (d : t V) : Prop := NoDup (keys d).

End PyDict.

(** The JSON values of the documents kept in the object store (null,
    integers, strings, arrays, objects). *)
#[warnings="-register-all"] Inductive Json : Type :=
| JNull
| JInt (z : Z)
| JStr (s : string)
| JArr (items : list Json)
| JObj (fields : list (string * Json)).

Module PyJson.

(** [bool(v)]. *)
Definition truthy (v : Json) : bool :=
  match v with
  | JNull => false
  | JInt z => negb (z =? 0)
  | JStr s => negb (String.eqb s "")
  | JArr l => match l with [] => false | _ => true end
  | JObj l => match l with [] => false | _ => true end
  end.

(** [v.get(k)]: [None] when [k] is absent; only a dict has [get]. *)
Definition get (k : string) (v : Json) : Res Json :=
  match v with
  | JObj fields =>
      match PyDict.get k fields with
      | Some x => Ret x
      | None => Ret JNull
      end
  | _ => Raise (AttributeError "get")
  end.

(** [v.get(k, default)]. *)
Definition get_default (k : string) (default : Json) (v : Json) : Res Json :=
  match v with
  | JObj fields =>
      match PyDict.get k fields with
      | Some x => Ret x
      | None => Ret default
      end
  | _ => Raise (AttributeError "get")
  end.

(** [v[k]] for a string [k]. *)
Definition index (k : string) (v : Json) : Res Json :=
  match v with
  | JObj fields =>
      match PyDict.get k fields with
      | Some x => Ret x
      | None => Raise (KeyError k)
      end
  | _ => Raise (TypeError "subscript")
  end.

(** [v.items()]. *)
Definition items (v : Json) : Res (list (string * Json)) :=
  match v with
  | JObj fields => Ret fields
  | _ => Raise (AttributeError "items")
  end.

(** [v == s] for a string [s]. *)
Definition eq_str (v : Json) (s : string) : bool :=
  match v with
  | JStr s' => String.eqb s' s
  | _ => false
  end.

End PyJson.

(** ** State and exceptions *)

(** A computation over a state [S] that returns or raises. *)
Definition M (S A : Type) : Type := S -> Res A * S.

Definition ret {S A} (a : A) : M S A := fun s => (Ret a, s).

Definition raise {S A} (e : PyExc) : M S A := fun s => (Raise e, s).

Definition bind {S A B} (c : M S A) (k : A -> M S B) : M S B :=
  fun s =>
    match c s with
    | (Ret a, s') => k a s'
    | (Raise e, s') => (Raise e, s')
    end.

(** [try: c  except Exception as e: h e]; the state changes made by [c]
    before it raised stay. *)
Definition try_except {S A} (c : M S A) (h : PyExc -> M S A) : M S A :=
  fun s =>
    match c s with
    | (Ret a, s') => (Ret a, s')
    | (Raise e, s') => h e s'
    end.

(** A pure outcome used as a computation. *)
Definition lift_res {S A} (r : Res A) : M S A := fun s => (r, s).

Definition get_state {S} : M S S := fun s => (Ret s, s).
Definition put_state {S} (s : S) : M S unit := fun _ => (Ret tt, s).
Definition modify {S} (f : S -> S) : M S unit := fun s => (Ret tt, f s).

Declare Scope py_scope.
Delimit Scope py_scope with py.
Notation "x <- c ;; k" := (bind c (fun x => k))
  (at level 61, c at next level, right associativity) : py_scope.
Notation "c ;;; k" := (bind c (fun _ => k))
  (at level 61, right associativity) : py_scope.
Local Open Scope py_scope.

(** [for x in xs: body x], where the body answers whether to go on
    ([true]) or to [break] ([false]). *)
Fixpoint for_each {S X} (xs : list X) (body : X -> M S bool) : M S unit :=
  match xs with
  | [] => ret tt
  | x :: rest =>
      go_on <- body x ;;
      if go_on then for_each rest body else ret tt
  end.

(** [range(lo, hi)]. *)
Definition range (lo hi : Z) : list Z :=
  map (fun i => lo + Z.of_nat i) (seq 0 (Z.to_nat (hi - lo))).

(** ** The object store and the log of what was asked of it *)

(** What the code does to the outside, in the order it does it. *)
Inductive Event : Type :=
| EvInvoke (attempt : Z)
    (** [retry_sync] calls [func] on its arguments *)
| EvSleep (attempt : Z)
    (** [time.sleep(self.calculate_delay(attempt))] *)
| EvRetryMetric (attempt : Z) (success : bool)
    (** [self.metrics.put_retry_metric(operation_name, attempt, success)] *)
| EvUpload (key : string) (data : Json)
| EvDownload (key : string)
| EvCopy (source_key dest_key : string)
| EvDelete (key : string)
| EvList
| EvHead (key : string).

(** The state of the store and the log. *)
Record World (W : Type) : Type := mkWorld {
  store : W;
  log : list Event
}.
Arguments mkWorld {W} store log.

Definition emit {W} (ev : Event) : M (World W) unit :=
  modify (fun w => mkWorld (store w) (log w ++ [ev])%list).

(** A call that only sees the store. *)
Definition on_store {W A} (f : W -> A * W) : M (World W) A :=
  fun w => let '(a, s) := f (store w) in (Ret a, mkWorld s (log w)).

(** A call on the store that may raise. *)
Definition on_store_res {W A} (f : W -> Res A * W) : M (World W) A :=
  fun w => let '(r, s) := f (store w) in (r, mkWorld s (log w)).

(** An entry of [S3Service.list_objects]. *)
Record S3Object : Type := mkS3Object {
  obj_key : string;
  obj_size : Z
}.

(** The answer of [S3Service.get_object_metadata]. *)
Record ObjectMetadata : Type := mkObjectMetadata {
  meta_size : Z
}.

(** The [s3_service] a [HashFileManager] or a [PartialSyncRecovery] is built
    with, as [shared/s3_service.py] types it: [upload_json] and
    [download_json] catch every exception; [delete_object],
    [get_object_metadata] and [list_objects] catch [ClientError] only, so
    another exception passes through; [copy_object] is the client call under
    [_copy_s3_object]. *)
Record S3Service (W : Type) : Type := mkS3Service {
  upload_json : Json -> string -> option (list (string * string)) -> W -> bool * W;
  download_json : string -> W -> option Json * W;
  delete_object : string -> W -> Res bool * W;
  copy_object : string -> string -> W -> Res unit * W;
  object_exists : string -> W -> bool * W;
  list_objects : string -> Z -> W -> Res (list S3Object) * W;
  get_object_metadata : string -> W -> Res (option ObjectMetadata) * W
}.

Section S3Calls.
Context {W : Type} (svc : S3Service W).

Definition s3_upload_json (data : Json) (key : string)
    (md : option (list (string * string))) : M (World W) bool :=
  emit (EvUpload key data) ;;; on_store (upload_json svc data key md).

Definition s3_download_json (key : string) : M (World W) (option Json) :=
  emit (EvDownload key) ;;; on_store (download_json svc key).

Definition s3_delete_object (key : string) : M (World W) bool :=
  emit (EvDelete key) ;;; on_store_res (delete_object svc key).

Definition s3_copy_object (src dst : string) : M (World W) unit :=
  emit (EvCopy src dst) ;;; on_store_res (copy_object svc src dst).

Definition s3_list_objects (prefix : string) (max_keys : Z)
  : M (World W) (list S3Object) :=
  emit EvList ;;; on_store_res (list_objects svc prefix max_keys).

Definition s3_get_object_metadata (key : string)
  : M (World W) (option ObjectMetadata) :=
  emit (EvHead key) ;;; on_store_res (get_object_metadata svc key).

End S3Calls.

(** ** RetryHandler *)

(** The arithmetic [calculate_delay] needs of Python's [float].
    [f_pow x n] is [x ** n] for a float [x] and an [int] [n >= 0]: [None]
    when Python raises [OverflowError], the power being out of the range
    of a double.  [f_ltb] and [f_leb] are [<] and [<=]. *)
Class FloatOps (F : Type) : Type := {
  f_zero : F;
  f_one : F;
  f_tenth : F;                      (** [0.1] *)
  f_neg : F -> F;
  f_add : F -> F -> F;
  f_mul : F -> F -> F;
  f_pow : F -> N -> option F;
  f_ltb : F -> F -> bool;
  f_leb : F -> F -> bool;
  f_pow_0 : forall x, f_pow x 0%N = Some f_one
    (** [x ** 0] is [1.0], whatever [x] is *)
}.

(** What [<] and [<=] of floats obey: they order the values that are not
    NaN, those with [x <= x]. *)
Class FloatOrder (F : Type) {FO : FloatOps F} : Prop := {
  f_ltb_leb : forall a b, f_ltb a b = true -> f_leb a b = true;
  f_leb_refl_l : forall a b, f_leb a b = true -> f_leb a a = true;
  f_leb_refl_r : forall a b, f_leb a b = true -> f_leb b b = true;
  f_ltb_leb_trans :
    forall a b c, f_ltb a b = true -> f_leb b c = true -> f_ltb a c = true;
  f_leb_total :
    forall a b,
      f_leb a a = true -> f_leb b b = true -> f_ltb b a = false ->
      f_leb a b = true;
  f_zero_ordered : f_leb f_zero f_zero = true
}.
Arguments FloatOrder F {FO}.

(** [min(a, b)] and [max(a, b)] as the builtins compute them: the first
    argument, unless the second is smaller (is larger). *)
Definition py_min {F : Type} {FO : FloatOps F} (a b : F) : F :=
  if f_ltb b a then b else a.

Definition py_max {F : Type} {FO : FloatOps F} (a b : F) : F :=
  if f_ltb a b then b else a.

Record RetryConfig (F : Type) : Type := mkRetryConfig {
  max_attempts : Z;
  base_delay : F;
  max_delay : F;
  exponential_base : F;
  jitter : bool;
  backoff_multiplier : F
}.

Section RetryHandler.
Context {F : Type} {FO : FloatOps F}.

(** What [RetryHandler.__init__] keeps: the policy, and whether a metrics
    client was given. *)
Record RetryHandler : Type := mkRetryHandler {
  config : RetryConfig F;
  metrics : bool
}.

(** [base_delay * power * backoff_multiplier], the delay before the limit
    is applied, for [power = exponential_base ** (attempt - 2)]. *)
Definition uncapped_delay (self : RetryHandler) (power : F) : F :=
  f_mul (f_mul (base_delay (config self)) power)
        (backoff_multiplier (config self)).

(** What [x ** n] raises when the power is out of range. *)
Definition out_of_range : PyExc :=
  OverflowError "(34, 'Numerical result out of range')".

(** [RetryHandler.calculate_delay]; [uniform a b] is the draw of
    [random.uniform(a, b)].  The exponent [attempt - 2] is not negative
    where the power is formed.  The [0] of [return 0] and of [max(0, delay)]
    is the [int]; it is equal to the float [0.0], which stands for it. *)
Definition calculate_delay (self : RetryHandler) (uniform : F -> F -> F)
    (attempt : Z) : Res F :=
  if attempt <=? 1 then Ret f_zero
  else
    match f_pow (exponential_base (config self)) (Z.to_N (attempt - 2)) with
    | None => Raise out_of_range
    | Some power =>
        let delay := uncapped_delay self power in
        let delay := py_min delay (max_delay (config self)) in
        let delay :=
          if jitter (config self) then
            let jitter_range := f_mul delay f_tenth in
            f_add delay (uniform (f_neg jitter_range) jitter_range)
          else delay in
        Ret (py_max f_zero delay)
    end.

(** [RetryHandler.should_retry]. *)
Definition should_retry (self : RetryHandler) (error : PyExc) (attempt : Z)
  : bool :=
  if attempt >=? max_attempts (config self) then false
  else
    match error with
    | ConnectionError _ | TimeoutError _ => true
    | ClientError error_code _ =>
        existsb (String.eqb error_code)
          ["Throttling"; "ThrottlingException"; "RequestLimitExceeded";
           "ServiceUnavailable"; "InternalError"; "SlowDown"]
    | ValueError _ | KeyError _ | PermissionError _ => false
    | _ => true
    end.

Section RetrySync.
Context {W A : Type}.

Definition put_retry_metric (self : RetryHandler) (attempt : Z)
    (success : bool) : M (World W) unit :=
  if metrics self then emit (EvRetryMetric attempt success) else ret tt.

(** [raise last_exception]; raising [None] is a [TypeError]. *)
Definition raise_last (last_exception : option PyExc) : M (World W) A :=
  match last_exception with
  | Some e => raise e
  | None => raise (TypeError "exceptions must derive from BaseException")
  end.

(** [delay = self.calculate_delay(attempt); time.sleep(delay)]: what
    [calculate_delay] raises leaves [retry_sync] from inside the handler,
    before any sleep.  [time.sleep] is taken to accept the delay. *)
Definition sleep_before_retry (self : RetryHandler)
    (uniform : F -> F -> F) (attempt : Z) : M (World W) unit :=
  lift_res (calculate_delay self uniform attempt) ;;;
  emit (EvSleep attempt).

(** The loop of [retry_sync] over the attempts left, with the last
    exception seen; [func] acts on the store, and [uniform attempt] is the
    draw [calculate_delay] makes at that attempt. *)
Fixpoint retry_loop (self : RetryHandler) (uniform : Z -> F -> F -> F)
    (func : W -> Res A * W)
    (attempts : list Z) (last_exception : option PyExc)
  : M (World W) A :=
  match attempts with
  | [] => raise_last last_exception
  | attempt :: rest =>
      emit (EvInvoke attempt) ;;;
      try_except
        (result <- on_store_res func ;;
         (if (attempt >? 1) then put_retry_metric self attempt true
          else ret tt) ;;;
         ret result)
        (fun e =>
           put_retry_metric self attempt false ;;;
           if negb (should_retry self e attempt) then raise_last (Some e)
           else
             (if attempt <? max_attempts (config self)
              then sleep_before_retry self (uniform attempt) attempt
              else ret tt) ;;;
             retry_loop self uniform func rest (Some e))
  end.

(** [RetryHandler.retry_sync]. *)
Definition retry_sync (self : RetryHandler) (uniform : Z -> F -> F -> F)
    (func : W -> Res A * W) : M (World W) A :=
  retry_loop self uniform func (range 1 (max_attempts (config self) + 1))
    None.

End RetrySync.

End RetryHandler.

(** ** Dates and timestamps *)

(** A parsed ISO-8601 timestamp, in microseconds since the epoch: with a UTC
    offset ([Aware]) or without one ([Naive]). *)
Inductive IsoTime : Type :=
| Aware (us : Z)
| Naive (us : Z).

(** The two parsers of the standard library the code calls.
    [strptime_ymd s] is the day number of
    [datetime.strptime(s, '%Y-%m-%d').date()], [None] when it raises
    [ValueError]; [fromisoformat s] is [datetime.fromisoformat(s)], [None]
    when it raises [ValueError]. *)
Class Datetime : Type := {
  strptime_ymd : string -> option Z;
  fromisoformat : string -> option IsoTime
}.

(** ** RecoveryState and PartialSyncRecovery *)

Record RecoveryState : Type := mkRecoveryState {
  sync_id : string;
  start_time : string;
  last_successful_bottle : option string;
  completed_bottles : list string;
  failed_bottles : list string;
  skipped_bottles : list string;
  total_bottles : Z;
  recovery_checkpoint : option string;
  rs_metadata : Json
}.

Module JsonCodec.

Definition of_opt_str (o : option string) : Json :=
  match o with Some s => JStr s | None => JNull end.

Definition of_str_list (l : list string) : Json := JArr (map JStr l).

Definition to_str (v : Json) : Res string :=
  match v with
  | JStr s => Ret s
  | _ => Raise (TypeError "str expected")
  end.

Definition to_opt_str (v : Json) : Res (option string) :=
  match v with
  | JStr s => Ret (Some s)
  | JNull => Ret None
  | _ => Raise (TypeError "Optional[str] expected")
  end.

Definition to_int (v : Json) : Res Z :=
  match v with
  | JInt z => Ret z
  | _ => Raise (TypeError "int expected")
  end.

Fixpoint to_strs (l : list Json) : Res (list string) :=
  match l with
  | [] => Ret []
  | JStr s :: rest =>
      match to_strs rest with
      | Ret ss => Ret (s :: ss)
      | Raise e => Raise e
      end
  | _ => Raise (TypeError "List[str] expected")
  end.

Definition to_str_list (v : Json) : Res (list string) :=
  match v with
  | JArr l => to_strs l
  | _ => Raise (TypeError "List[str] expected")
  end.

End JsonCodec.

(** Pure outcomes in sequence. *)
Definition res_bind {A B} (r : Res A) (k : A -> Res B) : Res B :=
  match r with
  | Ret a => k a
  | Raise e => Raise e
  end.

Notation "x <-? r ;; k" := (res_bind r (fun x => k))
  (at level 61, r at next level, right associativity) : py_scope.

Module RecoveryStateJson.

(** [RecoveryState.to_dict]. *)
Definition to_dict (self : RecoveryState) : Json :=
  JObj [("sync_id", JStr (sync_id self));
        ("start_time", JStr (start_time self));
        ("last_successful_bottle",
          JsonCodec.of_opt_str (last_successful_bottle self));
        ("completed_bottles", JsonCodec.of_str_list (completed_bottles self));
        ("failed_bottles", JsonCodec.of_str_list (failed_bottles self));
        ("skipped_bottles", JsonCodec.of_str_list (skipped_bottles self));
        ("total_bottles", JInt (total_bottles self));
        ("recovery_checkpoint",
          JsonCodec.of_opt_str (recovery_checkpoint self));
        ("metadata", rs_metadata self)].

(** [RecoveryState.from_dict].  A missing [sync_id] or [start_time] is a
    [KeyError]; the other fields have defaults.  The record is typed as
    the dataclass declares it, so a document that carries a value of
    another JSON type in a field has no counterpart here and is refused
    with [TypeError]. *)
Definition from_dict (data : Json) : Res RecoveryState :=
  v_sync <-? PyJson.index "sync_id" data ;;
  v_start <-? PyJson.index "start_time" data ;;
  v_last <-? PyJson.get "last_successful_bottle" data ;;
  v_done <-? PyJson.get_default "completed_bottles" (JArr []) data ;;
  v_failed <-? PyJson.get_default "failed_bottles" (JArr []) data ;;
  v_skipped <-? PyJson.get_default "skipped_bottles" (JArr []) data ;;
  v_total <-? PyJson.get_default "total_bottles" (JInt 0) data ;;
  v_check <-? PyJson.get "recovery_checkpoint" data ;;
  v_meta <-? PyJson.get_default "metadata" (JObj []) data ;;
  sync <-? JsonCodec.to_str v_sync ;;
  start <-? JsonCodec.to_str v_start ;;
  last <-? JsonCodec.to_opt_str v_last ;;
  done <-? JsonCodec.to_str_list v_done ;;
  failed <-? JsonCodec.to_str_list v_failed ;;
  skipped <-? JsonCodec.to_str_list v_skipped ;;
  total <-? JsonCodec.to_int v_total ;;
  check <-? JsonCodec.to_opt_str v_check ;;
  Ret (mkRecoveryState sync start last done failed skipped total check
         v_meta).

End RecoveryStateJson.

Definition RECOVERY_STATE_KEY : string := "sync_recovery_state.json".

(** [x in xs] for a list of strings. *)
Definition str_in (x : string) (xs : list string) : bool :=
  existsb (String.eqb x) xs.

Section PartialSyncRecovery.
Context {DT : Datetime} {W : Type} (svc : S3Service W).

(** [PartialSyncRecovery.save_recovery_state]. *)
Definition save_recovery_state (state : RecoveryState)
  : M (World W) bool :=
  try_except
    (s3_upload_json svc (RecoveryStateJson.to_dict state)
       RECOVERY_STATE_KEY (Some [("sync_id", sync_id state)]))
    (fun _ => ret false).

(** [PartialSyncRecovery.load_recovery_state]. *)
Definition load_recovery_state (expected_sync_id : option string)
  : M (World W) (option RecoveryState) :=
  try_except
    (data <- s3_download_json svc RECOVERY_STATE_KEY ;;
     match data with
     | None => ret None
     | Some data =>
         if negb (PyJson.truthy data) then ret None
         else
           state <- lift_res (RecoveryStateJson.from_dict data) ;;
           match expected_sync_id with
           | Some sid =>
               if negb (String.eqb sid "")
                  && negb (String.eqb (sync_id state) sid)
               then ret None
               else ret (Some state)
           | None => ret (Some state)
           end
     end)
    (fun _ => ret None).

(** [PartialSyncRecovery.clear_recovery_state]. *)
Definition clear_recovery_state : M (World W) bool :=
  try_except
    (s3_delete_object svc RECOVERY_STATE_KEY)
    (fun _ => ret false).

(** [PartialSyncRecovery.should_resume_sync]; [now_us] is
    [datetime.now(timezone.utc)] in microseconds since the epoch.  The
    difference of two timestamps counts whole microseconds, so
    [time_diff.total_seconds() < 24 * 3600] compares them exactly. *)
Definition should_resume_sync (now_us : Z) (current_sync_id : string)
  : M (World W) (bool * option RecoveryState) :=
  recovery_state <- load_recovery_state None ;;
  match recovery_state with
  | None => ret (false, None)
  | Some recovery_state =>
      if String.eqb (sync_id recovery_state) current_sync_id
      then ret (true, Some recovery_state)
      else
        try_except
          (match fromisoformat (PyStr.replace_Z (start_time recovery_state)) with
           | None => raise (ValueError "Invalid isoformat string")
           | Some (Naive _) =>
               raise (TypeError "can't subtract offset-naive and offset-aware datetimes")
           | Some (Aware start_us) =>
               let time_diff := now_us - start_us in
               if time_diff <? 24 * 3600 * 1000000
               then ret (true, Some recovery_state)
               else clear_recovery_state ;;; ret (false, None)
           end)
          (fun _ => ret (false, None))
  end.

(** [PartialSyncRecovery.update_progress]; the state is mutated in place,
    so the updated state is the result; [now] is the timestamp written
    into [recovery_checkpoint]. *)
Definition update_progress (now : string) (state : RecoveryState)
    (bottle_id status : string) : M (World W) RecoveryState :=
  let state :=
    if String.eqb status "completed" then
      let completed :=
        if negb (str_in bottle_id (completed_bottles state))
        then (completed_bottles state ++ [bottle_id])%list
        else completed_bottles state in
      mkRecoveryState (sync_id state) (start_time state) (Some bottle_id)
        completed (failed_bottles state) (skipped_bottles state)
        (total_bottles state) (recovery_checkpoint state)
        (rs_metadata state)
    else if String.eqb status "failed" then
      if negb (str_in bottle_id (failed_bottles state))
      then mkRecoveryState (sync_id state) (start_time state)
             (last_successful_bottle state) (completed_bottles state)
             (failed_bottles state ++ [bottle_id])%list (skipped_bottles state)
             (total_bottles state) (recovery_checkpoint state)
             (rs_metadata state)
      else state
    else if String.eqb status "skipped" then
      if negb (str_in bottle_id (skipped_bottles state))
      then mkRecoveryState (sync_id state) (start_time state)
             (last_successful_bottle state) (completed_bottles state)
             (failed_bottles state) (skipped_bottles state ++ [bottle_id])%list
             (total_bottles state) (recovery_checkpoint state)
             (rs_metadata state)
      else state
    else state in
  if Z.of_nat (List.length (completed_bottles state)) mod 10 =? 0 then
    let state :=
      mkRecoveryState (sync_id state) (start_time state)
        (last_successful_bottle state) (completed_bottles state)
        (failed_bottles state) (skipped_bottles state)
        (total_bottles state) (Some now) (rs_metadata state) in
    save_recovery_state state ;;; ret state
  else ret state.

End PartialSyncRecovery.

(** ** The data classes of [models.py] *)

Module BottleInfo.
Record t : Type := mk {
  url : string;
  sha256 : string;
  size : Z
}.
End BottleInfo.

Module Formula.
Record t : Type := mk {
  name : string;
  version : string;
  bottles : PyDict.t BottleInfo.t
}.
End Formula.

Module HashEntry.

Record t : Type := mk {
  formula_name : string;
  version : string;
  platform : string;
  sha256 : string;
  download_date : string;
  file_size : Z
}.

(** The entry [from_dict] builds: the three fields read from the JSON
    document hold whatever the document holds until [validate] ran. *)
Record raw : Type := mk_raw {
  raw_formula_name : string;
  raw_version : string;
  raw_platform : string;
  raw_sha256 : Json;
  raw_download_date : Json;
  raw_file_size : Json
}.

Definition to_raw (self : t) : raw :=
  mk_raw (formula_name self) (version self) (platform self)
    (JStr (sha256 self)) (JStr (download_date self))
    (JInt (file_size self)).

Section Validate.
Context {DT : Datetime}.

(** [HashEntry.validate]. *)
Definition validate (self : t) : Res unit :=
  if String.eqb (formula_name self) "" then
    Raise (ValueError "Formula name cannot be empty")
  else if String.eqb (version self) "" then
    Raise (ValueError "Version cannot be empty")
  else if String.eqb (platform self) "" then
    Raise (ValueError "Platform cannot be empty")
  else if String.eqb (sha256 self) "" then
    Raise (ValueError "SHA256 hash cannot be empty")
  else if negb (PyStr.is_sha256_hex (sha256 self)) then
    Raise (ValueError "SHA256 hash must be 64 hexadecimal characters")
  else if String.eqb (download_date self) "" then
    Raise (ValueError "Download date cannot be empty")
  else
    match strptime_ymd (download_date self) with
    | None => Raise (ValueError "Download date must be in YYYY-MM-DD format")
    | Some _ =>
        if file_size self <=? 0 then
          Raise (ValueError "File size must be positive")
        else Ret tt
    end.

(** [HashEntry.validate] on an entry fresh from [from_dict]: the same
    checks in the same order; a value of the wrong type that is not
    falsy makes [re.match], [strptime] or [<=] raise [TypeError].  An
    entry that passes is well typed. *)
Definition validate_raw (self : raw) : Res t :=
  if String.eqb (raw_formula_name self) "" then
    Raise (ValueError "Formula name cannot be empty")
  else if String.eqb (raw_version self) "" then
    Raise (ValueError "Version cannot be empty")
  else if String.eqb (raw_platform self) "" then
    Raise (ValueError "Platform cannot be empty")
  else if negb (PyJson.truthy (raw_sha256 self)) then
    Raise (ValueError "SHA256 hash cannot be empty")
  else
    match raw_sha256 self with
    | JStr sha =>
        if negb (PyStr.is_sha256_hex sha) then
          Raise (ValueError "SHA256 hash must be 64 hexadecimal characters")
        else if negb (PyJson.truthy (raw_download_date self)) then
          Raise (ValueError "Download date cannot be empty")
        else
          match raw_download_date self with
          | JStr date =>
              match strptime_ymd date with
              | None =>
                  Raise (ValueError "Download date must be in YYYY-MM-DD format")
              | Some _ =>
                  match raw_file_size self with
                  | JInt sz =>
                      if sz <=? 0 then
                        Raise (ValueError "File size must be positive")
                      else
                        Ret (mk (raw_formula_name self) (raw_version self)
                               (raw_platform self) sha date sz)
                  | _ => Raise (TypeError "'<=' not supported")
                  end
              end
          | _ => Raise (TypeError "strptime() argument 1 must be str")
          end
    | _ => Raise (TypeError "expected string or bytes-like object")
    end.

End Validate.

(** [HashEntry.to_dict]. *)
Definition to_dict (self : t) : Json :=
  JObj [("sha256", JStr (sha256 self));
        ("download_date", JStr (download_date self));
        ("file_size", JInt (file_size self))].

(** [HashEntry.from_dict]. *)
Definition from_dict (formula_name version platform : string) (data : Json)
  : Res raw :=
  sha <-? PyJson.index "sha256" data ;;
  date <-? PyJson.index "download_date" data ;;
  sz <-? PyJson.index "file_size" data ;;
  Ret (mk_raw formula_name version platform sha date sz).

End HashEntry.

(** [f"{formula_name}-{version}-{platform}"]. *)
Definition bottle_key_of (formula_name version platform : string) : string :=
  formula_name ++ "-" ++ version ++ "-" ++ platform.

(** ** HashFileManager *)

Module HashFileManager.

(** The fields of the manager.  [last_updated] holds what
    [load_from_dict] read from the document, unchecked: a JSON value,
    [JNull] for [None].  The [s3_service] is passed to the methods that
    use it. *)
Record t : Type := mk {
  bottles : PyDict.t HashEntry.t;
  last_updated : Json
}.

Definition HASH_FILE_KEY : string := "bottles_hash.json".
Definition TEMP_HASH_FILE_KEY : string := "bottles_hash.json.tmp".

(** [HashFileManager(s3_service)]. *)
Definition init : t := mk [] JNull.

Definition set_bottles (b : PyDict.t HashEntry.t) (self : t) : t :=
  mk b (last_updated self).
Definition set_last_updated (v : Json) (self : t) : t :=
  mk (bottles self) v.

(** The state of a method that uses the store: the manager and the world. *)
Definition Sys (W : Type) : Type := (t * World W)%type.

Definition in_self {W A} (c : M t A) : M (Sys W) A :=
  fun s => let '(r, m) := c (fst s) in (r, (m, snd s)).

Definition in_world {W A} (c : M (World W) A) : M (Sys W) A :=
  fun s => let '(r, w) := c (snd s) in (r, (fst s, w)).

(** [HashFileManager.to_dict]; [now] is the timestamp the clock gives. *)
Definition to_dict (now : string) (self : t) : Json :=
  JObj [("last_updated",
          if PyJson.truthy (last_updated self) then last_updated self
          else JStr now);
        ("bottles",
          JObj (map (fun kv => (fst kv, HashEntry.to_dict (snd kv)))
                  (bottles self)))].

(** [HashFileManager.has_bottle]. *)
Definition has_bottle (self : t) (formula : Formula.t) (platform : string)
    (bottle : BottleInfo.t) : bool :=
  let bottle_key :=
    bottle_key_of (Formula.name formula) (Formula.version formula) platform in
  match PyDict.get bottle_key (bottles self) with
  | None => false
  | Some existing_entry =>
      String.eqb (HashEntry.sha256 existing_entry) (BottleInfo.sha256 bottle)
  end.

Section WithDatetime.
Context {DT : Datetime}.

(** One turn of the loop of [load_from_dict]. *)
Definition load_entry (bottle_key : string) (bottle_data : Json)
  : M t bool :=
  match PyStr.rsplit1 "-" bottle_key with
  | [formula_version; platform] =>
      match PyStr.rsplit1 "-" formula_version with
      | [formula_name; version] =>
          hash_entry <- lift_res
            (HashEntry.from_dict formula_name version platform bottle_data) ;;
          hash_entry <- lift_res (HashEntry.validate_raw hash_entry) ;;
          modify (fun self =>
            set_bottles (PyDict.set bottle_key hash_entry (bottles self))
              self) ;;;
          ret true
      | _ => ret true
      end
  | _ => ret true
  end.

(** [HashFileManager.load_from_dict]. *)
Definition load_from_dict (data : Json) : M t unit :=
  v <- lift_res (PyJson.get "last_updated" data) ;;
  modify (set_last_updated v) ;;;
  modify (set_bottles []) ;;;
  bottles_data <- lift_res (PyJson.get_default "bottles" (JObj []) data) ;;
  items <- lift_res (PyJson.items bottles_data) ;;
  for_each items (fun kv => load_entry (fst kv) (snd kv)).

(** [HashFileManager.add_bottle]. *)
Definition add_bottle (formula : Formula.t) (platform : string)
    (bottle : BottleInfo.t) (download_date : string) : M t unit :=
  let bottle_key :=
    bottle_key_of (Formula.name formula) (Formula.version formula)
      platform in
  let hash_entry :=
    HashEntry.mk (Formula.name formula) (Formula.version formula) platform
      (BottleInfo.sha256 bottle) download_date (BottleInfo.size bottle) in
  lift_res (HashEntry.validate hash_entry) ;;;
  modify (fun self =>
    set_bottles (PyDict.set bottle_key hash_entry (bottles self)) self).

(** The loop of [HashFileManager.validate] over the entries. *)
Fixpoint validate_all (entries : list HashEntry.t) : Res unit :=
  match entries with
  | [] => Ret tt
  | entry :: rest =>
      match HashEntry.validate entry with
      | Ret _ => validate_all rest
      | Raise e => Raise e
      end
  end.

(** [HashFileManager.validate]. *)
Definition validate (self : t) : Res unit :=
  validate_all (PyDict.values (bottles self)).

(** The date loop of [detect_corruption]: [Some true] at the first
    entry dated after [current_date] or with a date that does not
    parse; an entry older than two years is logged and passed. *)
Fixpoint check_dates (current_date : Z) (entries : list HashEntry.t)
  : bool :=
  match entries with
  | [] => false
  | entry :: rest =>
      match strptime_ymd (HashEntry.download_date entry) with
      | Some entry_date =>
          if entry_date >? current_date then true
          else check_dates current_date rest
      | None => true
      end
  end.

(** [except (ValueError, KeyError)] around the body of
    [detect_corruption]. *)
Definition catch_value_key (r : Res bool) : Res bool :=
  match r with
  | Raise (ValueError _) | Raise (KeyError _) => Ret true
  | other => other
  end.

(** [HashFileManager.detect_corruption]; [current_date] is the day
    number of [datetime.now(timezone.utc).date()]. *)
Definition detect_corruption (current_date : Z) (self : t) : Res bool :=
  catch_value_key
    (_ <-? validate self ;;
     if negb (PyJson.truthy (last_updated self)) then Ret true
     else
       match last_updated self with
       | JStr stamp =>
           match fromisoformat (PyStr.replace_Z stamp) with
           | None => Ret true
           | Some _ =>
               let bottle_keys := PyDict.keys (bottles self) in
               if negb (List.length bottle_keys =?
                        List.length (nodup string_dec bottle_keys))%nat
               then Ret true
               else if existsb
                    (fun kv =>
                       negb (String.eqb (fst kv)
                               (bottle_key_of
                                  (HashEntry.formula_name (snd kv))
                                  (HashEntry.version (snd kv))
                                  (HashEntry.platform (snd kv)))))
                    (bottles self)
               then Ret true
               else if existsb
                    (fun entry =>
                       (HashEntry.file_size entry <=? 0)
                       || (HashEntry.file_size entry >?
                           10 * 1024 * 1024 * 1024))
                    (PyDict.values (bottles self))
               then Ret true
               else Ret (check_dates current_date
                           (PyDict.values (bottles self)))
           end
       | _ => Raise (AttributeError "replace")
       end).

End WithDatetime.

(** *** The methods that go to the store *)

Section WithService.
Context {DT : Datetime} {W : Type}.

(** [HashFileManager._copy_s3_object]. *)
Definition _copy_s3_object (svc : S3Service W)
    (source_key dest_key : string) : M (World W) bool :=
  try_except
    (s3_copy_object svc source_key dest_key ;;; ret true)
    (fun _ => ret false).

(** [HashFileManager.save_to_s3_atomic]; [s3_service] is [None] for a
    manager built without one, and [now] is the timestamp of the
    clock.  The read-back is compared with [self.last_updated], which
    the first statement set to [now]. *)
Definition save_to_s3_atomic (s3_service : option (S3Service W))
    (now : string) : M (Sys W) bool :=
  match s3_service with
  | None => raise (ValueError "S3 service not configured")
  | Some svc =>
      try_except
        (in_self (modify (set_last_updated (JStr now))) ;;;
         self <- in_self get_state ;;
         let data := to_dict now self in
         uploaded <- in_world
           (s3_upload_json svc data TEMP_HASH_FILE_KEY None) ;;
         if negb uploaded then ret false
         else
           temp_data <- in_world
             (s3_download_json svc TEMP_HASH_FILE_KEY) ;;
           match temp_data with
           | None | Some JNull => ret false
           | Some temp_data =>
               stamp <- lift_res (PyJson.get "last_updated" temp_data) ;;
               if negb (PyJson.eq_str stamp now) then ret false
               else
                 copied <- in_world
                   (_copy_s3_object svc TEMP_HASH_FILE_KEY HASH_FILE_KEY) ;;
                 if negb copied then ret false
                 else
                   in_world (s3_delete_object svc TEMP_HASH_FILE_KEY) ;;;
                   ret true
           end)
        (fun _ =>
           in_world (s3_delete_object svc TEMP_HASH_FILE_KEY) ;;;
           ret false)
  end.

(** One turn of the loop of [rebuild_from_s3_metadata]. *)
Definition rebuild_entry (svc : S3Service W) (obj : S3Object)
  : M (Sys W) bool :=
  let key := obj_key obj in
  if negb (PyStr.endswith key ".bottle.tar.gz") then ret true
  else
    let path_parts := PyStr.split "/" key in
    if (List.length path_parts <? 2)%nat then ret true
    else
      let date_folder := hd "" path_parts in
      let filename := last path_parts "" in
      match strptime_ymd date_folder with
      | None => ret true
      | Some _ =>
          if negb (PyStr.endswith filename ".bottle.tar.gz") then ret true
          else
            let base_name :=
              PyStr.drop_last (String.length ".bottle.tar.gz") filename in
            let parts := PyStr.split "." base_name in
            if (List.length parts <? 2)%nat then ret true
            else
              let platform := last parts "" in
              let formula_version := PyStr.join "." (removelast parts) in
              match PyStr.rsplit1 "-" formula_version with
              | [formula_name; version] =>
                  metadata <- in_world (s3_get_object_metadata svc key) ;;
                  match metadata with
                  | None => ret true
                  | Some metadata =>
                      let bottle_key :=
                        bottle_key_of formula_name version platform in
                      let hash_entry :=
                        HashEntry.mk formula_name version platform
                          "unknown" date_folder (meta_size metadata) in
                      in_self (modify (fun self =>
                        set_bottles
                          (PyDict.set bottle_key hash_entry (bottles self))
                          self)) ;;;
                      ret true
                  end
              | _ => ret true
              end
      end.

(** [HashFileManager.rebuild_from_s3_metadata]. *)
Definition rebuild_from_s3_metadata (s3_service : option (S3Service W))
    (now : string) : M (Sys W) bool :=
  match s3_service with
  | None => raise (ValueError "S3 service not configured")
  | Some svc =>
      try_except
        (in_self (modify (set_bottles [])) ;;;
         in_self (modify (set_last_updated JNull)) ;;;
         objects <- in_world (s3_list_objects svc "" 10000) ;;
         for_each objects (rebuild_entry svc) ;;;
         in_self (modify (set_last_updated (JStr now))) ;;;
         ret true)
        (fun _ => ret false)
  end.

End WithService.

End HashFileManager.

(** ** An object store in memory, with faults to inject

    The store the examples run on: a dictionary of objects, and switches
    that make single calls fail the way S3 calls fail. *)

Module MemS3.

Record object : Type := mk_object {
  body : Json;
  size : Z
}.

Record faults : Type := mk_faults {
  put_fails : bool;         (** [upload_json] answers [False] *)
  put_garbles : bool;       (** the object written is not the one sent *)
  get_fails : bool;         (** [download_json] answers [None] *)
  copy_fails : bool;        (** [copy_object] raises [ClientError] *)
  delete_raises : bool      (** [delete_object] raises a connection error *)
}.

Record state : Type := mk_state {
  objects : PyDict.t object;
  plan : faults
}.

Definition no_faults : faults := mk_faults false false false false false.

Fixpoint remove {V} (k : string) (d : PyDict.t V) : PyDict.t V :=
  match d with
  | [] => []
  | (k', v) :: rest =>
      if String.eqb k' k then rest else (k', v) :: remove k rest
  end.

Definition garbled : Json := JObj [("last_updated", JStr "garbled")].

Definition put (data : Json) (key : string)
    (md : option (list (string * string))) (st : state) : bool * state :=
  if put_fails (plan st) then (false, st)
  else
    let written := if put_garbles (plan st) then garbled else data in
    (true, mk_state (PyDict.set key (mk_object written 0) (objects st))
             (plan st)).

Definition get (key : string) (st : state) : option Json * state :=
  if get_fails (plan st) then (None, st)
  else (option_map body (PyDict.get key (objects st)), st).

Definition delete (key : string) (st : state) : Res bool * state :=
  if delete_raises (plan st) then (Raise (ConnectionError "reset"), st)
  else (Ret true, mk_state (remove key (objects st)) (plan st)).

Definition copy (src dst : string) (st : state) : Res unit * state :=
  if copy_fails (plan st) then (Raise (ClientError "InternalError" "copy"), st)
  else
    match PyDict.get src (objects st) with
    | Some o => (Ret tt, mk_state (PyDict.set dst o (objects st)) (plan st))
    | None => (Raise (ClientError "NoSuchKey" src), st)
    end.

Definition exists_ (key : string) (st : state) : bool * state :=
  (PyDict.mem key (objects st), st).

Definition list_ (prefix : string) (max_keys : Z) (st : state)
  : Res (list S3Object) * state :=
  (Ret (firstn (Z.to_nat max_keys)
          (map (fun kv => mkS3Object (fst kv) (size (snd kv)))
             (filter (fun kv => String.prefix prefix (fst kv))
                (objects st)))),
   st).

Definition head (key : string) (st : state)
  : Res (option ObjectMetadata) * state :=
  (Ret (option_map (fun o => mkObjectMetadata (size o))
          (PyDict.get key (objects st))),
   st).

Definition service : S3Service state :=
  mkS3Service put get delete copy exists_ list_ head.

(** What is stored under a key. *)
Definition content (st : state) (key : string) : option object :=
  PyDict.get key (objects st).

Definition world (objs : PyDict.t object) (f : faults) : World state :=
  mkWorld (mk_state objs f) [].

End MemS3.

(** ** A calendar for the examples

    An instance of [Datetime] that reads zero-padded [YYYY-MM-DD] dates and
    [YYYY-MM-DDTHH:MM:SS] timestamps with an optional [+00:00]. *)

Module Calendar.

Definition digit (a : ascii) : option Z :=
  let n := nat_of_ascii a in
  if ((48 <=? n) && (n <=? 57))%nat then Some (Z.of_nat n - 48) else None.

Fixpoint number_from (acc : Z) (s : string) : option Z :=
  match s with
  | EmptyString => Some acc
  | String a rest =>
      match digit a with
      | Some d => number_from (10 * acc + d) rest
      | None => None
      end
  end.

Definition number (s : string) : option Z :=
  match s with
  | EmptyString => None
  | _ => number_from 0 s
  end.

Definition is_leap (y : Z) : bool :=
  ((y mod 4 =? 0) && negb (y mod 100 =? 0)) || (y mod 400 =? 0).

Definition days_in_month (y m : Z) : Z :=
  if m =? 2 then (if is_leap y then 29 else 28)
  else if (m =? 4) || (m =? 6) || (m =? 9) || (m =? 11) then 30
  else 31.

(** Days since 1970-01-01 of a civil date. *)
Definition days_from_civil (y m d : Z) : Z :=
  let y' := if m <=? 2 then y - 1 else y in
  let era := y' / 400 in
  let yoe := y' - era * 400 in
  let mp := (m + 9) mod 12 in
  let doy := (153 * mp + 2) / 5 + d - 1 in
  let doe := yoe * 365 + yoe / 4 - yoe / 100 + doy in
  era * 146097 + doe - 719468.

Definition ymd (s : string) : option Z :=
  if negb (String.length s =? 10)%nat then None
  else if negb (String.eqb (String.substring 4 1 s) "-"
                && String.eqb (String.substring 7 1 s) "-") then None
  else
    match number (String.substring 0 4 s),
          number (String.substring 5 2 s),
          number (String.substring 8 2 s) with
    | Some y, Some m, Some d =>
        if (1 <=? y) && (1 <=? m) && (m <=? 12) && (1 <=? d)
           && (d <=? days_in_month y m)
        then Some (days_from_civil y m d) else None
    | _, _, _ => None
    end.

Definition hms (s : string) : option Z :=
  if negb (String.length s =? 8)%nat then None
  else if negb (String.eqb (String.substring 2 1 s) ":"
                && String.eqb (String.substring 5 1 s) ":") then None
  else
    match number (String.substring 0 2 s),
          number (String.substring 3 2 s),
          number (String.substring 6 2 s) with
    | Some h, Some m, Some sec =>
        if (h <? 24) && (m <? 60) && (sec <? 60)
        then Some (h * 3600 + m * 60 + sec) else None
    | _, _, _ => None
    end.

Definition iso (s : string) : option IsoTime :=
  match ymd (String.substring 0 10 s),
        hms (String.substring 11 8 s) with
  | Some days, Some secs =>
      if negb (String.eqb (String.substring 10 1 s) "T") then None
      else
        let us := (days * 86400 + secs) * 1000000 in
        let tail := String.substring 19 (String.length s - 19) s in
        if String.eqb tail "" then Some (Naive us)
        else if String.eqb tail "+00:00" then Some (Aware us)
        else None
  | _, _ => None
  end.

Definition datetime : Datetime := Build_Datetime ymd iso.

End Calendar.

(** ** Python's floats

    IEEE 754 binary64, computed by the standard library's specification of
    floating-point numbers. *)

Module Binary64.

Definition t : Type := SpecFloat.spec_float.

Definition prec : Z := 53.
Definition emax : Z := 1024.

(** The float nearest to [m * 2 ^ e]. *)
Definition dyadic (m e : Z) : t :=
  SpecFloat.binary_normalize prec emax m e false.

Definition zero : t := SpecFloat.S754_zero false.
Definition one : t := dyadic 1 0.
Definition tenth : t := dyadic 7205759403792794 (-56).

Definition neg : t -> t := SpecFloat.SFopp.
Definition add : t -> t -> t := SpecFloat.SFadd prec emax.
Definition mul : t -> t -> t := SpecFloat.SFmul prec emax.
Definition ltb : t -> t -> bool := SpecFloat.SFltb.
Definition leb : t -> t -> bool := SpecFloat.SFleb.

Definition is_finite (x : t) : bool :=
  match x with
  | SpecFloat.S754_zero _ | SpecFloat.S754_finite _ _ _ => true
  | _ => false
  end.

(** [x ** n] for [n >= 0].  The C library rounds the power once; here the
    factors are multiplied and every product is rounded, which gives the
    same float wherever the products are exact, as they are for the powers
    of two of the examples.  A finite [x] with an infinite power is the
    overflow Python reports. *)
Definition pow (x : t) (n : N) : option t :=
  match n with
  | N0 => Some one
  | Npos p =>
      let y := Pos.iter_op mul p x in
      if is_finite x && negb (is_finite y) then None else Some y
  end.

Definition float_ops : FloatOps t :=
  {| f_zero := zero;
     f_one := one;
     f_tenth := tenth;
     f_neg := neg;
     f_add := add;
     f_mul := mul;
     f_pow := pow;
     f_ltb := ltb;
     f_leb := leb;
     f_pow_0 := fun _ => eq_refl |}.

End Binary64.

#[global] Existing Instance Binary64.float_ops.

(** * What the specification says, as definitions *)

(** The decision table of the recovery-action resolver, row by row as the
    specification words it; attempts are numbered from 1. *)
Definition decision_table (kind : ErrorType) (message : string) (attempt : Z)
  : RecoveryAction :=
  match kind with
  | NETWORK_ERROR => if attempt <? 5 then RETRY else SKIP
  | S3_ERROR =>
      if PyStr.contains "NoSuchKey" message then SKIP
      else if attempt <? 3 then RETRY else SKIP
  | HASH_CORRUPTION => REBUILD
  | RESOURCE_EXHAUSTION => if attempt <? 10 then RETRY else ABORT
  | VALIDATION_ERROR => SKIP
  | AUTHENTICATION_ERROR => ABORT
  | TIMEOUT_ERROR => if attempt <? 3 then RETRY else SKIP
  | UNKNOWN_ERROR => if attempt =? 1 then RETRY else SKIP
  end.

(** The exceptions the retry engine treats as worth another attempt. *)
Definition retryable_exc (e : PyExc) : bool :=
  match e with
  | ConnectionError _ | TimeoutError _ => true
  | ClientError error_code _ =>
      existsb (String.eqb error_code)
        ["Throttling"; "ThrottlingException"; "RequestLimitExceeded";
         "ServiceUnavailable"; "InternalError"; "SlowDown"]
  | ValueError _ | KeyError _ | PermissionError _ => false
  | _ => true
  end.

(** How many times a log shows the wrapped function being called. *)
Fixpoint invocations (l : list Event) : nat :=
  match l with
  | [] => 0
  | EvInvoke _ :: rest => S (invocations rest)
  | _ :: rest => invocations rest
  end.

(** Retry delay monotonicity, in the specification's words: "for
    [jitter=false], [calculate_delay(n+1) >= calculate_delay(n)] for all
    [n] up to the point [max_delay] is reached, after which it plateaus".
    From one attempt to the next the delay does not fall. *)
Definition delay_never_falls {F : Type} {FO : FloatOps F}
    (self : @RetryHandler F) (uniform : F -> F -> F) : Prop :=
  forall n d1 d2,
    calculate_delay self uniform n = Ret d1 ->
    calculate_delay self uniform (n + 1) = Ret d2 ->
    f_leb d1 d2 = true.

(** * Inputs of the examples *)

Definition network_at (n : Z) : ErrorContext :=
  mkErrorContext NETWORK_ERROR "Connection reset" "download_bottle" None n
    None None [].

(** The retry policy [RetryConfig()] gives: three attempts, a base delay
    of 1.0, at most 60.0, doubling, with jitter; with a metrics client. *)
Definition three_attempts : @RetryHandler Binary64.t :=
  mkRetryHandler
    (mkRetryConfig 3 Binary64.one (Binary64.dyadic 60 0)
       (Binary64.dyadic 2 0) true Binary64.one)
    true.

(** The draws of a generator that answers [0.0] at every attempt:
    [random.uniform(a, b)] is then [a]. *)
Definition lowest_draw : Z -> Binary64.t -> Binary64.t -> Binary64.t :=
  fun _ a _ => a.

(** The same policy without jitter, and one that halves the delay where
    the first doubles it: [RetryConfig(exponential_base=0.5, jitter=False)]. *)
Definition doubling : @RetryHandler Binary64.t :=
  mkRetryHandler
    (mkRetryConfig 3 Binary64.one (Binary64.dyadic 60 0)
       (Binary64.dyadic 2 0) false Binary64.one)
    false.

Definition halving : @RetryHandler Binary64.t :=
  mkRetryHandler
    (mkRetryConfig 3 Binary64.one (Binary64.dyadic 60 0)
       (Binary64.dyadic 1 (-1)) false Binary64.one)
    false.

(** [RetryConfig(max_attempts=1027)]: a policy that tries for longer than
    the powers of two last. *)
Definition patient : @RetryHandler Binary64.t :=
  mkRetryHandler
    (mkRetryConfig 1027 Binary64.one (Binary64.dyadic 60 0)
       (Binary64.dyadic 2 0) true Binary64.one)
    false.

(** A function that counts its calls in the store and always fails with a
    connection error, and one that always fails with a [ValueError]. *)
Definition always_reset (calls : nat) : Res unit * nat :=
  (Raise (ConnectionError "reset"), S calls).

Definition always_invalid (calls : nat) : Res unit * nat :=
  (Raise (ValueError "bad input"), S calls).

(** The three collections of a recovery state hold no identifier twice
    over: what the specification calls the invariant of [RecoveryState]. *)
Definition exclusive (st : RecoveryState) : Prop :=
  forall id,
    ~ (In id (completed_bottles st) /\ In id (failed_bottles st)) /\
    ~ (In id (completed_bottles st) /\ In id (skipped_bottles st)) /\
    ~ (In id (failed_bottles st) /\ In id (skipped_bottles st)).

(** The ledger of a sync that has just started. *)
Definition fresh_ledger : RecoveryState :=
  mkRecoveryState "sync-2024-05-01" "2024-05-01T00:00:00+00:00" None
    [] [] [] 1 None (JObj []).

(** A bottle that fails and, tried again, completes. *)
Definition failed_then_completed
  : Res RecoveryState * World MemS3.state :=
  (st <- update_progress MemS3.service "2024-05-01T00:05:00Z" fresh_ledger
           "wget-1.21.4-arm64_sonoma" "failed" ;;
   update_progress MemS3.service "2024-05-01T00:06:00Z" st
     "wget-1.21.4-arm64_sonoma" "completed")
    (MemS3.world [] MemS3.no_faults).

(** A store that holds the checkpoint of an earlier sync, started on
    2024-05-01 at midnight UTC, and an empty store. *)
Definition earlier_sync : RecoveryState :=
  mkRecoveryState "sync-2024-05-01" "2024-05-01T00:00:00Z"
    (Some "wget-1.21.4-arm64_sonoma") ["wget-1.21.4-arm64_sonoma"] [] [] 12
    (Some "2024-05-01T00:05:00Z") (JObj []).

Definition earlier_sync_start_us : Z := 1714521600 * 1000000.

Definition store_with_checkpoint : World MemS3.state :=
  MemS3.world
    [(RECOVERY_STATE_KEY,
      MemS3.mk_object (RecoveryStateJson.to_dict earlier_sync) 0)]
    MemS3.no_faults.

Definition empty_store : World MemS3.state :=
  MemS3.world [] MemS3.no_faults.

(** What a store must guarantee for the canonical document to be safe: a
    call on one key leaves what is stored under every other key alone.
    [content s k] is what a reader finds under [k] in the store [s]. *)
Record S3Frame {W C : Type} (svc : S3Service W)
    (content : W -> string -> option C) : Prop := mkS3Frame {
  upload_frame : forall data key md s k,
    k <> key -> content (snd (upload_json svc data key md s)) k = content s k;
  download_frame : forall key s k,
    content (snd (download_json svc key s)) k = content s k;
  delete_frame : forall key s k,
    k <> key -> content (snd (delete_object svc key s)) k = content s k
}.

(** A manager that holds one bottle, and a store that holds the canonical
    document of an earlier save. *)
Definition wget_entry : HashEntry.t :=
  HashEntry.mk "wget" "1.21.4" "arm64_sonoma"
    "0123456789abcdef0123456789abcdef0123456789abcdef0123456789abcdef"
    "2024-04-30" 1048576.

Definition one_bottle : HashFileManager.t :=
  HashFileManager.mk [("wget-1.21.4-arm64_sonoma", wget_entry)]
    (JStr "2024-04-30T12:00:00Z").

Definition earlier_document : MemS3.object :=
  MemS3.mk_object (HashFileManager.to_dict "2024-04-30T12:00:00Z" one_bottle) 0.

Definition store_with_canonical (f : MemS3.faults) : World MemS3.state :=
  MemS3.world [(HashFileManager.HASH_FILE_KEY, earlier_document)] f.

Definition garbling : MemS3.faults :=
  MemS3.mk_faults false true false false false.
Definition failing_put : MemS3.faults :=
  MemS3.mk_faults true false false false false.
Definition failing_get : MemS3.faults :=
  MemS3.mk_faults false false true false false.
Definition failing_copy : MemS3.faults :=
  MemS3.mk_faults false false false true false.

(** Whether a log shows a request to delete [key]. *)
Definition deletes (key : string) (l : list Event) : bool :=
  existsb (fun ev => match ev with
                     | EvDelete k => String.eqb k key
                     | _ => false
                     end) l.

(** [to_dict] and then [load_from_dict] into a new manager. *)
Definition round_trip {DT : Datetime} (now : string)
    (self : HashFileManager.t) : Res unit * HashFileManager.t :=
  HashFileManager.load_from_dict (HashFileManager.to_dict now self)
    HashFileManager.init.

(** [c not in s]. *)
Fixpoint lacks (c : ascii) (s : string) : bool :=
  match s with
  | EmptyString => true
  | String a rest => negb (Ascii.eqb a c) && lacks c rest
  end.

(** An entry stored under the key made of its own fields, with no hyphen
    in its version or platform, so that the key reads back as these
    fields. *)
Definition keyed_by_fields (key : string) (entry : HashEntry.t) : Prop :=
  key = bottle_key_of (HashEntry.formula_name entry)
          (HashEntry.version entry) (HashEntry.platform entry) /\
  lacks "-" (HashEntry.version entry) = true /\
  lacks "-" (HashEntry.platform entry) = true.

(** An entry as [rebuild_from_s3_metadata] makes them, and one whose
    version has a hyphen. *)
Definition rebuilt_entry : HashEntry.t :=
  HashEntry.mk "wget" "1.21.4" "arm64_sonoma" "unknown" "2024-04-30" 1048576.

Definition rc_entry : HashEntry.t :=
  HashEntry.mk "node" "22.0.0-rc1" "arm64_sonoma"
    "0123456789abcdef0123456789abcdef0123456789abcdef0123456789abcdef"
    "2024-04-30" 1048576.

(** A bucket with three bottles under a date folder, the canonical
    document, and a stray file. *)
Definition bucket_with_bottles : World MemS3.state :=
  MemS3.world
    [("2024-04-30/wget-1.21.4.arm64_sonoma.bottle.tar.gz",
      MemS3.mk_object JNull 1048576);
     ("2024-04-30/wget-1.21.4.arm64_ventura.bottle.tar.gz",
      MemS3.mk_object JNull 1048570);
     ("2024-04-30/openssl@3-3.3.0.monterey.bottle.tar.gz",
      MemS3.mk_object JNull 8388608);
     (HashFileManager.HASH_FILE_KEY, earlier_document);
     ("notes/readme.txt", MemS3.mk_object JNull 12)]
    MemS3.no_faults.

(** The manager after [rebuild_from_s3_metadata] on that bucket. *)
Definition rebuilt_manager : HashFileManager.t :=
  fst (snd (@HashFileManager.rebuild_from_s3_metadata Calendar.datetime _
              (Some MemS3.service) "2024-05-01T08:00:00Z"
              (one_bottle, bucket_with_bottles))).

(** A candidate bottle with a real hash. *)
Definition wget_formula : Formula.t := Formula.mk "wget" "1.21.4" [].

Definition wget_bottle : BottleInfo.t :=
  BottleInfo.mk "https://ghcr.io/v2/homebrew/core/wget/blobs/sha256"
    "0123456789abcdef0123456789abcdef0123456789abcdef0123456789abcdef"
    1048576.

(** Every entry of a dictionary of bottles carries the placeholder hash. *)
Definition all_unknown (d : PyDict.t HashEntry.t) : Prop :=
  forall k e, In (k, e) d -> HashEntry.sha256 e = "unknown".

(** Whether an event is a request to copy. *)
Definition is_copy (ev : Event) : bool :=
  match ev with
  | EvCopy _ _ => true
  | _ => false
  end.

(** * More of the code *)

(** ** ErrorClassifier: from an exception to its kind *)

Section ErrorClassifier.
(** [str(error)] and [str.lower], as Python computes them. *)
Variable py_str : PyExc -> string.
Variable lower : string -> string.

Definition code_in (error_code : string) (codes : list string) : bool :=
  existsb (String.eqb error_code) codes.

(** [ErrorClassifier._determine_error_type]. *)
Definition _determine_error_type (error : PyExc) : ErrorType :=
  match error with
  | ConnectionError _ | TimeoutError _ => NETWORK_ERROR
  | ClientError error_code _ =>
      if code_in error_code ["NoSuchBucket"; "NoSuchKey"; "AccessDenied"]
      then S3_ERROR
      else if code_in error_code ["InvalidRequest"; "MalformedPolicy"]
      then VALIDATION_ERROR
      else if code_in error_code ["Throttling"; "RequestLimitExceeded"]
      then RESOURCE_EXHAUSTION
      else if code_in error_code ["SignatureDoesNotMatch"; "InvalidAccessKeyId"]
      then AUTHENTICATION_ERROR
      else S3_ERROR
  | ValueError _ | KeyError _ => VALIDATION_ERROR
  | PermissionError _ => AUTHENTICATION_ERROR
  | _ =>
      if PyStr.contains "timeout" (lower (py_str error)) then TIMEOUT_ERROR
      else if PyStr.contains "hash" (lower (py_str error))
              || PyStr.contains "corruption" (lower (py_str error))
      then HASH_CORRUPTION
      else UNKNOWN_ERROR
  end.

(** [ErrorClassifier.classify_error]; [now] is the timestamp
    [ErrorContext.__post_init__] takes from the clock, [trace] is
    [traceback.format_exc()], and [type_name], [type_module] are the name
    and the module of the exception's class. *)
Definition classify_error (now trace type_name type_module : string)
    (error : PyExc) (operation : string) : ErrorContext :=
  mkErrorContext (_determine_error_type error) (py_str error) operation
    None 1 (Some now) (Some trace)
    [("exception_type", type_name); ("exception_module", type_module)].

End ErrorClassifier.

(** An error context at another attempt, as a caller that counts attempts
    builds it. *)
Definition at_attempt (ctx : ErrorContext) (attempt : Z) : ErrorContext :=
  mkErrorContext (error_type ctx) (error_message ctx) (operation ctx)
    (resource_id ctx) attempt (timestamp ctx) (stack_trace ctx)
    (metadata ctx).

(** How many times a log shows the retry engine going to sleep. *)
Fixpoint sleeps (l : list Event) : nat :=
  match l with
  | [] => 0
  | EvSleep _ :: rest => S (sleeps rest)
  | _ :: rest => sleeps rest
  end.

(** How many uploads a log shows. *)
Fixpoint uploads (l : list Event) : nat :=
  match l with
  | [] => 0
  | EvUpload _ _ :: rest => S (uploads rest)
  | _ :: rest => uploads rest
  end.

(** ** BottleInfo and Formula *)

(** [re.match(r'^[a-zA-Z0-9_-]+$', s)]: one or more of these characters;
    [$] also matches just before one final newline. *)
Definition is_name_char (a : ascii) : bool :=
  let n := nat_of_ascii a in
  ((48 <=? n) && (n <=? 57) || (65 <=? n) && (n <=? 90)
   || (97 <=? n) && (n <=? 122) || (n =? 95) || (n =? 45))%nat.

Definition is_formula_name (s : string) : bool :=
  let l := list_ascii_of_string s in
  match List.rev l with
  | [] => false
  | last_char :: before =>
      forallb is_name_char l
      || (Ascii.eqb last_char "010"%char
          && match before with [] => false | _ => forallb is_name_char before end)
  end.

(** [BottleInfo.validate]. *)
Definition bottle_info_validate (self : BottleInfo.t) : Res unit :=
  if String.eqb (BottleInfo.url self) "" then
    Raise (ValueError "Bottle URL cannot be empty")
  else if negb (String.prefix "http://" (BottleInfo.url self)
                || String.prefix "https://" (BottleInfo.url self)) then
    Raise (ValueError "Bottle URL must be a valid HTTP/HTTPS URL")
  else if String.eqb (BottleInfo.sha256 self) "" then
    Raise (ValueError "SHA256 hash cannot be empty")
  else if negb (PyStr.is_sha256_hex (BottleInfo.sha256 self)) then
    Raise (ValueError "SHA256 hash must be 64 hexadecimal characters")
  else if BottleInfo.size self <=? 0 then
    Raise (ValueError "Bottle size must be positive")
  else Ret tt.

(** The loop of [Formula.validate] over the bottles. *)
Fixpoint formula_validate_bottles (items : list (string * BottleInfo.t))
  : Res unit :=
  match items with
  | [] => Ret tt
  | (platform, bottle) :: rest =>
      if String.eqb platform "" then
        Raise (ValueError "Platform name cannot be empty")
      else
        match bottle_info_validate bottle with
        | Ret _ => formula_validate_bottles rest
        | Raise e => Raise e
        end
  end.

(** [Formula.validate]. *)
Definition formula_validate (self : Formula.t) : Res unit :=
  if String.eqb (Formula.name self) "" then
    Raise (ValueError "Formula name cannot be empty")
  else if negb (is_formula_name (Formula.name self)) then
    Raise (ValueError "Formula name must contain only alphanumeric characters, hyphens, and underscores")
  else if String.eqb (Formula.version self) "" then
    Raise (ValueError "Formula version cannot be empty")
  else formula_validate_bottles (Formula.bottles self).

(** [Formula.get_target_bottles]. *)
Definition get_target_bottles (self : Formula.t)
    (target_platforms : list string) : PyDict.t BottleInfo.t :=
  filter (fun kv => str_in (fst kv) target_platforms) (Formula.bottles self).

(** [xs] with [id] appended unless it is there: what [update_progress] does
    to the collection a status names. *)
Definition add_once (id : string) (xs : list string) : list string :=
  if str_in id xs then xs else (xs ++ [id])%list.

(** The entry [add_bottle] builds for a bottle. *)
Definition entry_of (formula : Formula.t) (platform : string)
    (bottle : BottleInfo.t) (download_date : string) : HashEntry.t :=
  HashEntry.mk (Formula.name formula) (Formula.version formula) platform
    (BottleInfo.sha256 bottle) download_date (BottleInfo.size bottle).

(** A manager in order: every key once, every entry valid and stored under
    the key made of its own fields. *)
Definition in_order {DT : Datetime} (self : HashFileManager.t) : Prop :=
  PyDict.wf (HashFileManager.bottles self) /\
  forall k e,
    In (k, e) (HashFileManager.bottles self) ->
    k = bottle_key_of (HashEntry.formula_name e) (HashEntry.version e)
          (HashEntry.platform e) /\
    HashEntry.validate e = Ret tt.

(** Ten gibibytes, the largest file size [detect_corruption] takes. *)
Definition TEN_GIB : Z := 10 * 1024 * 1024 * 1024.

(** ** Keys of external hash files *)

(** [HashFileManager._normalize_bottle_key]; [standard_format k] is
    [re.match(r'^[a-zA-Z0-9_-]+-[a-zA-Z0-9._-]+-[a-zA-Z0-9_]+$', k)]. *)
Definition _normalize_bottle_key (standard_format : string -> bool)
    (bottle_key : string) : string :=
  if standard_format bottle_key then bottle_key
  else
    let parts := PyStr.split "-" bottle_key in
    if (3 <=? List.length parts)%nat then
      let platform := last parts "" in
      let version := nth (List.length parts - 2) parts "" in
      let formula := PyStr.join "-" (firstn (List.length parts - 2) parts) in
      formula ++ "-" ++ version ++ "-" ++ platform
    else bottle_key.

(** A formula with two bottles, as the Homebrew API describes it. *)
Definition wget_with_bottles : Formula.t :=
  Formula.mk "wget" "1.21.4"
    [("arm64_sonoma", wget_bottle);
     ("x86_64_linux",
      BottleInfo.mk "https://ghcr.io/v2/homebrew/core/wget/blobs/linux"
        "fedcba9876543210fedcba9876543210fedcba9876543210fedcba9876543210"
        2097152)].

(** ** Loading the hash file from the store *)

(** The exceptions [except (ValueError, KeyError)] catches. *)
Definition is_value_or_key_error (e : PyExc) : bool :=
  match e with
  | ValueError _ | KeyError _ => true
  | _ => false
  end.

(** [try: c  except (ValueError, KeyError) as e: h e]; any other exception
    goes on to the caller. *)
Definition try_except_value_key {S A} (c : M S A) (h : PyExc -> M S A)
  : M S A :=
  fun s =>
    match c s with
    | (Ret a, s') => (Ret a, s')
    | (Raise e, s') =>
        if is_value_or_key_error e then h e s' else (Raise e, s')
    end.

(** [bool(s)] for an optional string. *)
Definition opt_truthy (s : option string) : bool :=
  match s with
  | Some x => negb (String.eqb x "")
  | None => false
  end.

Section LoadFromS3.
Context {DT : Datetime} {W : Type}.

(** [data is not None] followed by the guarded [load_from_dict]: whether
    the document was there and loaded. *)
Definition load_if_present (data : option Json)
  : M (HashFileManager.Sys W) bool :=
  match data with
  | None | Some JNull => ret false
  | Some data =>
      try_except_value_key
        (HashFileManager.in_self (HashFileManager.load_from_dict data) ;;;
         ret true)
        (fun _ => ret false)
  end.

(** [HashFileManager.load_from_s3]; [bucket_name] is
    [self.s3_service.bucket_name] and [connect b] is the service
    [S3Service(b, region_name)] builds for another bucket. *)
Definition load_from_s3 (s3_service : option (S3Service W))
    (bucket_name : string) (connect : string -> S3Service W)
    (external_key external_bucket : option string)
  : M (HashFileManager.Sys W) bool :=
  match s3_service with
  | None => raise (ValueError "S3 service not configured")
  | Some svc =>
      loaded <-
        (if opt_truthy external_key then
           let key := match external_key with Some k => k | None => "" end in
           data <-
             (if opt_truthy external_bucket
                 && negb (String.eqb
                            (match external_bucket with
                             | Some b => b
                             | None => ""
                             end) bucket_name)
              then
                HashFileManager.in_world
                  (s3_download_json
                     (connect (match external_bucket with
                               | Some b => b
                               | None => ""
                               end)) key)
              else HashFileManager.in_world (s3_download_json svc key)) ;;
           load_if_present data
         else ret false) ;;
      if loaded then ret true
      else
        data <- HashFileManager.in_world
                  (s3_download_json svc HashFileManager.HASH_FILE_KEY) ;;
        load_if_present data
  end.

End LoadFromS3.

(** How many downloads of [key] a log shows. *)
Fixpoint downloads_of (key : string) (l : list Event) : nat :=
  match l with
  | [] => 0
  | EvDownload k :: rest =>
      if String.eqb k key then S (downloads_of key rest)
      else downloads_of key rest
  | _ :: rest => downloads_of key rest
  end.

(** A store whose requests to delete are answered with a dropped
    connection. *)
Definition failing_delete : MemS3.faults :=
  MemS3.mk_faults false false false false true.

(** How often [c] occurs in [s]. *)
Fixpoint occurrences (c : ascii) (s : string) : nat :=
  match s with
  | EmptyString => 0
  | String a rest =>
      if Ascii.eqb a c then S (occurrences c rest) else occurrences c rest
  end.

(** Every entry carries the placeholder hash and sits under the key made
    of its own fields: the entries of a rebuild. *)
Definition all_rebuilt (d : PyDict.t HashEntry.t) : Prop :=
  forall k e,
    In (k, e) d ->
    HashEntry.sha256 e = "unknown" /\
    k = bottle_key_of (HashEntry.formula_name e) (HashEntry.version e)
          (HashEntry.platform e).

(** ** Merging an external hash file *)

Section ExternalHashFile.
Context {DT : Datetime}.
(** [re.match(r'^[a-zA-Z0-9_-]+-[a-zA-Z0-9._-]+-[a-zA-Z0-9_]+$', k)]. *)
Variable standard_format : string -> bool.

(** Whether [validate_external_hash_file] finds nothing to report in one
    entry of [bottles]. *)
Definition external_bottle_ok (bottle_key : string) (bottle_data : Json)
  : bool :=
  match bottle_data with
  | JObj fields =>
      PyDict.mem "sha256" fields
      && PyDict.mem "download_date" fields
      && PyDict.mem "file_size" fields
      && match PyDict.get "sha256" fields with
         | Some (JStr sha256) =>
             String.eqb sha256 "" || PyStr.is_sha256_hex sha256
         | Some v => negb (PyJson.truthy v)
         | None => true
         end
      && match PyDict.get "download_date" fields with
         | Some (JStr download_date) =>
             String.eqb download_date ""
             || match strptime_ymd download_date with
                | Some _ => true
                | None => false
                end
         | Some v => negb (PyJson.truthy v)
         | None => true
         end
      && match PyDict.get "file_size" fields with
         | Some (JInt file_size) => negb (file_size <=? 0)
         | Some JNull | None => true
         | Some _ => false
         end
      && standard_format bottle_key
  | _ => false
  end.

(** The first component of [validate_external_hash_file(data)]: whether
    the list of errors is empty.  An exception inside the checks is
    caught and counted as an error, so a value of a type on which a check
    raises makes the document invalid. *)
Definition external_file_is_valid (data : Json) : bool :=
  match data with
  | JObj fields =>
      PyDict.mem "bottles" fields
      && match PyDict.get "last_updated" fields with
         | None => false
         | Some (JStr stamp) =>
             String.eqb stamp ""
             || match fromisoformat (PyStr.replace_Z stamp) with
                | Some _ => true
                | None => false
                end
         | Some v => negb (PyJson.truthy v)
         end
      && match PyDict.get "bottles" fields with
         | Some (JObj bottles) =>
             forallb (fun kv => external_bottle_ok (fst kv) (snd kv)) bottles
         | _ => false
         end
  | _ => false
  end.

(** The repair of one entry in [migrate_external_hash_file]: the defaults
    for the fields that are missing; [today] is the date of the clock. *)
Definition migrate_bottle (today : string) (fields : list (string * Json))
  : list (string * Json) :=
  let fields :=
    if PyDict.mem "sha256" fields then fields
    else PyDict.set "sha256" (JStr "unknown") fields in
  let fields :=
    if PyDict.mem "download_date" fields then fields
    else PyDict.set "download_date" (JStr today) fields in
  if PyDict.mem "file_size" fields then fields
  else PyDict.set "file_size" (JInt 0) fields.

(** The loop of [migrate_external_hash_file] over the entries. *)
Fixpoint migrate_bottles (today : string) (items : list (string * Json))
    (migrated_bottles : list (string * Json)) : list (string * Json) :=
  match items with
  | [] => migrated_bottles
  | (bottle_key, JObj fields) :: rest =>
      migrate_bottles today rest
        (PyDict.set (_normalize_bottle_key standard_format bottle_key)
           (JObj (migrate_bottle today fields)) migrated_bottles)
  | _ :: rest => migrate_bottles today rest migrated_bottles
  end.

(** [HashFileManager.migrate_external_hash_file]; [now] and [today] are the
    timestamp and the date of the clock.  Only a dict has [copy] and takes
    a string as a key, and only a dict has [items]. *)
Definition migrate_external_hash_file (now today : string)
    (external_data : Json) : Res Json :=
  match external_data with
  | JObj fields =>
      let migrated_data :=
        match PyDict.get "last_updated" fields with
        | Some v =>
            if PyJson.truthy v then fields
            else PyDict.set "last_updated" (JStr now) fields
        | None => PyDict.set "last_updated" (JStr now) fields
        end in
      let migrated_data :=
        if PyDict.mem "bottles" migrated_data then migrated_data
        else PyDict.set "bottles" (JObj []) migrated_data in
      match PyDict.get "bottles" migrated_data with
      | Some (JObj bottles) =>
          Ret (JObj (PyDict.set "bottles"
                       (JObj (migrate_bottles today bottles []))
                       migrated_data))
      | _ => Raise (AttributeError "items")
      end
  | JArr _ => Raise (TypeError "list indices must be integers or slices")
  | _ => Raise (AttributeError "copy")
  end.

(** One turn of the loop of [merge_with_external_hash_file]: whether the
    entry was merged.  A malformed key is passed over; a [ValueError] or a
    [KeyError] is caught and the entry passed over. *)
Definition merge_entry (bottle_key : string) (bottle_data : Json)
  : M HashFileManager.t bool :=
  try_except_value_key
    (match PyStr.rsplit1 "-" bottle_key with
     | [formula_version; platform] =>
         match PyStr.rsplit1 "-" formula_version with
         | [formula_name; version] =>
             hash_entry <- lift_res
               (HashEntry.from_dict formula_name version platform
                  bottle_data) ;;
             hash_entry <- lift_res (HashEntry.validate_raw hash_entry) ;;
             modify (fun self =>
               HashFileManager.set_bottles
                 (PyDict.set bottle_key hash_entry
                    (HashFileManager.bottles self)) self) ;;;
             ret true
         | _ => ret false
         end
     | _ => ret false
     end)
    (fun _ => ret false).

(** The loop, with the count of merged entries. *)
Fixpoint merge_entries (items : list (string * Json)) (merged_count : Z)
  : M HashFileManager.t Z :=
  match items with
  | [] => ret merged_count
  | (bottle_key, bottle_data) :: rest =>
      merged <- merge_entry bottle_key bottle_data ;;
      merge_entries rest (if merged then merged_count + 1 else merged_count)
  end.

(** [HashFileManager.merge_with_external_hash_file]; [migrated_at] and
    [today] are what the clock gives the migration, [now] what it gives
    the final update of [last_updated]. *)
Definition merge_with_external_hash_file (migrated_at today now : string)
    (external_data : Json) : M HashFileManager.t Z :=
  external_data <-
    (if external_file_is_valid external_data then ret external_data
     else lift_res (migrate_external_hash_file migrated_at today
                      external_data)) ;;
  external_bottles <-
    lift_res (PyJson.get_default "bottles" (JObj []) external_data) ;;
  items <- lift_res (PyJson.items external_bottles) ;;
  merged_count <- merge_entries items 0 ;;
  (if merged_count >? 0
   then modify (HashFileManager.set_last_updated (JStr now))
   else ret tt) ;;;
  ret merged_count.

End ExternalHashFile.

(** The entries of [incoming] written over [d], one [d[k] = v] after the
    other. *)
Definition overwrite_with {V} (incoming d : PyDict.t V) : PyDict.t V :=
  fold_left (fun acc kv => PyDict.set (fst kv) (snd kv) acc) incoming d.

(** A second manager, as a mirror would hold it: the same bottle of wget
    under another hash, and a bottle of jq. *)
Definition mirror_manager : HashFileManager.t :=
  HashFileManager.mk
    [("wget-1.21.4-arm64_sonoma",
      HashEntry.mk "wget" "1.21.4" "arm64_sonoma"
        "fedcba9876543210fedcba9876543210fedcba9876543210fedcba9876543210"
        "2024-05-01" 1048600);
     ("jq-1.7.1-arm64_sonoma",
      HashEntry.mk "jq" "1.7.1" "arm64_sonoma"
        "00112233445566778899aabbccddeeff00112233445566778899aabbccddeeff"
        "2024-05-01" 524288)]
    (JStr "2024-05-01T06:00:00Z").

(** An external document in which one entry has no hash and one has no
    size. *)
Definition incomplete_document : Json :=
  JObj [("last_updated", JStr "2024-05-01T06:00:00Z");
        ("bottles",
         JObj [("wget-1.21.4-arm64_sonoma",
                JObj [("download_date", JStr "2024-05-01");
                      ("file_size", JInt 1048600)]);
               ("jq-1.7.1-arm64_sonoma",
                JObj [("sha256",
                       JStr "00112233445566778899aabbccddeeff00112233445566778899aabbccddeeff");
                      ("download_date", JStr "2024-05-01")])])].

(** * Properties *)

Unset Implicit Arguments.

(** ** The recovery decision table *)

(** C2. For every error context with a 1-based attempt number,
    [determine_recovery_action] returns the action of the decision table:
    network errors are retried while the attempt is below 5 and skipped
    from then on, storage errors are skipped when the message names a
    missing key and otherwise retried while the attempt is below 3,
    hash corruption always rebuilds, resource exhaustion is retried while
    the attempt is below 10 and aborts after, validation errors are
    skipped, authentication errors abort, timeouts are retried while the
    attempt is below 3, and an unknown error is retried at attempt 1 and
    skipped from attempt 2 on. *)
Theorem determine_recovery_action_table :
  forall ctx : ErrorContext,
    1 <= attempt_number ctx ->
    determine_recovery_action ctx =
    decision_table (error_type ctx) (error_message ctx) (attempt_number ctx).
Proof.
  intros ctx Hpos.
  unfold determine_recovery_action, decision_table.
  destruct (error_type ctx); try reflexivity.
  destruct (attempt_number ctx <? 2) eqn:Hlt;
    destruct (attempt_number ctx =? 1) eqn:Heq; try reflexivity; lia.
Qed.

Lemma determine_recovery_action_table_witness :
  1 <= attempt_number (network_at 5) /\
  determine_recovery_action (network_at 5) =
  decision_table (error_type (network_at 5)) (error_message (network_at 5))
    (attempt_number (network_at 5)).
Proof.
  split; [simpl; lia |].
  apply (determine_recovery_action_table (network_at 5)).
  simpl; lia.
Defined.

(** The boundary attempts of each row. *)
Example recovery_boundaries :
  forall msg op,
    let at_ kind m n := mkErrorContext kind m op None n None None [] in
    determine_recovery_action (at_ NETWORK_ERROR msg 4) = RETRY /\
    determine_recovery_action (at_ NETWORK_ERROR msg 5) = SKIP /\
    determine_recovery_action (at_ S3_ERROR "NoSuchKey: gone" 1) = SKIP /\
    determine_recovery_action (at_ S3_ERROR "AccessDenied" 2) = RETRY /\
    determine_recovery_action (at_ S3_ERROR "AccessDenied" 3) = SKIP /\
    determine_recovery_action (at_ HASH_CORRUPTION msg 1) = REBUILD /\
    determine_recovery_action (at_ RESOURCE_EXHAUSTION msg 9) = RETRY /\
    determine_recovery_action (at_ RESOURCE_EXHAUSTION msg 10) = ABORT /\
    determine_recovery_action (at_ VALIDATION_ERROR msg 1) = SKIP /\
    determine_recovery_action (at_ AUTHENTICATION_ERROR msg 1) = ABORT /\
    determine_recovery_action (at_ TIMEOUT_ERROR msg 2) = RETRY /\
    determine_recovery_action (at_ TIMEOUT_ERROR msg 3) = SKIP /\
    determine_recovery_action (at_ UNKNOWN_ERROR msg 1) = RETRY /\
    determine_recovery_action (at_ UNKNOWN_ERROR msg 2) = SKIP.
Proof. intros; repeat split; reflexivity. Qed.

(** ** The first attempt waits for nothing *)

(** [calculate_delay] is [0] up to the first attempt, whatever the policy
    and the arithmetic. *)
Lemma calculate_delay_first_attempt {F} {FO : FloatOps F}
    (self : @RetryHandler F) (uniform : F -> F -> F) (attempt : Z) :
  attempt <= 1 -> calculate_delay self uniform attempt = Ret f_zero.
Proof.
  intros H. unfold calculate_delay.
  destruct (attempt <=? 1) eqn:E; [reflexivity | lia].
Qed.

(** Nor can the delay of the second attempt fail: its power is
    [exponential_base ** 0]. *)
Lemma calculate_delay_second_attempt {F} {FO : FloatOps F}
    (self : @RetryHandler F) (uniform : F -> F -> F) (attempt : Z) :
  attempt <= 2 -> exists d, calculate_delay self uniform attempt = Ret d.
Proof.
  intros H. unfold calculate_delay.
  destruct (attempt <=? 1) eqn:E; [eauto |].
  replace (attempt - 2) with 0 by lia.
  change (Z.to_N 0) with 0%N. rewrite f_pow_0. eauto.
Qed.

(** ** The delay without jitter *)

(** The comparisons of binary64 order the floats that are not NaN. *)
Module FloatFacts.

Ltac sf_compare :=
  unfold f_ltb, f_leb, f_zero; cbn;
  unfold Binary64.ltb, Binary64.leb, Binary64.zero, SpecFloat.SFltb,
    SpecFloat.SFleb, SpecFloat.SFcompare;
  change (Pos.compare_cont Eq) with Pos.compare.

Ltac sf_split :=
  repeat match goal with
         | H : context [(?a ?= ?b)%Z] |- _ =>
             destruct (Z.compare_spec a b); cbn in H
         | |- context [(?a ?= ?b)%Z] =>
             destruct (Z.compare_spec a b); cbn
         | H : context [(?a ?= ?b)%positive] |- _ =>
             destruct (Pos.compare_spec a b); cbn in H
         | |- context [(?a ?= ?b)%positive] =>
             destruct (Pos.compare_spec a b); cbn
         end;
  try reflexivity; try discriminate; try lia.

Ltac sf_signs :=
  repeat match goal with
         | s : bool |- _ => destruct s
         end;
  cbn; try reflexivity; try discriminate.

Lemma ltb_leb (a b : Binary64.t) :
  Binary64.ltb a b = true -> Binary64.leb a b = true.
Proof.
  sf_compare. destruct a, b; sf_signs; intros H; sf_split.
Qed.

Lemma leb_refl_l (a b : Binary64.t) :
  Binary64.leb a b = true -> Binary64.leb a a = true.
Proof.
  sf_compare. destruct a, b; sf_signs; intros H;
    rewrite ?Z.compare_refl, ?Pos.compare_refl; reflexivity.
Qed.

Lemma leb_refl_r (a b : Binary64.t) :
  Binary64.leb a b = true -> Binary64.leb b b = true.
Proof.
  sf_compare. destruct a, b; sf_signs; intros H;
    rewrite ?Z.compare_refl, ?Pos.compare_refl; reflexivity.
Qed.

Lemma ltb_leb_trans (a b c : Binary64.t) :
  Binary64.ltb a b = true -> Binary64.leb b c = true ->
  Binary64.ltb a c = true.
Proof.
  sf_compare. destruct a, b, c; sf_signs; intros H1 H2; sf_split.
Qed.

Lemma leb_total (a b : Binary64.t) :
  Binary64.leb a a = true -> Binary64.leb b b = true ->
  Binary64.ltb b a = false -> Binary64.leb a b = true.
Proof.
  sf_compare. destruct a, b; sf_signs; intros _ _ H; sf_split.
Qed.

End FloatFacts.

Lemma binary64_order : FloatOrder Binary64.t.
Proof.
  constructor.
  - exact FloatFacts.ltb_leb.
  - exact FloatFacts.leb_refl_l.
  - exact FloatFacts.leb_refl_r.
  - exact FloatFacts.ltb_leb_trans.
  - exact FloatFacts.leb_total.
  - reflexivity.
Qed.

Section Clamp.
Context {F : Type} {FO : FloatOps F} {FL : FloatOrder F}.

(** [min(_, limit)] keeps the order of two floats. *)
Lemma py_min_monotone (a b limit : F) :
  f_leb a b = true ->
  f_leb (py_min a limit) (py_min b limit) = true.
Proof.
  intros Hab. unfold py_min.
  destruct (f_ltb limit a) eqn:Ha, (f_ltb limit b) eqn:Hb.
  - apply f_ltb_leb in Ha. exact (f_leb_refl_l _ _ Ha).
  - rewrite (f_ltb_leb_trans _ _ _ Ha Hab) in Hb. discriminate.
  - apply f_leb_total.
    + exact (f_leb_refl_l _ _ Hab).
    + apply f_ltb_leb in Hb. exact (f_leb_refl_l _ _ Hb).
    + exact Ha.
  - exact Hab.
Qed.

(** So does [max(0, _)]. *)
Lemma py_max_zero_monotone (a b : F) :
  f_leb a b = true ->
  f_leb (py_max f_zero a) (py_max f_zero b) = true.
Proof.
  intros Hab. unfold py_max.
  destruct (f_ltb f_zero a) eqn:Ha, (f_ltb f_zero b) eqn:Hb.
  - exact Hab.
  - rewrite (f_ltb_leb_trans _ _ _ Ha Hab) in Hb. discriminate.
  - apply f_ltb_leb. exact Hb.
  - exact f_zero_ordered.
Qed.

(** Without jitter and with the power in range, the delay is the uncapped
    delay under the limit and over the floor. *)
Lemma calculate_delay_in_range (self : @RetryHandler F)
    (uniform : F -> F -> F) (n : Z) (p : F) :
  jitter (config self) = false ->
  2 <= n ->
  f_pow (exponential_base (config self)) (Z.to_N (n - 2)) = Some p ->
  calculate_delay self uniform n =
  Ret (py_max f_zero (py_min (uncapped_delay self p)
                        (max_delay (config self)))).
Proof.
  intros Hj Hn Hp. unfold calculate_delay.
  destruct (n <=? 1) eqn:E; [lia |].
  rewrite Hp, Hj. reflexivity.
Qed.

End Clamp.

(** C8, refuted.  Under [RetryConfig(exponential_base=0.5, jitter=False)]
    the delay is 1.0 at attempt 2 and 0.5 at attempt 3: it falls, and the
    limit of 60.0 has not been reached. *)
Theorem calculate_delay_can_decrease :
  jitter (config halving) = false /\
  calculate_delay halving (lowest_draw 2) 2 = Ret Binary64.one /\
  calculate_delay halving (lowest_draw 2) 3 = Ret (Binary64.dyadic 1 (-1)) /\
  f_ltb Binary64.one (max_delay (config halving)) = true /\
  f_leb Binary64.one (Binary64.dyadic 1 (-1)) = false /\
  ~ delay_never_falls halving (lowest_draw 2).
Proof.
  repeat split; try reflexivity.
  intros Hnever.
  specialize (Hnever 2 Binary64.one (Binary64.dyadic 1 (-1)) eq_refl eq_refl).
  discriminate Hnever.
Qed.

(** C8, as the code has it.  With jitter disabled, [calculate_delay] is
    [0] up to the first attempt, and the delay of the second attempt is
    not below it.  From the second attempt on it raises [OverflowError]
    where the power [exponential_base ** (attempt - 2)] is out of range;
    where the uncapped delay
    [base_delay * exponential_base ** (attempt - 2) * backoff_multiplier]
    is above [max_delay], the delay is [max_delay] (and [0] if [max_delay]
    is not positive); and the delay of attempt [n + 1] is not below the
    delay of attempt [n] wherever the uncapped delays of the two attempts
    are in that order.  Nothing in the policy makes them so. *)
Theorem calculate_delay_without_jitter :
  forall (F : Type) (FO : FloatOps F) (FL : FloatOrder F)
         (self : @RetryHandler F) (uniform : F -> F -> F),
    jitter (config self) = false ->
    (forall n, n <= 1 -> calculate_delay self uniform n = Ret f_zero) /\
    (forall n,
       n <= 1 ->
       exists d,
         calculate_delay self uniform (n + 1) = Ret d /\
         f_leb f_zero d = true) /\
    (forall n,
       2 <= n ->
       f_pow (exponential_base (config self)) (Z.to_N (n - 2)) = None ->
       calculate_delay self uniform n = Raise out_of_range) /\
    (forall n p,
       2 <= n ->
       f_pow (exponential_base (config self)) (Z.to_N (n - 2)) = Some p ->
       f_ltb (max_delay (config self)) (uncapped_delay self p) = true ->
       calculate_delay self uniform n =
       Ret (if f_ltb f_zero (max_delay (config self))
            then max_delay (config self) else f_zero)) /\
    (forall n p q,
       2 <= n ->
       f_pow (exponential_base (config self)) (Z.to_N (n - 2)) = Some p ->
       f_pow (exponential_base (config self)) (Z.to_N (n + 1 - 2)) =
         Some q ->
       f_leb (uncapped_delay self p) (uncapped_delay self q) = true ->
       exists d1 d2,
         calculate_delay self uniform n = Ret d1 /\
         calculate_delay self uniform (n + 1) = Ret d2 /\
         f_leb d1 d2 = true).
Proof.
  intros F FO FL self uniform Hj. repeat apply conj.
  - intros n Hn. apply calculate_delay_first_attempt. exact Hn.
  - intros n Hn. destruct (Z.eq_dec n 1) as [-> | Hne].
    + rewrite (calculate_delay_in_range self uniform (1 + 1) f_one Hj)
        by (lia || apply f_pow_0).
      eexists. split; [reflexivity |]. unfold py_max.
      destruct (f_ltb f_zero _) eqn:Hpos.
      * apply f_ltb_leb. exact Hpos.
      * exact f_zero_ordered.
    + rewrite calculate_delay_first_attempt by lia.
      eexists. split; [reflexivity | exact f_zero_ordered].
  - intros n Hn Hp. unfold calculate_delay.
    destruct (n <=? 1) eqn:E; [lia |]. rewrite Hp. reflexivity.
  - intros n p Hn Hp Hcap.
    rewrite (calculate_delay_in_range self uniform n p Hj Hn Hp).
    unfold py_min. rewrite Hcap. reflexivity.
  - intros n p q Hn Hp Hq Hpq.
    rewrite (calculate_delay_in_range self uniform n p Hj Hn Hp).
    rewrite (calculate_delay_in_range self uniform (n + 1) q Hj) by
      (lia || exact Hq).
    eexists _, _. split; [reflexivity |]. split; [reflexivity |].
    apply py_max_zero_monotone, py_min_monotone. exact Hpq.
Qed.

Lemma calculate_delay_without_jitter_witness :
  calculate_delay doubling (lowest_draw 8) 8 = Ret (Binary64.dyadic 60 0) /\
  exists d1 d2,
    calculate_delay doubling (lowest_draw 8) 2 = Ret d1 /\
    calculate_delay doubling (lowest_draw 8) (2 + 1) = Ret d2 /\
    f_leb d1 d2 = true.
Proof.
  destruct (calculate_delay_without_jitter Binary64.t _ binary64_order
              doubling (lowest_draw 8) eq_refl)
    as (_ & _ & _ & Hlimit & Hgrows).
  split.
  - apply (Hlimit 8 (Binary64.dyadic 64 0)); [lia | reflexivity | reflexivity].
  - apply (Hgrows 2 Binary64.one (Binary64.dyadic 2 0));
      [lia | reflexivity | reflexivity | reflexivity].
Defined.

(** The delays of the doubling policy, attempt by attempt: 0, 1, 2, 4, 8,
    16, 32, and 60 from the eighth attempt on. *)
Example doubling_delays :
  map (calculate_delay doubling (lowest_draw 0)) [1; 2; 3; 4; 5; 6; 7; 8; 9] =
  map (fun m => Ret (Binary64.dyadic m 0)) [0; 1; 2; 4; 8; 16; 32; 60; 60].
Proof. reflexivity. Qed.

(** ** The retry budget *)

Lemma range_cons (lo hi : Z) :
  lo < hi -> range lo hi = lo :: range (lo + 1) hi.
Proof.
  intros H. unfold range.
  replace (Z.to_nat (hi - lo)) with (S (Z.to_nat (hi - (lo + 1)))) by lia.
  cbn [seq map]. f_equal; [lia |].
  rewrite <- seq_shift, map_map.
  apply map_ext. intros i. lia.
Qed.

Lemma range_nil (lo hi : Z) : hi <= lo -> range lo hi = [].
Proof.
  intros H. unfold range.
  replace (Z.to_nat (hi - lo)) with O by lia. reflexivity.
Qed.

Section RetryFacts.
Context {F : Type} {FO : FloatOps F}.

(** [should_retry] is the budget test followed by the test of the
    exception's class. *)
Lemma should_retry_split (self : @RetryHandler F) (e : PyExc) (attempt : Z) :
  should_retry self e attempt =
  (attempt <? max_attempts (config self)) && retryable_exc e.
Proof.
  unfold should_retry, retryable_exc.
  destruct (attempt >=? max_attempts (config self)) eqn:Hge;
    destruct (attempt <? max_attempts (config self)) eqn:Hlt;
    try lia; destruct e; reflexivity.
Qed.

(** A failing attempt that is retried: one invocation, the failure
    metric, the sleep, and on to the next attempt. *)
Lemma retry_loop_retried {W A} (self : @RetryHandler F)
    (uniform : Z -> F -> F -> F)
    (func : W -> Res A * W) attempt rest last e s' w d :
  func (store w) = (Raise e, s') ->
  should_retry self e attempt = true ->
  calculate_delay self (uniform attempt) attempt = Ret d ->
  exists l,
    invocations l = 1%nat /\
    retry_loop self uniform func (attempt :: rest) last w =
    retry_loop self uniform func rest (Some e)
      (mkWorld s' (log w ++ l)%list).
Proof.
  intros Hf Hretry Hdelay.
  assert (Hlt : (attempt <? max_attempts (config self)) = true).
  { rewrite should_retry_split in Hretry.
    apply andb_true_iff in Hretry. tauto. }
  destruct (metrics self) eqn:Hm.
  - exists [EvInvoke attempt; EvRetryMetric attempt false; EvSleep attempt].
    split; [reflexivity |].
    cbn [retry_loop]. unfold sleep_before_retry, lift_res, bind, try_except,
      emit, modify, on_store_res, put_retry_metric. cbn.
    rewrite Hf, Hm. cbn.
    rewrite Hretry, Hlt, Hdelay. cbn.
    rewrite <- !app_assoc. reflexivity.
  - exists [EvInvoke attempt; EvSleep attempt].
    split; [reflexivity |].
    cbn [retry_loop]. unfold sleep_before_retry, lift_res, bind, try_except,
      emit, modify, on_store_res, put_retry_metric. cbn.
    rewrite Hf, Hm. cbn.
    rewrite Hretry, Hlt, Hdelay. cbn.
    rewrite <- !app_assoc. reflexivity.
Qed.

(** A failing attempt that is not retried: one invocation, the failure
    metric, and the exception goes to the caller. *)
Lemma retry_loop_given_up {W A} (self : @RetryHandler F)
    (uniform : Z -> F -> F -> F)
    (func : W -> Res A * W) attempt rest last e s' w :
  func (store w) = (Raise e, s') ->
  should_retry self e attempt = false ->
  exists l,
    invocations l = 1%nat /\
    retry_loop self uniform func (attempt :: rest) last w =
    (Raise e, mkWorld s' (log w ++ l)%list).
Proof.
  intros Hf Hretry.
  destruct (metrics self) eqn:Hm.
  - exists [EvInvoke attempt; EvRetryMetric attempt false].
    split; [reflexivity |].
    cbn [retry_loop]. unfold bind, try_except, emit, modify, on_store_res,
      put_retry_metric. cbn. rewrite Hf, Hm. cbn.
    rewrite Hretry. cbn.
    rewrite <- !app_assoc. reflexivity.
  - exists [EvInvoke attempt].
    split; [reflexivity |].
    cbn [retry_loop]. unfold bind, try_except, emit, modify, on_store_res,
      put_retry_metric. cbn. rewrite Hf, Hm. cbn.
    rewrite Hretry. cbn. reflexivity.
Qed.

Lemma invocations_app (l1 l2 : list Event) :
  invocations (l1 ++ l2) = (invocations l1 + invocations l2)%nat.
Proof.
  induction l1 as [| ev l1 IH]; [reflexivity |].
  destruct ev; cbn; rewrite ?IH; reflexivity.
Qed.

End RetryFacts.

(** C5. With [max_attempts = 3], a function whose calls raise exceptions
    the engine retries is invoked exactly three times, and [retry_sync]
    then raises the exception of the third call; no value is returned.
    When the first call raises an exception that is not retried (a
    [ValueError], say), the function is invoked exactly once and that
    exception is raised, whatever [max_attempts >= 1] is. *)
Theorem retry_sync_budget :
  forall (F W A : Type) (FO : FloatOps F) (self : @RetryHandler F)
         (uniform : Z -> F -> F -> F) (func : W -> Res A * W)
         (w : World W),
    (max_attempts (config self) = 3 ->
     forall e1 s1 e2 s2 e3 s3,
       func (store w) = (Raise e1, s1) ->
       func s1 = (Raise e2, s2) ->
       func s2 = (Raise e3, s3) ->
       retryable_exc e1 = true ->
       retryable_exc e2 = true ->
       exists l,
         retry_sync self uniform func w =
           (Raise e3, mkWorld s3 (log w ++ l)%list) /\
         invocations l = 3%nat)
    /\
    (1 <= max_attempts (config self) ->
     forall e s1,
       func (store w) = (Raise e, s1) ->
       retryable_exc e = false ->
       exists l,
         retry_sync self uniform func w =
           (Raise e, mkWorld s1 (log w ++ l)%list) /\
         invocations l = 1%nat).
Proof.
  intros F W A FO self uniform func w. split.
  - intros Hmax e1 s1 e2 s2 e3 s3 H1 H2 H3 R1 R2.
    unfold retry_sync. rewrite Hmax.
    change (range 1 (3 + 1)) with [1; 2; 3].
    destruct (calculate_delay_second_attempt self (uniform 1) 1) as [d1 D1];
      [lia |].
    destruct (calculate_delay_second_attempt self (uniform 2) 2) as [d2 D2];
      [lia |].
    destruct (retry_loop_retried self uniform func 1 [2; 3] None e1 s1 w d1
                H1) as (l1 & N1 & E1); [| exact D1 |].
    { rewrite should_retry_split, Hmax, R1. reflexivity. }
    rewrite E1.
    destruct (retry_loop_retried self uniform func 2 [3] (Some e1) e2 s2
                (mkWorld s1 (log w ++ l1)%list) d2 H2) as (l2 & N2 & E2);
      [| exact D2 |].
    { rewrite should_retry_split, Hmax, R2. reflexivity. }
    rewrite E2. cbn [store log].
    destruct (retry_loop_given_up self uniform func 3 [] (Some e2) e3 s3
                (mkWorld s2 ((log w ++ l1) ++ l2)%list) H3) as (l3 & N3 & E3).
    { rewrite should_retry_split, Hmax. reflexivity. }
    rewrite E3. cbn [store log].
    exists (l1 ++ l2 ++ l3)%list. split.
    + rewrite <- !app_assoc. reflexivity.
    + rewrite !invocations_app, N1, N2, N3. reflexivity.
  - intros Hmax e s1 H1 R.
    unfold retry_sync.
    rewrite range_cons by lia.
    destruct (retry_loop_given_up self uniform func 1
                (range (1 + 1) (max_attempts (config self) + 1)) None e s1 w H1)
      as (l & N & E).
    { rewrite should_retry_split, R. apply andb_false_r. }
    exists l. split; assumption.
Qed.

Lemma retry_sync_budget_witness :
  (exists l,
     retry_sync three_attempts lowest_draw always_reset (mkWorld O []) =
     (Raise (ConnectionError "reset"), mkWorld 3%nat ([] ++ l)%list) /\
     invocations l = 3%nat)
  /\
  (exists l,
     retry_sync three_attempts lowest_draw always_invalid (mkWorld O []) =
     (Raise (ValueError "bad input"), mkWorld 1%nat ([] ++ l)%list) /\
     invocations l = 1%nat).
Proof.
  split.
  - apply (proj1 (retry_sync_budget Binary64.t nat unit _ three_attempts
                    lowest_draw always_reset (mkWorld O [])))
      with (e1 := ConnectionError "reset") (s1 := 1%nat)
           (e2 := ConnectionError "reset") (s2 := 2%nat);
      reflexivity.
  - apply (proj2 (retry_sync_budget Binary64.t nat unit _ three_attempts
                    lowest_draw always_invalid (mkWorld O [])));
      [simpl; lia | reflexivity | reflexivity].
Defined.

(** The run of the first example, event by event. *)
Example retry_sync_three_calls :
  retry_sync three_attempts lowest_draw always_reset (mkWorld O []) =
  (Raise (ConnectionError "reset"),
   mkWorld 3%nat
     [EvInvoke 1; EvRetryMetric 1 false; EvSleep 1;
      EvInvoke 2; EvRetryMetric 2 false; EvSleep 2;
      EvInvoke 3; EvRetryMetric 3 false]).
Proof. reflexivity. Qed.

(** Outside the policy's domain: with [max_attempts = 0] the loop body never
    runs, nothing is invoked, and [raise None] is a [TypeError]. *)
Example retry_sync_no_attempts :
  retry_sync
    (mkRetryHandler
       (mkRetryConfig 0 Binary64.one (Binary64.dyadic 60 0)
          (Binary64.dyadic 2 0) true Binary64.one)
       true)
    lowest_draw always_invalid (mkWorld O []) =
  (Raise (TypeError "exceptions must derive from BaseException"),
   mkWorld O []).
Proof. reflexivity. Qed.

(** ** The progress ledger *)

Lemma str_in_In (x : string) (xs : list string) :
  str_in x xs = true <-> In x xs.
Proof.
  unfold str_in. rewrite existsb_exists. split.
  - intros (y & Hin & Heq). apply String.eqb_eq in Heq. now subst.
  - intros Hin. exists x. split; [assumption | apply String.eqb_refl].
Qed.

Lemma In_add_unless_present (x id : string) (xs : list string) :
  In x (if negb (str_in id xs) then (xs ++ [id])%list else xs) <->
  In x xs \/ x = id.
Proof.
  destruct (str_in id xs) eqn:Hin; cbn.
  - apply str_in_In in Hin. split; [tauto |].
    intros [H | ->]; assumption.
  - rewrite in_app_iff. cbn. split.
    + intros [H | [H | []]]; [left | right]; congruence.
    + intros [H | ->]; [left | right; left]; congruence.
Qed.

(** [save_recovery_state] always answers, whatever the store does. *)
Lemma save_recovery_state_returns {W} (svc : S3Service W)
    (state : RecoveryState) (w : World W) :
  exists ok w', save_recovery_state svc state w = (Ret ok, w').
Proof.
  unfold save_recovery_state, try_except, s3_upload_json, bind, emit, modify,
    on_store. cbn.
  destruct (upload_json svc _ _ _ _) as [ok s]. cbn. eauto.
Qed.

(** C3, as the code has it.  [update_progress] returns the ledger in which
    the identifier has joined the collection its status names, unless it
    was there already; every collection keeps all it held, so an
    identifier reported again under another status is from then on listed
    under both; [last_successful_bottle] follows completions only. *)
Theorem update_progress_only_adds :
  forall (W : Type) (svc : S3Service W) (now : string) (st : RecoveryState)
         (bottle_id status : string) (w : World W),
  exists st' w',
    update_progress svc now st bottle_id status w = (Ret st', w') /\
    (forall x, In x (completed_bottles st') <->
               In x (completed_bottles st) \/
               (status = "completed" /\ x = bottle_id)) /\
    (forall x, In x (failed_bottles st') <->
               In x (failed_bottles st) \/
               (status = "failed" /\ x = bottle_id)) /\
    (forall x, In x (skipped_bottles st') <->
               In x (skipped_bottles st) \/
               (status = "skipped" /\ x = bottle_id)) /\
    last_successful_bottle st' =
      (if String.eqb status "completed" then Some bottle_id
       else last_successful_bottle st).
Proof.
  intros W svc now st bottle_id status w.
  unfold update_progress.
  set (st1 := if String.eqb status "completed" then _ else _).
  assert (Hst1 :
    (forall x, In x (completed_bottles st1) <->
               In x (completed_bottles st) \/
               (status = "completed" /\ x = bottle_id)) /\
    (forall x, In x (failed_bottles st1) <->
               In x (failed_bottles st) \/
               (status = "failed" /\ x = bottle_id)) /\
    (forall x, In x (skipped_bottles st1) <->
               In x (skipped_bottles st) \/
               (status = "skipped" /\ x = bottle_id)) /\
    last_successful_bottle st1 =
      (if String.eqb status "completed" then Some bottle_id
       else last_successful_bottle st)).
  { subst st1.
    destruct (String.eqb status "completed") eqn:Ec.
    { apply String.eqb_eq in Ec. subst status. cbn.
      repeat split; try (rewrite In_add_unless_present); try tauto;
        intros [H | [H _]]; try discriminate; tauto. }
    destruct (String.eqb status "failed") eqn:Ef.
    { apply String.eqb_eq in Ef. subst status.
      pose proof (In_add_unless_present) as Hadd.
      destruct (str_in bottle_id (failed_bottles st)) eqn:Hin; cbn.
      - apply str_in_In in Hin.
        repeat split; try tauto;
          try (intros [H | [H E]]; try discriminate; subst; tauto).
      - repeat split; try tauto;
          try (intros [H | [H E]]; try discriminate; subst; tauto).
        + rewrite in_app_iff. cbn. intros [H | [H | []]]; [tauto |].
          right. split; congruence.
        + rewrite in_app_iff. cbn. intros [H | [_ ->]]; tauto. }
    destruct (String.eqb status "skipped") eqn:Es.
    { apply String.eqb_eq in Es. subst status.
      destruct (str_in bottle_id (skipped_bottles st)) eqn:Hin; cbn.
      - apply str_in_In in Hin.
        repeat split; try tauto;
          try (intros [H | [H E]]; try discriminate; subst; tauto).
      - repeat split; try tauto;
          try (intros [H | [H E]]; try discriminate; subst; tauto).
        + rewrite in_app_iff. cbn. intros [H | [H | []]]; [tauto |].
          right. split; congruence.
        + rewrite in_app_iff. cbn. intros [H | [_ ->]]; tauto. }
    apply String.eqb_neq in Ec, Ef, Es.
    repeat split; try tauto; intros [H | [H _]]; try tauto; contradiction. }
  clearbody st1.
  destruct (Z.of_nat (List.length (completed_bottles st1)) mod 10 =? 0).
  - unfold bind.
    destruct (save_recovery_state_returns svc
                (mkRecoveryState (sync_id st1) (start_time st1)
                   (last_successful_bottle st1) (completed_bottles st1)
                   (failed_bottles st1) (skipped_bottles st1)
                   (total_bottles st1) (Some now) (rs_metadata st1)) w)
      as (ok & w' & Hsave).
    rewrite Hsave. cbn. eexists _, _. split; [reflexivity |]. exact Hst1.
  - cbn. eexists _, _. split; [reflexivity |]. exact Hst1.
Qed.

(** A bottle reported as failed and then as completed is listed under both:
    the collections of the ledger [update_progress] returns are not
    exclusive, and the later report did not take the bottle out of
    [failed_bottles]. *)
Lemma update_progress_keeps_old_status :
  exclusive fresh_ledger /\
  exists st' w',
    failed_then_completed = (Ret st', w') /\
    In "wget-1.21.4-arm64_sonoma" (completed_bottles st') /\
    In "wget-1.21.4-arm64_sonoma" (failed_bottles st') /\
    ~ exclusive st'.
Proof.
  split.
  - intros id. cbn. tauto.
  - eexists _, _. split; [reflexivity |]. cbn.
    split; [tauto |]. split; [tauto |].
    intros Hex. destruct (Hex "wget-1.21.4-arm64_sonoma") as [H _].
    apply H. cbn. tauto.
Qed.

(** ** Resuming an interrupted sync *)

(** [load_recovery_state] answers [None] when the store has no checkpoint. *)
Lemma load_recovery_state_absent {W} (svc : S3Service W) (w : World W) s' :
  download_json svc RECOVERY_STATE_KEY (store w) = (None, s') ->
  load_recovery_state svc None w =
  (Ret None, mkWorld s' (log w ++ [EvDownload RECOVERY_STATE_KEY])%list).
Proof.
  intros H.
  unfold load_recovery_state, try_except, s3_download_json, bind, emit,
    modify, on_store. cbn. rewrite H. reflexivity.
Qed.

(** C7. [should_resume_sync] answers [(False, None)] when no saved state is
    loaded; [(True, state)] when the saved state carries the current sync
    id; [(True, state)] when it carries another id and started less than
    24 hours before now; and, when it carries another id and started 24
    hours ago or more, it asks the store to delete the checkpoint and
    answers [(False, None)]. *)
Theorem should_resume_sync_cases :
  forall (DT : Datetime) (W : Type) (svc : S3Service W) (now_us : Z)
         (current_sync_id : string) (w w1 : World W),
    (load_recovery_state svc None w = (Ret None, w1) ->
     should_resume_sync svc now_us current_sync_id w =
     (Ret (false, None), w1))
    /\
    (forall st,
       load_recovery_state svc None w = (Ret (Some st), w1) ->
       sync_id st = current_sync_id ->
       should_resume_sync svc now_us current_sync_id w =
       (Ret (true, Some st), w1))
    /\
    (forall st start_us,
       load_recovery_state svc None w = (Ret (Some st), w1) ->
       sync_id st <> current_sync_id ->
       fromisoformat (PyStr.replace_Z (start_time st)) = Some (Aware start_us) ->
       now_us - start_us < 24 * 3600 * 1000000 ->
       should_resume_sync svc now_us current_sync_id w =
       (Ret (true, Some st), w1))
    /\
    (forall st start_us,
       load_recovery_state svc None w = (Ret (Some st), w1) ->
       sync_id st <> current_sync_id ->
       fromisoformat (PyStr.replace_Z (start_time st)) = Some (Aware start_us) ->
       24 * 3600 * 1000000 <= now_us - start_us ->
       should_resume_sync svc now_us current_sync_id w =
       (Ret (false, None),
        mkWorld (snd (delete_object svc RECOVERY_STATE_KEY (store w1)))
          (log w1 ++ [EvDelete RECOVERY_STATE_KEY])%list)).
Proof.
  intros DT W svc now_us current_sync_id w w1.
  repeat split.
  - intros Hload. unfold should_resume_sync, bind. rewrite Hload. reflexivity.
  - intros st Hload Hid. unfold should_resume_sync, bind. rewrite Hload.
    apply String.eqb_eq in Hid. rewrite Hid. reflexivity.
  - intros st start_us Hload Hid Hiso Hage.
    unfold should_resume_sync, bind. rewrite Hload.
    apply String.eqb_neq in Hid. rewrite Hid.
    unfold try_except. rewrite Hiso.
    destruct (now_us - start_us <? 24 * 3600 * 1000000) eqn:Hlt; [| lia].
    reflexivity.
  - intros st start_us Hload Hid Hiso Hage.
    unfold should_resume_sync, bind. rewrite Hload.
    apply String.eqb_neq in Hid. rewrite Hid.
    unfold try_except at 1. rewrite Hiso.
    destruct (now_us - start_us <? 24 * 3600 * 1000000) eqn:Hlt; [lia |].
    unfold clear_recovery_state, try_except, s3_delete_object, bind, emit,
      modify, on_store_res, ret. cbn.
    destruct (delete_object svc RECOVERY_STATE_KEY (store w1)) as [[ok | e] s2];
      reflexivity.
Qed.

Lemma should_resume_sync_cases_witness :
  let day := 24 * 3600 * 1000000 in
  let minute := 60 * 1000000 in
  let resume := @should_resume_sync Calendar.datetime _ MemS3.service in
  let loaded := snd (load_recovery_state MemS3.service None
                       store_with_checkpoint) in
  resume earlier_sync_start_us "sync-2024-05-02" empty_store =
    (Ret (false, None),
     snd (load_recovery_state MemS3.service None empty_store))
  /\
  resume earlier_sync_start_us "sync-2024-05-01" store_with_checkpoint =
    (Ret (true, Some earlier_sync), loaded)
  /\
  resume (earlier_sync_start_us + day - minute) "sync-2024-05-02"
    store_with_checkpoint =
    (Ret (true, Some earlier_sync), loaded)
  /\
  resume (earlier_sync_start_us + day + minute) "sync-2024-05-02"
    store_with_checkpoint =
    (Ret (false, None),
     mkWorld (snd (delete_object MemS3.service RECOVERY_STATE_KEY
                     (store loaded)))
       (log loaded ++ [EvDelete RECOVERY_STATE_KEY])%list).
Proof.
  intros day minute resume loaded.
  split; [| split; [| split]].
  - apply (proj1 (should_resume_sync_cases Calendar.datetime _ MemS3.service
                    earlier_sync_start_us "sync-2024-05-02" empty_store _)).
    reflexivity.
  - apply (proj1 (proj2 (should_resume_sync_cases Calendar.datetime _
                           MemS3.service earlier_sync_start_us
                           "sync-2024-05-01" store_with_checkpoint loaded))).
    + reflexivity.
    + reflexivity.
  - apply (proj1 (proj2 (proj2 (should_resume_sync_cases Calendar.datetime _
                           MemS3.service
                           (earlier_sync_start_us + day - minute)
                           "sync-2024-05-02" store_with_checkpoint loaded)))
             earlier_sync earlier_sync_start_us).
    + reflexivity.
    + discriminate.
    + reflexivity.
    + vm_compute. reflexivity.
  - apply (proj2 (proj2 (proj2 (should_resume_sync_cases Calendar.datetime _
                           MemS3.service
                           (earlier_sync_start_us + day + minute)
                           "sync-2024-05-02" store_with_checkpoint loaded)))
             earlier_sync earlier_sync_start_us).
    + reflexivity.
    + discriminate.
    + reflexivity.
    + vm_compute. discriminate.
Defined.

(** In the store of the examples the stale checkpoint is gone afterwards. *)
Example stale_checkpoint_removed :
  let '(_, w) :=
    @should_resume_sync Calendar.datetime _ MemS3.service
      (earlier_sync_start_us + 24 * 3600 * 1000000) "sync-2024-05-02"
      store_with_checkpoint in
  MemS3.content (store w) RECOVERY_STATE_KEY = None.
Proof. reflexivity. Qed.

(** ** The atomic save *)

Lemma PyDict_get_set_other {V} (k k' : string) (v : V) (d : PyDict.t V) :
  k' <> k -> PyDict.get k' (PyDict.set k v d) = PyDict.get k' d.
Proof.
  intros Hne. induction d as [| [k0 v0] d IH]; cbn.
  - destruct (String.eqb k k') eqn:E; [| reflexivity].
    apply String.eqb_eq in E. congruence.
  - destruct (String.eqb k0 k) eqn:E0; cbn.
    + apply String.eqb_eq in E0. subst k0.
      destruct (String.eqb k k') eqn:E; [| reflexivity].
      apply String.eqb_eq in E. congruence.
    + destruct (String.eqb k0 k'); [reflexivity | exact IH].
Qed.

Lemma MemS3_get_remove_other {V} (k k' : string) (d : PyDict.t V) :
  k' <> k -> PyDict.get k' (MemS3.remove k d) = PyDict.get k' d.
Proof.
  intros Hne. induction d as [| [k0 v0] d IH]; cbn; [reflexivity |].
  destruct (String.eqb k0 k) eqn:E0; cbn.
  - apply String.eqb_eq in E0. subst k0.
    destruct (String.eqb k k') eqn:E; [| reflexivity].
    apply String.eqb_eq in E. congruence.
  - destruct (String.eqb k0 k'); [reflexivity | exact IH].
Qed.

(** The store in memory keeps to the frame, whatever faults are planned. *)
Lemma MemS3_frame : S3Frame MemS3.service MemS3.content.
Proof.
  constructor.
  - intros data key md s k Hne. cbn. unfold MemS3.put, MemS3.content.
    destruct (MemS3.put_fails (MemS3.plan s)); cbn; [reflexivity |].
    now apply PyDict_get_set_other.
  - intros key s k. cbn. unfold MemS3.get.
    destruct (MemS3.get_fails (MemS3.plan s)); reflexivity.
  - intros key s k Hne. cbn. unfold MemS3.delete, MemS3.content.
    destruct (MemS3.delete_raises (MemS3.plan s)); cbn; [reflexivity |].
    now apply MemS3_get_remove_other.
Qed.

Lemma temp_key_is_not_canonical :
  HashFileManager.HASH_FILE_KEY <> HashFileManager.TEMP_HASH_FILE_KEY.
Proof. discriminate. Qed.

(** C1. When the document read back from the temporary key is a JSON
    object whose [last_updated] is not the timestamp just written,
    [save_to_s3_atomic] returns [False]; it has asked the store for the
    upload to the temporary key and the read-back and nothing else, so no
    copy was issued, and on a store that keeps to the frame the canonical
    key holds what it held before. *)
Theorem save_atomic_mismatch_keeps_canonical :
  forall (W C : Type) (svc : S3Service W) (content : W -> string -> option C)
         (now : string) (self : HashFileManager.t) (w : World W)
         (s1 s2 : W) (temp_fields : list (string * Json)),
    S3Frame svc content ->
    let data :=
      HashFileManager.to_dict now
        (HashFileManager.set_last_updated (JStr now) self) in
    upload_json svc data HashFileManager.TEMP_HASH_FILE_KEY None (store w) =
      (true, s1) ->
    download_json svc HashFileManager.TEMP_HASH_FILE_KEY s1 =
      (Some (JObj temp_fields), s2) ->
    (forall stamp, PyJson.get "last_updated" (JObj temp_fields) = Ret stamp ->
                   PyJson.eq_str stamp now = false) ->
    exists self' w',
      HashFileManager.save_to_s3_atomic (Some svc) now (self, w) =
        (Ret false, (self', w')) /\
      log w' =
        (log w ++ [EvUpload HashFileManager.TEMP_HASH_FILE_KEY data;
                   EvDownload HashFileManager.TEMP_HASH_FILE_KEY])%list /\
      (forall src dst, In (EvCopy src dst) (log w') ->
                       In (EvCopy src dst) (log w)) /\
      content (store w') HashFileManager.HASH_FILE_KEY =
      content (store w) HashFileManager.HASH_FILE_KEY.
Proof.
  intros W C svc content now self w s1 s2 temp_fields Hframe data
    Hup Hdown Hstamp.
  exists (HashFileManager.set_last_updated (JStr now) self).
  exists (mkWorld s2
            (log w ++ [EvUpload HashFileManager.TEMP_HASH_FILE_KEY data;
                       EvDownload HashFileManager.TEMP_HASH_FILE_KEY])%list).
  assert (Hrun :
    HashFileManager.save_to_s3_atomic (Some svc) now (self, w) =
    (Ret false,
     (HashFileManager.set_last_updated (JStr now) self,
      mkWorld s2
        (log w ++ [EvUpload HashFileManager.TEMP_HASH_FILE_KEY data;
                   EvDownload HashFileManager.TEMP_HASH_FILE_KEY])%list))).
  { unfold HashFileManager.save_to_s3_atomic, try_except, bind,
      HashFileManager.in_self, HashFileManager.in_world, s3_upload_json,
      s3_download_json, emit, modify, get_state, on_store, lift_res, ret.
    cbn. fold data. rewrite Hup. cbn. rewrite Hdown. cbn.
    destruct (PyDict.get "last_updated" temp_fields) as [stamp |] eqn:Hget.
    - rewrite (Hstamp stamp) by (cbn; rewrite Hget; reflexivity).
      cbn. rewrite <- app_assoc. reflexivity.
    - cbn. rewrite <- app_assoc. reflexivity. }
  split; [exact Hrun |]. cbn [log store].
  split; [reflexivity |]. split.
  - intros src dst Hin. apply in_app_or in Hin.
    destruct Hin as [Hin | [Hin | [Hin | []]]];
      [assumption | discriminate | discriminate].
  - pose proof (@download_frame _ _ _ _ Hframe
                  HashFileManager.TEMP_HASH_FILE_KEY s1
                  HashFileManager.HASH_FILE_KEY) as Hd.
    rewrite Hdown in Hd. cbn in Hd. rewrite Hd.
    pose proof (@upload_frame _ _ _ _ Hframe data
                  HashFileManager.TEMP_HASH_FILE_KEY
                  None (store w) HashFileManager.HASH_FILE_KEY
                  temp_key_is_not_canonical) as Hu.
    rewrite Hup in Hu. exact Hu.
Qed.

Lemma in_copy_prefix (l tail : list Event) (src dst : string) :
  existsb is_copy tail = false ->
  In (EvCopy src dst) (l ++ tail) -> In (EvCopy src dst) l.
Proof.
  intros Htail Hin. apply in_app_or in Hin. destruct Hin as [H | H];
    [exact H |].
  assert (existsb is_copy tail = true) as Hex.
  { apply existsb_exists. exists (EvCopy src dst). now split. }
  congruence.
Qed.

(** In every run, a copy is asked of the store only after the upload went
    through and the read-back carried the timestamp just written. *)
Lemma save_atomic_copies_after_verification :
  forall (W : Type) (svc : S3Service W) (now : string)
         (self : HashFileManager.t) (w : World W) (src dst : string),
    let data :=
      HashFileManager.to_dict now
        (HashFileManager.set_last_updated (JStr now) self) in
    let run := HashFileManager.save_to_s3_atomic (Some svc) now (self, w) in
    In (EvCopy src dst) (log (snd (snd run))) ->
    In (EvCopy src dst) (log w) \/
    exists s1 s2 temp stamp,
      upload_json svc data HashFileManager.TEMP_HASH_FILE_KEY None (store w) =
        (true, s1) /\
      download_json svc HashFileManager.TEMP_HASH_FILE_KEY s1 =
        (Some temp, s2) /\
      PyJson.get "last_updated" temp = Ret stamp /\
      PyJson.eq_str stamp now = true.
Proof.
  intros W svc now self w src dst data run.
  subst run.
  unfold HashFileManager.save_to_s3_atomic, HashFileManager._copy_s3_object, try_except,
    bind, HashFileManager.in_self, HashFileManager.in_world, s3_upload_json,
    s3_download_json, s3_copy_object, s3_delete_object, emit, modify,
    get_state, on_store, on_store_res, lift_res, ret.
  cbn. fold data.
  destruct (upload_json svc data HashFileManager.TEMP_HASH_FILE_KEY None
              (store w)) as [[|] s1] eqn:Hup; cbn.
  2: { intros H. left. revert H. now apply in_copy_prefix. }
  destruct (download_json svc HashFileManager.TEMP_HASH_FILE_KEY s1)
    as [[temp |] s2] eqn:Hdown; cbn.
  2: { rewrite <- app_assoc. intros H. left. revert H.
       now apply in_copy_prefix. }
  destruct (PyJson.get "last_updated" temp) as [stamp | e] eqn:Hget.
  - destruct (PyJson.eq_str stamp now) eqn:Hstamp.
    + intros _. right. exists s1, s2, temp, stamp. repeat split; assumption.
    + destruct temp; cbn in Hget |- *; try discriminate; rewrite ?Hget, ?Hstamp;
        cbn; rewrite <- app_assoc; intros H; left; revert H;
        now apply in_copy_prefix.
  - destruct temp; cbn in Hget |- *; try discriminate; rewrite ?Hget; cbn.
    + rewrite <- app_assoc. intros H. left. revert H.
      now apply in_copy_prefix.
    + destruct (delete_object svc HashFileManager.TEMP_HASH_FILE_KEY s2)
        as [[ok | e'] s3]; cbn; rewrite <- !app_assoc; intros H; left;
        revert H; now apply in_copy_prefix.
    + destruct (delete_object svc HashFileManager.TEMP_HASH_FILE_KEY s2)
        as [[ok | e'] s3]; cbn; rewrite <- !app_assoc; intros H; left;
        revert H; now apply in_copy_prefix.
    + destruct (delete_object svc HashFileManager.TEMP_HASH_FILE_KEY s2)
        as [[ok | e'] s3]; cbn; rewrite <- !app_assoc; intros H; left;
        revert H; now apply in_copy_prefix.
    + destruct (PyDict.get "last_updated" fields); discriminate.
Qed.

Lemma save_atomic_mismatch_keeps_canonical_witness :
  let now := "2024-05-01T08:00:00Z" in
  let w := store_with_canonical garbling in
  let data :=
    HashFileManager.to_dict now
      (HashFileManager.set_last_updated (JStr now) one_bottle) in
  exists self' w',
    HashFileManager.save_to_s3_atomic (Some MemS3.service) now (one_bottle, w) =
      (Ret false, (self', w')) /\
    log w' =
      (log w ++ [EvUpload HashFileManager.TEMP_HASH_FILE_KEY data;
                 EvDownload HashFileManager.TEMP_HASH_FILE_KEY])%list /\
    (forall src dst, In (EvCopy src dst) (log w') ->
                     In (EvCopy src dst) (log w)) /\
    MemS3.content (store w') HashFileManager.HASH_FILE_KEY =
    MemS3.content (store w) HashFileManager.HASH_FILE_KEY.
Proof.
  intros now w data.
  apply (save_atomic_mismatch_keeps_canonical
           MemS3.state MemS3.object MemS3.service MemS3.content
           now one_bottle w
           (snd (MemS3.put data HashFileManager.TEMP_HASH_FILE_KEY None
                   (store w)))
           (snd (MemS3.put data HashFileManager.TEMP_HASH_FILE_KEY None
                   (store w)))
           [("last_updated", JStr "garbled")]).
  - exact MemS3_frame.
  - reflexivity.
  - reflexivity.
  - intros stamp Hget. cbn in Hget. injection Hget as <-. reflexivity.
Defined.

(** The canonical document of the example is the earlier one, untouched. *)
Example garbled_save_leaves_document :
  let '(r, (_, w')) :=
    HashFileManager.save_to_s3_atomic (Some MemS3.service) "2024-05-01T08:00:00Z"
      (one_bottle, store_with_canonical garbling) in
  r = Ret false /\
  MemS3.content (store w') HashFileManager.HASH_FILE_KEY =
  Some earlier_document.
Proof. split; reflexivity. Qed.

(** C4, at the failing inputs.  On each of the four failures that are not
    exceptions (the upload answers [False], the read-back answers [None],
    the read-back does not carry the timestamp, the copy fails)
    [save_to_s3_atomic] returns [False] without asking the store to delete
    the temporary object; where the upload went through, the temporary
    object stays in the store. *)
Theorem save_atomic_failure_skips_cleanup :
  let now := "2024-05-01T08:00:00Z" in
  let run faults :=
    HashFileManager.save_to_s3_atomic (Some MemS3.service) now
      (one_bottle, store_with_canonical faults) in
  let result faults := fst (run faults) in
  let asked faults := log (snd (snd (run faults))) in
  let temp_left faults :=
    PyDict.mem HashFileManager.TEMP_HASH_FILE_KEY
      (MemS3.objects (store (snd (snd (run faults))))) in
  (result failing_put = Ret false /\
   deletes HashFileManager.TEMP_HASH_FILE_KEY (asked failing_put) = false)
  /\
  (result failing_get = Ret false /\
   deletes HashFileManager.TEMP_HASH_FILE_KEY (asked failing_get) = false /\
   temp_left failing_get = true)
  /\
  (result garbling = Ret false /\
   deletes HashFileManager.TEMP_HASH_FILE_KEY (asked garbling) = false /\
   temp_left garbling = true)
  /\
  (result failing_copy = Ret false /\
   deletes HashFileManager.TEMP_HASH_FILE_KEY (asked failing_copy) = false /\
   temp_left failing_copy = true).
Proof.
  cbv zeta. repeat split; vm_compute; reflexivity.
Qed.

(** The path through the exception handler does ask for the deletion: a
    read-back that is not a JSON object makes [get] raise. *)
Example save_atomic_handler_cleans_up :
  let w :=
    mkWorld (MemS3.mk_state [] MemS3.no_faults) [] in
  let svc :=
    mkS3Service MemS3.put (fun key s => (Some (JArr []), s)) MemS3.delete
      MemS3.copy MemS3.exists_ MemS3.list_ MemS3.head in
  let '(r, (_, w')) :=
    HashFileManager.save_to_s3_atomic (Some svc) "2024-05-01T08:00:00Z"
      (one_bottle, w) in
  r = Ret false /\
  deletes HashFileManager.TEMP_HASH_FILE_KEY (log w') = true.
Proof. split; reflexivity. Qed.

(** ** Serialising the hash file and loading it back *)

Module StrFacts.

Lemma string_of_list_app (l1 l2 : list ascii) :
  string_of_list_ascii (l1 ++ l2) =
  (string_of_list_ascii l1 ++ string_of_list_ascii l2)%string.
Proof. induction l1 as [| x l1 IH]; cbn; [reflexivity | now rewrite IH]. Qed.

Lemma rev_string (a : ascii) (s : string) :
  PyStr.rev (String a s) = (PyStr.rev s ++ String a EmptyString)%string.
Proof. unfold PyStr.rev. cbn. now rewrite string_of_list_app. Qed.

Lemma append_assoc (a b c : string) :
  ((a ++ b) ++ c = a ++ (b ++ c))%string.
Proof. induction a as [| x a IH]; cbn; [reflexivity | now rewrite IH]. Qed.

Lemma append_nil_r (a : string) : (a ++ "")%string = a.
Proof. induction a as [| x a IH]; cbn; [reflexivity | now rewrite IH]. Qed.

Lemma rev_append (a b : string) :
  PyStr.rev (a ++ b) = (PyStr.rev b ++ PyStr.rev a)%string.
Proof.
  induction a as [| x a IH].
  - change (PyStr.rev "") with EmptyString. now rewrite append_nil_r.
  - change (String x a ++ b)%string with (String x (a ++ b)).
    rewrite !rev_string, IH, append_assoc. reflexivity.
Qed.

Lemma rev_involutive (s : string) : PyStr.rev (PyStr.rev s) = s.
Proof.
  induction s as [| x s IH]; [reflexivity |].
  rewrite rev_string, rev_append, IH. reflexivity.
Qed.

Lemma lacks_append (c : ascii) (a b : string) :
  lacks c (a ++ b) = lacks c a && lacks c b.
Proof.
  induction a as [| x a IH]; cbn; [reflexivity |].
  now rewrite IH, andb_assoc.
Qed.

Lemma lacks_rev (c : ascii) (s : string) :
  lacks c (PyStr.rev s) = lacks c s.
Proof.
  induction s as [| x s IH]; [reflexivity |].
  rewrite rev_string, lacks_append, IH. cbn.
  rewrite andb_true_r. apply andb_comm.
Qed.

Lemma break_at_first (c : ascii) (a b : string) :
  lacks c a = true ->
  PyStr.break_at c (a ++ String c b) = (a, Some b).
Proof.
  induction a as [| x a IH]; cbn.
  - intros _. now rewrite Ascii.eqb_refl.
  - intros H. apply andb_true_iff in H. destruct H as [Hx Ha].
    apply negb_true_iff in Hx. rewrite Hx, (IH Ha). reflexivity.
Qed.

(** Splitting at the last [c]: what is after it has no [c]. *)
Lemma rsplit1_last (c : ascii) (a b : string) :
  lacks c b = true ->
  PyStr.rsplit1 c (a ++ String c b) = [a; b].
Proof.
  intros Hb. unfold PyStr.rsplit1.
  rewrite rev_append, rev_string, append_assoc.
  change (String c "" ++ PyStr.rev a)%string with (String c (PyStr.rev a)).
  rewrite break_at_first by now rewrite lacks_rev.
  now rewrite !rev_involutive.
Qed.

End StrFacts.

Section RoundTrip.
Context {DT : Datetime}.

(** A typed entry that validates also validates the way [load_from_dict]
    meets it, as the entry [from_dict] builds. *)
Lemma validate_raw_of_typed (e : HashEntry.t) :
  HashEntry.validate e = Ret tt ->
  HashEntry.validate_raw (HashEntry.to_raw e) = Ret e.
Proof.
  unfold HashEntry.validate, HashEntry.validate_raw. destruct e as
    [name ver plat sha date sz]. cbn.
  destruct (String.eqb name ""); [discriminate |].
  destruct (String.eqb ver ""); [discriminate |].
  destruct (String.eqb plat ""); [discriminate |].
  destruct (String.eqb sha ""); [discriminate |]. cbn.
  destruct (PyStr.is_sha256_hex sha); [| discriminate]. cbn.
  destruct (String.eqb date ""); [discriminate |]. cbn.
  destruct (strptime_ymd date); [| discriminate].
  destruct (sz <=? 0); [discriminate |]. reflexivity.
Qed.

Lemma key_reads_back (name ver plat : string) :
  lacks "-" ver = true ->
  lacks "-" plat = true ->
  PyStr.rsplit1 "-" (bottle_key_of name ver plat) =
    [(name ++ "-" ++ ver)%string; plat] /\
  PyStr.rsplit1 "-" (name ++ "-" ++ ver)%string = [name; ver].
Proof.
  intros Hver Hplat. split.
  - unfold bottle_key_of.
    replace (name ++ "-" ++ ver ++ "-" ++ plat)%string
      with ((name ++ "-" ++ ver) ++ String "-" plat)%string.
    + now apply StrFacts.rsplit1_last.
    + rewrite StrFacts.append_assoc. reflexivity.
  - now apply StrFacts.rsplit1_last.
Qed.

(** One turn of the loop, on what [to_dict] wrote for a sound entry. *)
Lemma load_entry_sound (key : string) (e : HashEntry.t)
    (self : HashFileManager.t) :
  keyed_by_fields key e ->
  HashEntry.validate e = Ret tt ->
  HashFileManager.load_entry key (HashEntry.to_dict e) self =
  (Ret true,
   HashFileManager.set_bottles
     (PyDict.set key e (HashFileManager.bottles self)) self).
Proof.
  intros (Hkey & Hver & Hplat) Hvalid.
  destruct (key_reads_back (HashEntry.formula_name e) _ _ Hver Hplat)
    as [H1 H2].
  unfold HashFileManager.load_entry. rewrite Hkey, H1, H2.
  unfold bind, lift_res, modify, ret.
  change (HashEntry.from_dict (HashEntry.formula_name e)
            (HashEntry.version e) (HashEntry.platform e)
            (HashEntry.to_dict e))
    with (Ret (HashEntry.to_raw e)).
  cbv beta iota. rewrite (validate_raw_of_typed e Hvalid). reflexivity.
Qed.

(** Setting a new key appends. *)
Lemma PyDict_set_new {V} (k : string) (v : V) (d : PyDict.t V) :
  ~ In k (PyDict.keys d) -> PyDict.set k v d = (d ++ [(k, v)])%list.
Proof.
  induction d as [| [k0 v0] d IH]; cbn; [reflexivity |].
  intros Hnot. destruct (String.eqb k0 k) eqn:E.
  - apply String.eqb_eq in E. tauto.
  - rewrite IH by tauto. reflexivity.
Qed.

(** The loop of [load_from_dict] over the entries [to_dict] wrote. *)
Lemma load_loop_sound (entries : PyDict.t HashEntry.t) :
  forall (acc : PyDict.t HashEntry.t) (stamp : Json),
    NoDup (PyDict.keys (acc ++ entries)%list) ->
    (forall k e, In (k, e) entries ->
                 keyed_by_fields k e /\ HashEntry.validate e = Ret tt) ->
    for_each
      (map (fun kv => (fst kv, HashEntry.to_dict (snd kv))) entries)
      (fun kv => HashFileManager.load_entry (fst kv) (snd kv))
      (HashFileManager.mk acc stamp) =
    (Ret tt, HashFileManager.mk (acc ++ entries)%list stamp).
Proof.
  induction entries as [| [k e] entries IH]; intros acc stamp Hnd Hok.
  - cbn. now rewrite app_nil_r.
  - cbn [map for_each fst snd]. unfold bind.
    destruct (Hok k e (or_introl eq_refl)) as [Hkey Hvalid].
    rewrite (load_entry_sound k e _ Hkey Hvalid).
    cbn [HashFileManager.set_bottles HashFileManager.bottles
         HashFileManager.last_updated].
    assert (Hnew : ~ In k (PyDict.keys acc)).
    { unfold PyDict.keys in *. rewrite map_app in Hnd. cbn in Hnd.
      apply NoDup_remove_2 in Hnd. rewrite in_app_iff in Hnd. tauto. }
    rewrite (PyDict_set_new k e acc Hnew).
    unfold HashFileManager.set_bottles.
    cbn [HashFileManager.last_updated].
    rewrite IH.
    + now rewrite <- app_assoc.
    + now rewrite <- app_assoc.
    + intros k' e' Hin. apply Hok. now right.
Qed.

End RoundTrip.

(** C6, as the code has it.  For a manager whose [last_updated] is set
    (not [None], not empty), whose keys are all different, and whose
    entries each pass [validate] and sit under the key made of their own
    fields, with no hyphen in version or platform, [to_dict] followed by
    [load_from_dict] gives back the same [bottles] and the same
    [last_updated]. *)
Theorem round_trip_of_sound_manager :
  forall (DT : Datetime) (now : string) (self : HashFileManager.t),
    PyJson.truthy (HashFileManager.last_updated self) = true ->
    PyDict.wf (HashFileManager.bottles self) ->
    (forall k e, In (k, e) (HashFileManager.bottles self) ->
                 keyed_by_fields k e /\ HashEntry.validate e = Ret tt) ->
    round_trip now self = (Ret tt, self).
Proof.
  intros DT now [entries stamp] Hstamp Hwf Hok. cbn in *.
  unfold round_trip, HashFileManager.load_from_dict, HashFileManager.to_dict.
  cbn [HashFileManager.bottles HashFileManager.last_updated].
  rewrite Hstamp.
  unfold bind, lift_res, modify. cbn -[for_each map].
  apply (load_loop_sound entries [] stamp); assumption.
Qed.

Lemma round_trip_of_sound_manager_witness :
  PyJson.truthy (HashFileManager.last_updated one_bottle) = true /\
  @round_trip Calendar.datetime "2024-05-01T08:00:00Z" one_bottle =
  (Ret tt, one_bottle).
Proof.
  split; [reflexivity |].
  apply (round_trip_of_sound_manager Calendar.datetime).
  - reflexivity.
  - unfold PyDict.wf. cbn. constructor; [intros [] | constructor].
  - intros k e [Heq | []]. injection Heq as <- <-.
    split; [| reflexivity].
    split; [reflexivity | split; reflexivity].
Defined.

(** A manager that was never saved has no [last_updated]; [to_dict] writes
    the time of the call in its place, and that is what [load_from_dict]
    reads: the round trip does not give back the [last_updated] it
    started from. *)
Lemma round_trip_stamps_new_manager :
  exists self',
    @round_trip Calendar.datetime "2024-05-01T08:00:00Z" HashFileManager.init =
      (Ret tt, self') /\
    HashFileManager.last_updated self' = JStr "2024-05-01T08:00:00Z" /\
    HashFileManager.last_updated self' <>
    HashFileManager.last_updated HashFileManager.init.
Proof.
  eexists. split; [reflexivity |]. split; [reflexivity | discriminate].
Qed.

(** Two more managers that do not come back: one that holds an entry as the
    rebuild makes them, which [load_from_dict] refuses, and one whose
    version has a hyphen, which comes back under other fields. *)
Example round_trip_refuses_rebuilt_entry :
  @round_trip Calendar.datetime "2024-05-01T08:00:00Z"
    (HashFileManager.mk [("wget-1.21.4-arm64_sonoma", rebuilt_entry)]
       (JStr "2024-04-30T12:00:00Z")) =
  (Raise (ValueError "SHA256 hash must be 64 hexadecimal characters"),
   HashFileManager.mk [] (JStr "2024-04-30T12:00:00Z")).
Proof. reflexivity. Qed.

Example round_trip_moves_hyphenated_version :
  @round_trip Calendar.datetime "2024-05-01T08:00:00Z"
    (HashFileManager.mk [("node-22.0.0-rc1-arm64_sonoma", rc_entry)]
       (JStr "2024-04-30T12:00:00Z")) =
  (Ret tt,
   HashFileManager.mk
     [("node-22.0.0-rc1-arm64_sonoma",
       HashEntry.mk "node-22.0.0" "rc1" "arm64_sonoma"
         (HashEntry.sha256 rc_entry) "2024-04-30" 1048576)]
     (JStr "2024-04-30T12:00:00Z")).
Proof. reflexivity. Qed.

(** ** Rebuilding from the bucket, and what the rebuilt file looks like *)

Lemma for_each_invariant {S X} (P : S -> Prop) (body : X -> M S bool) :
  (forall x s, P s -> P (snd (body x s))) ->
  forall xs s, P s -> P (snd (for_each xs body s)).
Proof.
  intros Hbody xs. induction xs as [| x xs IH]; intros s Hs; [exact Hs |].
  cbn [for_each]. unfold bind.
  pose proof (Hbody x s Hs) as Hx.
  destruct (body x s) as [[[|] | e] s']; cbn in *; auto.
Qed.

Lemma PyDict_get_In {V} (k : string) (v : V) (d : PyDict.t V) :
  PyDict.get k d = Some v -> In (k, v) d.
Proof.
  induction d as [| [k0 v0] d IH]; cbn; [discriminate |].
  destruct (String.eqb k0 k) eqn:E.
  - apply String.eqb_eq in E. intros [= ->]. left. now subst.
  - intros H. right. now apply IH.
Qed.

Lemma PyDict_set_In {V} (k : string) (v : V) (d : PyDict.t V) k' v' :
  In (k', v') (PyDict.set k v d) -> In (k', v') d \/ v' = v.
Proof.
  induction d as [| [k0 v0] d IH]; cbn.
  - intros [[= <- <-] | []]. now right.
  - destruct (String.eqb k0 k); cbn.
    + intros [[= <- <-] | H]; [now right | left; now right].
    + intros [H | H]; [left; now left |].
      destruct (IH H); [left; now right | now right].
Qed.

Lemma all_unknown_set (k : string) (e : HashEntry.t)
    (d : PyDict.t HashEntry.t) :
  HashEntry.sha256 e = "unknown" ->
  all_unknown d -> all_unknown (PyDict.set k e d).
Proof.
  intros He Hd k' e' Hin.
  destruct (PyDict_set_In k e d k' e' Hin) as [H | ->]; [| exact He].
  exact (Hd k' e' H).
Qed.

Section RebuildFacts.
Context {DT : Datetime} {W : Type} (svc : S3Service W).

Lemma rebuild_entry_unknown (obj : S3Object) (s : HashFileManager.Sys W) :
  all_unknown (HashFileManager.bottles (fst s)) ->
  all_unknown
    (HashFileManager.bottles (fst (snd (HashFileManager.rebuild_entry svc obj s)))).
Proof.
  intros Hs. unfold HashFileManager.rebuild_entry.
  repeat match goal with
         | |- context [if ?c then _ else _] => destruct c; cbn; try exact Hs
         | |- context [match strptime_ymd ?d with _ => _ end] =>
             destruct (strptime_ymd d); cbn; try exact Hs
         | |- context [match PyStr.rsplit1 ?c ?x with _ => _ end] =>
             destruct (PyStr.rsplit1 c x) as [| ? [| ? [| ? ?]]];
             cbn; try exact Hs
         end.
  unfold bind, HashFileManager.in_world, HashFileManager.in_self,
    s3_get_object_metadata, emit, modify, on_store_res, ret. cbn.
  destruct (get_object_metadata svc (obj_key obj) (store (snd s)))
    as [[[md |] | e] s']; cbn; try exact Hs.
  apply all_unknown_set; [reflexivity | exact Hs].
Qed.

(** Whatever the bucket lists and however the calls end, the manager
    [rebuild_from_s3_metadata] leaves holds placeholder hashes only. *)
Lemma rebuild_all_unknown (now : string) (s : HashFileManager.Sys W) :
  all_unknown
    (HashFileManager.bottles
       (fst (snd (HashFileManager.rebuild_from_s3_metadata (Some svc) now s)))).
Proof.
  unfold HashFileManager.rebuild_from_s3_metadata, try_except.
  match goal with
  | |- context [match ?c s with _ => _ end] =>
      assert (Hc : all_unknown (HashFileManager.bottles (fst (snd (c s)))));
      [| destruct (c s) as [[ok | e] s1]; cbn in *; exact Hc]
  end.
  unfold bind, HashFileManager.in_self, HashFileManager.in_world,
    s3_list_objects, emit, modify, on_store_res, ret. cbn.
  destruct (list_objects svc "" 10000 (store (snd s)))
    as [[objects | e] s1]; cbn; [| intros k e0 []].
  match goal with
  | |- context [for_each objects ?body ?s0] =>
      pose proof (for_each_invariant
        (fun st : HashFileManager.Sys W =>
           all_unknown (HashFileManager.bottles (fst st)))
        body (fun x st H => rebuild_entry_unknown x st H) objects s0) as Hloop;
      destruct (for_each objects body s0) as [[u | e] s2]
  end; cbn in *; apply Hloop; intros k e0 [].
Qed.

End RebuildFacts.

(** C9. Every entry of the manager [rebuild_from_s3_metadata] leaves has
    [sha256 = "unknown"], so [has_bottle] answers [False] for any candidate
    bottle that carries a real hash of 64 hexadecimal characters: the
    bottle counts as not yet synced. *)
Theorem rebuilt_entries_have_unknown_hash :
  forall (DT : Datetime) (W : Type) (svc : S3Service W) (now : string)
         (s : HashFileManager.Sys W) (formula : Formula.t)
         (platform : string) (bottle : BottleInfo.t),
    PyStr.is_sha256_hex (BottleInfo.sha256 bottle) = true ->
    let run := HashFileManager.rebuild_from_s3_metadata (Some svc) now s in
    (exists ok, fst run = Ret ok) /\
    (forall k e, In (k, e) (HashFileManager.bottles (fst (snd run))) ->
                 HashEntry.sha256 e = "unknown") /\
    HashFileManager.has_bottle (fst (snd run)) formula platform bottle = false.
Proof.
  intros DT W svc now s formula platform bottle Hhex run.
  pose proof (rebuild_all_unknown svc now s) as Hall. fold run in Hall.
  split; [| split].
  - subst run. unfold HashFileManager.rebuild_from_s3_metadata, try_except.
    match goal with
    | |- context [match ?c s with _ => _ end] =>
        destruct (c s) as [[ok | e] s1]
    end; cbn; eauto.
  - exact Hall.
  - unfold HashFileManager.has_bottle.
    destruct (PyDict.get _ _) as [e |] eqn:Hget; [| reflexivity].
    apply PyDict_get_In in Hget. rewrite (Hall _ _ Hget).
    destruct (String.eqb "unknown" (BottleInfo.sha256 bottle)) eqn:E;
      [| reflexivity].
    apply String.eqb_eq in E. rewrite <- E in Hhex. discriminate.
Qed.

Lemma rebuilt_entries_have_unknown_hash_witness :
  PyStr.is_sha256_hex (BottleInfo.sha256 wget_bottle) = true /\
  let run :=
    @HashFileManager.rebuild_from_s3_metadata Calendar.datetime _
      (Some MemS3.service) "2024-05-01T08:00:00Z"
      (one_bottle, bucket_with_bottles) in
  (exists ok, fst run = Ret ok) /\
  (forall k e, In (k, e) (HashFileManager.bottles (fst (snd run))) ->
               HashEntry.sha256 e = "unknown") /\
  HashFileManager.has_bottle (fst (snd run)) wget_formula "arm64_sonoma"
    wget_bottle = false.
Proof.
  split; [reflexivity |].
  apply (rebuilt_entries_have_unknown_hash Calendar.datetime _ MemS3.service
           "2024-05-01T08:00:00Z" (one_bottle, bucket_with_bottles)
           wget_formula "arm64_sonoma" wget_bottle).
  reflexivity.
Defined.

(** The rebuild of the example: three bottles in the bucket, three entries,
    and the bottle that was known before the rebuild is not known after. *)
Example rebuild_of_three_bottles :
  rebuilt_manager =
  HashFileManager.mk
    [("wget-1.21.4-arm64_sonoma",
      HashEntry.mk "wget" "1.21.4" "arm64_sonoma" "unknown" "2024-04-30"
        1048576);
     ("wget-1.21.4-arm64_ventura",
      HashEntry.mk "wget" "1.21.4" "arm64_ventura" "unknown" "2024-04-30"
        1048570);
     ("openssl@3-3.3.0-monterey",
      HashEntry.mk "openssl@3" "3.3.0" "monterey" "unknown" "2024-04-30"
        8388608)]
    (JStr "2024-05-01T08:00:00Z")
  /\ HashFileManager.has_bottle one_bottle wget_formula "arm64_sonoma"
       wget_bottle = true
  /\ HashFileManager.has_bottle rebuilt_manager wget_formula "arm64_sonoma"
       wget_bottle = false.
Proof. repeat split. Qed.

(** ** A rebuilt file is reported as corrupted *)

Section CorruptionFacts.
Context {DT : Datetime}.

(** [HashEntry.validate] passes or raises [ValueError]. *)
Lemma validate_outcome (e : HashEntry.t) :
  HashEntry.validate e = Ret tt \/
  exists msg, HashEntry.validate e = Raise (ValueError msg).
Proof.
  unfold HashEntry.validate.
  repeat match goal with
         | |- context [if ?c then _ else _] => destruct c; eauto
         | |- context [match strptime_ymd ?d with _ => _ end] =>
             destruct (strptime_ymd d); eauto
         end.
Qed.

Lemma validate_refuses_unknown (e : HashEntry.t) :
  HashEntry.sha256 e = "unknown" ->
  exists msg, HashEntry.validate e = Raise (ValueError msg).
Proof.
  intros Hsha. unfold HashEntry.validate. rewrite Hsha.
  destruct (String.eqb (HashEntry.formula_name e) ""); [eauto |].
  destruct (String.eqb (HashEntry.version e) ""); [eauto |].
  destruct (String.eqb (HashEntry.platform e) ""); [eauto |].
  change (PyStr.is_sha256_hex "unknown") with false.
  cbn. eauto.
Qed.

Lemma validate_all_refuses (entries : list HashEntry.t) (e : HashEntry.t) :
  In e entries ->
  HashEntry.sha256 e = "unknown" ->
  exists msg,
    HashFileManager.validate_all entries = Raise (ValueError msg).
Proof.
  intros Hin Hsha. induction entries as [| e0 entries IH]; [destruct Hin |].
  cbn. destruct (validate_outcome e0) as [Hok | [msg Hbad]].
  - rewrite Hok. destruct Hin as [-> | Hin]; [| now apply IH].
    destruct (validate_refuses_unknown e Hsha) as [msg Hbad]. congruence.
  - rewrite Hbad. eauto.
Qed.

End CorruptionFacts.

(** C10. A manager that holds at least one entry with [sha256 = "unknown"]
    is reported as corrupted: [validate] raises [ValueError], which
    [detect_corruption] turns into [True].  The entries of
    [rebuild_from_s3_metadata] are such entries. *)
Theorem detect_corruption_flags_unknown_hash :
  forall (DT : Datetime) (current_date : Z) (self : HashFileManager.t)
         (k : string) (e : HashEntry.t),
    In (k, e) (HashFileManager.bottles self) ->
    HashEntry.sha256 e = "unknown" ->
    HashFileManager.detect_corruption current_date self = Ret true.
Proof.
  intros DT current_date self k e Hin Hsha.
  unfold HashFileManager.detect_corruption, HashFileManager.validate.
  destruct (validate_all_refuses (PyDict.values (HashFileManager.bottles self))
              e) as [msg Hbad].
  - unfold PyDict.values. apply in_map_iff. exists (k, e). now split.
  - exact Hsha.
  - rewrite Hbad. reflexivity.
Qed.

Lemma detect_corruption_flags_unknown_hash_witness :
  In ("wget-1.21.4-arm64_sonoma", rebuilt_entry)
     (HashFileManager.bottles rebuilt_manager) /\
  @HashFileManager.detect_corruption Calendar.datetime 19844 rebuilt_manager =
  Ret true.
Proof.
  split; [left; reflexivity |].
  apply (detect_corruption_flags_unknown_hash Calendar.datetime 19844
           rebuilt_manager "wget-1.21.4-arm64_sonoma" rebuilt_entry).
  - left. reflexivity.
  - reflexivity.
Defined.

(** The manager the rebuild replaced passes the same check. *)
Example detect_corruption_passes_sound_manager :
  @HashFileManager.detect_corruption Calendar.datetime 19844 one_bottle =
  Ret false.
Proof. reflexivity. Qed.

(** * Further properties of the code *)

(** ** The retry engine: how many calls, how many sleeps *)

Lemma sleeps_app (l1 l2 : list Event) :
  sleeps (l1 ++ l2) = (sleeps l1 + sleeps l2)%nat.
Proof.
  induction l1 as [| ev l1 IH]; [reflexivity |].
  destruct ev; cbn; rewrite ?IH; reflexivity.
Qed.

(** What [calculate_delay] raises is the overflow of the power, at an
    attempt past the first. *)
Lemma calculate_delay_raises {F} {FO : FloatOps F} (self : @RetryHandler F)
    (uniform : F -> F -> F) (attempt : Z) (e : PyExc) :
  calculate_delay self uniform attempt = Raise e ->
  1 < attempt /\
  f_pow (exponential_base (config self)) (Z.to_N (attempt - 2)) = None /\
  e = out_of_range.
Proof.
  unfold calculate_delay.
  destruct (attempt <=? 1) eqn:E; [discriminate |].
  destruct (f_pow _ _); [discriminate |].
  intros [= <-]. repeat split. lia.
Qed.

(** The loop from attempt [a] on, with [n] attempts left. *)
Lemma retry_loop_discipline {F W A} {FO : FloatOps F}
    (self : @RetryHandler F) (uniform : Z -> F -> F -> F)
    (func : W -> Res A * W) :
  forall (n : nat) (a : Z) (last : option PyExc) (w : World W),
    Z.to_nat (max_attempts (config self) + 1 - a) = n ->
    1 <= a <= max_attempts (config self) ->
    exists l,
      log (snd (retry_loop self uniform func
                  (range a (max_attempts (config self) + 1)) last w)) =
        (log w ++ l)%list /\
      (1 <= invocations l <= n)%nat /\
      (sleeps l + 1 = invocations l)%nat.
Proof.
  induction n as [| n IH]; intros a last w Hn Ha; [lia |].
  rewrite range_cons by lia.
  cbn [retry_loop]. unfold sleep_before_retry, lift_res, bind, try_except,
    emit, modify, on_store_res, put_retry_metric. cbn.
  destruct (func (store w)) as [[v | e] s'] eqn:Hf; cbn.
  - (* the call returned *)
    destruct (a >? 1); destruct (metrics self); cbn;
      eexists; (split; [rewrite <- ?app_assoc; reflexivity |]); cbn; lia.
  - (* the call raised *)
    destruct (should_retry self e a) eqn:Hretry.
    + assert (Hlt : (a <? max_attempts (config self)) = true).
      { rewrite should_retry_split in Hretry.
        apply andb_true_iff in Hretry. tauto. }
      assert (Ha' : a < max_attempts (config self)) by lia.
      destruct (calculate_delay self (uniform a) a) as [d | e'] eqn:Hdelay.
      * (* the delay is computed: sleep, and on to the next attempt *)
        destruct (metrics self); cbn; rewrite ?Hretry, Hlt, ?Hdelay; cbn;
          match goal with
          | |- context [retry_loop self uniform func _ ?last' ?w'] =>
              destruct (IH (a + 1) last' w') as (l & Hlog & Hinv & Hsl);
                [lia | lia |]
          end;
          rewrite Hlog; cbn [log];
          eexists; (split; [rewrite <- !app_assoc; reflexivity |]);
          cbn; rewrite ?Hsl; lia.
      * (* the delay overflows: no sleep, and no further call *)
        destruct (metrics self); cbn; rewrite ?Hretry, Hlt, ?Hdelay; cbn;
          eexists; (split; [rewrite <- ?app_assoc; reflexivity |]);
          cbn; lia.
    + destruct (metrics self); cbn; rewrite ?Hretry; cbn;
        eexists; (split; [rewrite <- ?app_assoc; reflexivity |]); cbn; lia.
Qed.

(** X1. Whatever the wrapped function does, a handler with
    [max_attempts >= 1] invokes it at least once and at most
    [max_attempts] times, and sleeps exactly once between two consecutive
    invocations: never before the first, never after the last. *)
Theorem retry_sync_discipline :
  forall (F W A : Type) (FO : FloatOps F) (self : @RetryHandler F)
         (uniform : Z -> F -> F -> F) (func : W -> Res A * W)
         (w : World W),
    1 <= max_attempts (config self) ->
    exists l,
      log (snd (retry_sync self uniform func w)) = (log w ++ l)%list /\
      (1 <= invocations l)%nat /\
      Z.of_nat (invocations l) <= max_attempts (config self) /\
      (sleeps l + 1 = invocations l)%nat.
Proof.
  intros F W A FO self uniform func w Hmax. unfold retry_sync.
  destruct (retry_loop_discipline self uniform func
              (Z.to_nat (max_attempts (config self))) 1 None w)
    as (l & Hlog & Hinv & Hsl); [lia | lia |].
  exists l. repeat split; try assumption; lia.
Qed.

Lemma retry_sync_discipline_witness :
  exists l,
    log (snd (retry_sync three_attempts lowest_draw always_reset
                (mkWorld O []))) =
      ([] ++ l)%list /\
    (1 <= invocations l)%nat /\
    Z.of_nat (invocations l) <= max_attempts (config three_attempts) /\
    (sleeps l + 1 = invocations l)%nat.
Proof.
  apply (retry_sync_discipline Binary64.t nat unit _ three_attempts
           lowest_draw always_reset (mkWorld O [])).
  simpl. lia.
Defined.

(** The outcome of the loop comes from a call of [func] or from the delay
    that could not be computed after one, unless no attempt is left and
    none was made. *)
Lemma retry_loop_outcome {F W A} {FO : FloatOps F} (self : @RetryHandler F)
    (uniform : Z -> F -> F -> F) (func : W -> Res A * W) :
  forall (attempts : list Z) (last : option PyExc) (w : World W),
    (forall e, last = Some e -> exists s, func s = (Raise e, store w)) ->
    (attempts <> [] \/ last <> None) ->
    let run := retry_loop self uniform func attempts last w in
    (exists s, func s = (fst run, store (snd run))) \/
    (exists n s e,
       In n attempts /\ 1 < n < max_attempts (config self) /\
       f_pow (exponential_base (config self)) (Z.to_N (n - 2)) = None /\
       func s = (Raise e, store (snd run)) /\
       should_retry self e n = true /\
       fst run = Raise out_of_range).
Proof.
  induction attempts as [| a rest IH]; intros last w Hlast Hsome.
  - destruct last as [e |]; [| destruct Hsome; congruence].
    left. cbn. exact (Hlast e eq_refl).
  - cbn zeta. cbn [retry_loop].
    unfold sleep_before_retry, lift_res, bind, try_except, emit, modify,
      on_store_res, put_retry_metric. cbn.
    destruct (func (store w)) as [[v | e] s'] eqn:Hf; cbn.
    + left. exists (store w). rewrite Hf.
      destruct (a >? 1); destruct (metrics self); reflexivity.
    + destruct (should_retry self e a) eqn:Hretry.
      * destruct (a <? max_attempts (config self)) eqn:Hlt.
        -- destruct (calculate_delay self (uniform a) a) as [d | e']
             eqn:Hdelay.
           ++ (* on to the next attempt *)
              destruct (metrics self); cbn; rewrite ?Hretry, ?Hdelay; cbn;
                match goal with
                | |- context [retry_loop self uniform func rest ?l' ?w'] =>
                    destruct (IH l' w') as [Hcall | Hover];
                      [ intros e' [= <-]; exists (store w); exact Hf
                      | right; discriminate
                      | left; exact Hcall
                      | right;
                        destruct Hover as (n & s & e0 & Hin & Hrest);
                        exists n, s, e0; split; [right; exact Hin
                                                | exact Hrest] ]
                end.
           ++ (* the delay overflows *)
              apply calculate_delay_raises in Hdelay.
              destruct Hdelay as (Hone & Hpow & ->).
              right. exists a, (store w), e.
              destruct (metrics self); cbn; rewrite ?Hretry; cbn;
                (repeat split;
                 [now left | lia | lia | exact Hpow | exact Hf]).
        -- destruct (metrics self); cbn; rewrite ?Hretry; cbn;
             match goal with
             | |- context [retry_loop self uniform func rest ?l' ?w'] =>
                 destruct (IH l' w') as [Hcall | Hover];
                   [ intros e' [= <-]; exists (store w); exact Hf
                   | right; discriminate
                   | left; exact Hcall
                   | right;
                     destruct Hover as (n & s & e0 & Hin & Hrest);
                     exists n, s, e0; split; [right; exact Hin
                                             | exact Hrest] ]
             end.
      * left. exists (store w). rewrite Hf.
        destruct (metrics self); cbn; rewrite ?Hretry; reflexivity.
Qed.

(** X2. With [max_attempts >= 1], [retry_sync] ends in one of two ways.
    Either what it returns or raises is what one call of the wrapped
    function returned or raised, and the store is as that call left it.
    Or a call at some attempt [n] with [2 <= n < max_attempts] raised an
    exception that is retried, the power [exponential_base ** (n - 2)] is
    out of the range of a float, and [retry_sync] raises the
    [OverflowError] of [calculate_delay] with the store as that call left
    it.  So where the powers are in range the engine adds no value and no
    exception of its own. *)
Theorem retry_sync_outcome_is_a_call_or_overflow :
  forall (F W A : Type) (FO : FloatOps F) (self : @RetryHandler F)
         (uniform : Z -> F -> F -> F) (func : W -> Res A * W)
         (w : World W),
    1 <= max_attempts (config self) ->
    let run := retry_sync self uniform func w in
    (exists s, func s = (fst run, store (snd run))) \/
    (exists n s e,
       2 <= n < max_attempts (config self) /\
       f_pow (exponential_base (config self)) (Z.to_N (n - 2)) = None /\
       func s = (Raise e, store (snd run)) /\
       should_retry self e n = true /\
       fst run = Raise out_of_range).
Proof.
  intros F W A FO self uniform func w Hmax run.
  destruct (retry_loop_outcome self uniform func
              (range 1 (max_attempts (config self) + 1)) None w)
    as [Hcall | (n & s & e & _ & Hn & Hrest)].
  - intros e [=].
  - left. rewrite range_cons by lia. discriminate.
  - left. exact Hcall.
  - right. exists n, s, e. split; [lia | exact Hrest].
Qed.

Lemma retry_sync_outcome_is_a_call_or_overflow_witness :
  let run := retry_sync patient lowest_draw always_reset (mkWorld O []) in
  (exists s, always_reset s = (fst run, store (snd run))) \/
  (exists n s e,
     2 <= n < max_attempts (config patient) /\
     f_pow (exponential_base (config patient)) (Z.to_N (n - 2)) = None /\
     always_reset s = (Raise e, store (snd run)) /\
     should_retry patient e n = true /\
     fst run = Raise out_of_range).
Proof.
  apply (retry_sync_outcome_is_a_call_or_overflow Binary64.t nat unit _
           patient lowest_draw always_reset (mkWorld O [])).
  simpl. lia.
Defined.

(** The second way, met: under [RetryConfig(max_attempts=1027)] a function
    that always fails with a connection error is called 1026 times; the
    delay after the last of these calls needs [2.0 ** 1024], and
    [retry_sync] raises [OverflowError] with one attempt left. *)
Example retry_sync_overflow :
  let run := retry_sync patient lowest_draw always_reset (mkWorld O []) in
  fst run = Raise out_of_range /\
  store (snd run) = 1026%nat /\
  invocations (log (snd run)) = 1026%nat /\
  sleeps (log (snd run)) = 1025%nat /\
  f_pow (exponential_base (config patient)) 1023 <> None /\
  f_pow (exponential_base (config patient)) 1024 = None.
Proof. vm_compute. repeat split. discriminate. Qed.

(** ** Errors that are never retried *)

(** X3. A [ValueError], a [KeyError] or a [PermissionError] is classified
    as a validation or an authentication error; [should_retry] refuses it
    at every attempt under every policy, and the recovery resolver answers
    skip or abort for it at every attempt, never retry. *)
Theorem input_and_permission_errors_never_retried :
  forall (F : Type) (self : @RetryHandler F)
         (py_str : PyExc -> string) (lower : string -> string)
         (now trace type_name type_module operation : string)
         (error : PyExc) (attempt : Z),
    (exists m, error = ValueError m \/ error = KeyError m
               \/ error = PermissionError m) ->
    let ctx :=
      classify_error py_str lower now trace type_name type_module error
        operation in
    (error_type ctx = VALIDATION_ERROR \/
     error_type ctx = AUTHENTICATION_ERROR) /\
    should_retry self error attempt = false /\
    (determine_recovery_action (at_attempt ctx attempt) = SKIP \/
     determine_recovery_action (at_attempt ctx attempt) = ABORT).
Proof.
  intros F self py_str lower now trace type_name type_module operation
    error attempt (m & [-> | [-> | ->]]) ctx; subst ctx;
    (split; [cbn; tauto |]);
    (split; [rewrite should_retry_split; apply andb_false_r |]);
    cbn; tauto.
Qed.

Lemma input_and_permission_errors_never_retried_witness :
  let ctx :=
    classify_error (fun _ => "bad input") (fun s => s)
      "2024-05-01T08:00:00Z" "Traceback" "ValueError" "builtins"
      (ValueError "bad input") "download_bottle" in
  (error_type ctx = VALIDATION_ERROR \/
   error_type ctx = AUTHENTICATION_ERROR) /\
  should_retry three_attempts (ValueError "bad input") 1 = false /\
  (determine_recovery_action (at_attempt ctx 1) = SKIP \/
   determine_recovery_action (at_attempt ctx 1) = ABORT).
Proof.
  apply (input_and_permission_errors_never_retried Binary64.t three_attempts
           (fun _ => "bad input") (fun s => s)
           "2024-05-01T08:00:00Z" "Traceback" "ValueError" "builtins"
           "download_bottle" (ValueError "bad input") 1).
  exists "bad input". left. reflexivity.
Defined.

(** ** The checkpoint document *)

Lemma to_strs_of_strs (l : list string) :
  JsonCodec.to_strs (map JStr l) = Ret l.
Proof.
  induction l as [| s l IH]; [reflexivity |]. cbn. now rewrite IH.
Qed.

(** X4. Reading back what [RecoveryState.to_dict] wrote gives the state it
    was written from, whatever the state. *)
Theorem recovery_state_round_trip :
  forall st : RecoveryState,
    RecoveryStateJson.from_dict (RecoveryStateJson.to_dict st) = Ret st.
Proof.
  intros [sync start last done failed skipped total check meta].
  unfold RecoveryStateJson.from_dict, RecoveryStateJson.to_dict.
  cbn -[JsonCodec.to_strs].
  unfold JsonCodec.to_str_list, JsonCodec.of_str_list.
  destruct last, check; cbn -[JsonCodec.to_strs];
    rewrite !to_strs_of_strs; reflexivity.
Qed.

(** A missing [sync_id] or [start_time] is a [KeyError], and the other
    fields fall back on their defaults. *)
Example recovery_state_defaults :
  RecoveryStateJson.from_dict
    (JObj [("sync_id", JStr "s"); ("start_time", JStr "t")]) =
    Ret (mkRecoveryState "s" "t" None [] [] [] 0 None (JObj []))
  /\ RecoveryStateJson.from_dict (JObj [("sync_id", JStr "s")]) =
     Raise (KeyError "start_time").
Proof. split; reflexivity. Qed.

(** X5. When the store, after the upload of [save_recovery_state], serves
    the document it was given, [load_recovery_state] returns the state
    that was saved, asked without a sync id or with the state's own. *)
Theorem saved_recovery_state_loads :
  forall (W : Type) (svc : S3Service W) (state : RecoveryState)
         (expected : option string) (w : World W) (s1 s2 : W),
    snd (upload_json svc (RecoveryStateJson.to_dict state) RECOVERY_STATE_KEY
           (Some [("sync_id", sync_id state)]) (store w)) = s1 ->
    download_json svc RECOVERY_STATE_KEY s1 =
      (Some (RecoveryStateJson.to_dict state), s2) ->
    expected = None \/ expected = Some (sync_id state) ->
    fst ((save_recovery_state svc state ;;;
          load_recovery_state svc expected) w) = Ret (Some state).
Proof.
  intros W svc state expected w s1 s2 Hup Hdown Hexp.
  unfold save_recovery_state, load_recovery_state, try_except, bind,
    s3_upload_json, s3_download_json, emit, modify, on_store, lift_res, ret.
  cbn.
  destruct (upload_json svc (RecoveryStateJson.to_dict state)
              RECOVERY_STATE_KEY (Some [("sync_id", sync_id state)]) (store w))
    as [ok s1']. cbn in Hup. subst s1'. cbn.
  rewrite Hdown. cbn -[RecoveryStateJson.from_dict].
  rewrite recovery_state_round_trip.
  destruct Hexp as [-> | ->]; [reflexivity |].
  rewrite String.eqb_refl. cbn. rewrite andb_false_r. reflexivity.
Qed.

Lemma saved_recovery_state_loads_witness :
  fst ((save_recovery_state MemS3.service earlier_sync ;;;
        load_recovery_state MemS3.service (Some "sync-2024-05-01"))
         empty_store) = Ret (Some earlier_sync).
Proof.
  apply (saved_recovery_state_loads MemS3.state MemS3.service earlier_sync
           (Some "sync-2024-05-01") empty_store
           (snd (MemS3.put (RecoveryStateJson.to_dict earlier_sync)
                   RECOVERY_STATE_KEY None (store empty_store)))
           (snd (MemS3.put (RecoveryStateJson.to_dict earlier_sync)
                   RECOVERY_STATE_KEY None (store empty_store)))).
  - reflexivity.
  - reflexivity.
  - right. reflexivity.
Defined.

(** X6. [load_recovery_state] never raises and asks the store for one
    download and nothing else; asked with a sync id that is not empty, it
    returns no state of another sync. *)
Theorem load_recovery_state_guards_sync_id :
  forall (W : Type) (svc : S3Service W) (expected : option string)
         (w : World W),
  exists r w',
    load_recovery_state svc expected w = (Ret r, w') /\
    log w' = (log w ++ [EvDownload RECOVERY_STATE_KEY])%list /\
    (forall st sid,
       r = Some st -> expected = Some sid -> sid <> "" ->
       sync_id st = sid).
Proof.
  intros W svc expected w.
  unfold load_recovery_state, try_except, bind, s3_download_json, emit,
    modify, on_store, lift_res, ret. cbn.
  destruct (download_json svc RECOVERY_STATE_KEY (store w))
    as [[data |] s1]; cbn.
  2: { eexists _, _. split; [reflexivity |]. split; [reflexivity |].
       intros st sid [=]. }
  destruct (PyJson.truthy data); cbn.
  2: { eexists _, _. split; [reflexivity |]. split; [reflexivity |].
       intros st sid [=]. }
  destruct (RecoveryStateJson.from_dict data) as [state | e]; cbn.
  2: { eexists _, _. split; [reflexivity |]. split; [reflexivity |].
       intros st sid [=]. }
  destruct expected as [sid |]; cbn.
  - destruct (String.eqb sid "") eqn:Eempty; cbn.
    + eexists _, _. split; [reflexivity |]. split; [reflexivity |].
      intros st sid' _ [= <-] Hne. apply String.eqb_eq in Eempty. congruence.
    + destruct (String.eqb (sync_id state) sid) eqn:Esame; cbn.
      * eexists _, _. split; [reflexivity |]. split; [reflexivity |].
        intros st sid' [= <-] [= <-] _. now apply String.eqb_eq.
      * eexists _, _. split; [reflexivity |]. split; [reflexivity |].
        intros st sid' [=].
  - eexists _, _. split; [reflexivity |]. split; [reflexivity |].
    intros st sid _ [=].
Qed.

(** A checkpoint of another sync is not handed out, and an empty sync id
    switches the check off. *)
Example load_recovery_state_foreign_checkpoint :
  fst (load_recovery_state MemS3.service (Some "sync-2024-05-02")
         store_with_checkpoint) = Ret None
  /\ fst (load_recovery_state MemS3.service (Some "")
            store_with_checkpoint) = Ret (Some earlier_sync).
Proof. split; reflexivity. Qed.

(** ** The progress ledger: checkpoints and repeated reports *)

(** What [update_progress] returns and what it asks of the store. *)
Lemma update_progress_result {W} (svc : S3Service W) (now : string)
    (st : RecoveryState) (bottle_id status : string) (w : World W) :
  exists st' w',
    update_progress svc now st bottle_id status w = (Ret st', w') /\
    completed_bottles st' =
      (if String.eqb status "completed"
       then add_once bottle_id (completed_bottles st)
       else completed_bottles st) /\
    failed_bottles st' =
      (if String.eqb status "failed"
       then add_once bottle_id (failed_bottles st)
       else failed_bottles st) /\
    skipped_bottles st' =
      (if String.eqb status "skipped"
       then add_once bottle_id (skipped_bottles st)
       else skipped_bottles st) /\
    (if Z.of_nat (List.length (completed_bottles st')) mod 10 =? 0
     then recovery_checkpoint st' = Some now /\
          log w' =
          (log w ++ [EvUpload RECOVERY_STATE_KEY
                       (RecoveryStateJson.to_dict st')])%list
     else recovery_checkpoint st' = recovery_checkpoint st /\ w' = w).
Proof.
  unfold update_progress, add_once.
  set (st1 := if String.eqb status "completed" then _ else _).
  assert (Hst1 :
    completed_bottles st1 =
      (if String.eqb status "completed"
       then (if str_in bottle_id (completed_bottles st)
             then completed_bottles st
             else (completed_bottles st ++ [bottle_id])%list)
       else completed_bottles st) /\
    failed_bottles st1 =
      (if String.eqb status "failed"
       then (if str_in bottle_id (failed_bottles st)
             then failed_bottles st
             else (failed_bottles st ++ [bottle_id])%list)
       else failed_bottles st) /\
    skipped_bottles st1 =
      (if String.eqb status "skipped"
       then (if str_in bottle_id (skipped_bottles st)
             then skipped_bottles st
             else (skipped_bottles st ++ [bottle_id])%list)
       else skipped_bottles st) /\
    recovery_checkpoint st1 = recovery_checkpoint st).
  { subst st1.
    destruct (String.eqb status "completed") eqn:Ec.
    { apply String.eqb_eq in Ec. subst status. cbn.
      destruct (str_in bottle_id (completed_bottles st)); cbn; tauto. }
    destruct (String.eqb status "failed") eqn:Ef.
    { apply String.eqb_eq in Ef. subst status. cbn.
      destruct (str_in bottle_id (failed_bottles st)); cbn; tauto. }
    destruct (String.eqb status "skipped") eqn:Es.
    { destruct (str_in bottle_id (skipped_bottles st)); cbn; tauto. }
    tauto. }
  clearbody st1. destruct Hst1 as (Hc & Hf & Hs & Hk).
  destruct (Z.of_nat (List.length (completed_bottles st1)) mod 10 =? 0)
    eqn:Hten.
  - unfold bind, save_recovery_state, try_except, s3_upload_json, emit,
      modify, on_store, ret. cbn.
    destruct (upload_json svc _ _ _ _) as [ok s1]. cbn.
    eexists _, _. split; [reflexivity |]. cbn.
    rewrite Hten. repeat split; assumption.
  - eexists _, _. split; [reflexivity |].
    rewrite Hten. repeat split; assumption.
Qed.

(** X7. [update_progress] stamps a checkpoint and uploads the ledger to the
    store exactly when the number of completed bottles, after the report,
    is a multiple of ten, whatever the status reported: also at zero
    completed, and again on every report while the count stays at such a
    multiple.  Otherwise it leaves the store and the log alone. *)
Theorem update_progress_checkpoints :
  forall (W : Type) (svc : S3Service W) (now : string) (st : RecoveryState)
         (bottle_id status : string) (w : World W),
  exists st' w',
    update_progress svc now st bottle_id status w = (Ret st', w') /\
    (Z.of_nat (List.length (completed_bottles st')) mod 10 = 0 ->
     recovery_checkpoint st' = Some now /\
     log w' =
     (log w ++ [EvUpload RECOVERY_STATE_KEY
                  (RecoveryStateJson.to_dict st')])%list) /\
    (Z.of_nat (List.length (completed_bottles st')) mod 10 <> 0 ->
     recovery_checkpoint st' = recovery_checkpoint st /\ w' = w).
Proof.
  intros W svc now st bottle_id status w.
  destruct (update_progress_result svc now st bottle_id status w)
    as (st' & w' & Hrun & _ & _ & _ & Hcheck).
  exists st', w'. split; [exact Hrun |].
  destruct (Z.of_nat (List.length (completed_bottles st')) mod 10 =? 0)
    eqn:Hten.
  - split; [intros _; exact Hcheck | intros Hne; lia].
  - split; [intros H0; lia | intros _; exact Hcheck].
Qed.

(** A failure reported before any bottle completed uploads a checkpoint. *)
Example first_failure_checkpoints :
  uploads
    (log (snd (update_progress MemS3.service "2024-05-01T00:05:00Z"
                 fresh_ledger "wget-1.21.4-arm64_sonoma" "failed"
                 empty_store))) = 1%nat.
Proof. reflexivity. Qed.

Lemma add_once_idempotent (id : string) (xs : list string) :
  add_once id (add_once id xs) = add_once id xs.
Proof.
  unfold add_once. destruct (str_in id xs) eqn:Hin.
  - now rewrite Hin.
  - assert (H : str_in id (xs ++ [id]) = true).
    { apply str_in_In, in_or_app. right. now left. }
    now rewrite H.
Qed.

Lemma add_once_NoDup (id : string) (xs : list string) :
  NoDup xs -> NoDup (add_once id xs).
Proof.
  intros Hnd. unfold add_once. destruct (str_in id xs) eqn:Hin; [exact Hnd |].
  assert (Hnot : ~ In id xs).
  { intros H. apply str_in_In in H. congruence. }
  clear Hin. induction xs as [| x xs IH]; cbn.
  - constructor; [intros [] | constructor].
  - inversion Hnd as [| ? ? Hx Hxs]; subst. constructor.
    + rewrite in_app_iff. cbn. intros [H | [H | []]]; [tauto |].
      subst. apply Hnot. now left.
    + apply IH; [assumption |]. intros H. apply Hnot. now right.
Qed.

(** X8. Reporting the same bottle with the same status a second time
    changes none of the three collections: a repeated report is absorbed. *)
Theorem update_progress_absorbs_repeats :
  forall (W : Type) (svc : S3Service W) (now now' : string)
         (st : RecoveryState) (bottle_id status : string) (w : World W),
  exists st1 w1 st2 w2,
    update_progress svc now st bottle_id status w = (Ret st1, w1) /\
    update_progress svc now' st1 bottle_id status w1 = (Ret st2, w2) /\
    completed_bottles st2 = completed_bottles st1 /\
    failed_bottles st2 = failed_bottles st1 /\
    skipped_bottles st2 = skipped_bottles st1.
Proof.
  intros W svc now now' st bottle_id status w.
  destruct (update_progress_result svc now st bottle_id status w)
    as (st1 & w1 & Hrun1 & Hc1 & Hf1 & Hs1 & _).
  destruct (update_progress_result svc now' st1 bottle_id status w1)
    as (st2 & w2 & Hrun2 & Hc2 & Hf2 & Hs2 & _).
  exists st1, w1, st2, w2.
  split; [exact Hrun1 |]. split; [exact Hrun2 |].
  rewrite Hc2, Hf2, Hs2, Hc1, Hf1, Hs1.
  destruct (String.eqb status "completed"),
           (String.eqb status "failed"),
           (String.eqb status "skipped");
    rewrite ?add_once_idempotent; repeat split; reflexivity.
Qed.

(** X9. [update_progress] keeps each collection free of duplicates. *)
Theorem update_progress_keeps_collections_duplicate_free :
  forall (W : Type) (svc : S3Service W) (now : string) (st : RecoveryState)
         (bottle_id status : string) (w : World W),
    NoDup (completed_bottles st) ->
    NoDup (failed_bottles st) ->
    NoDup (skipped_bottles st) ->
    let st' := fst (update_progress svc now st bottle_id status w) in
    exists st1,
      st' = Ret st1 /\
      NoDup (completed_bottles st1) /\
      NoDup (failed_bottles st1) /\
      NoDup (skipped_bottles st1).
Proof.
  intros W svc now st bottle_id status w Hc Hf Hs st'. subst st'.
  destruct (update_progress_result svc now st bottle_id status w)
    as (st1 & w1 & Hrun & Hc1 & Hf1 & Hs1 & _).
  exists st1. rewrite Hrun. split; [reflexivity |].
  rewrite Hc1, Hf1, Hs1.
  destruct (String.eqb status "completed"),
           (String.eqb status "failed"),
           (String.eqb status "skipped");
    repeat split; try assumption; now apply add_once_NoDup.
Qed.

Lemma update_progress_keeps_collections_duplicate_free_witness :
  let st' :=
    fst (update_progress MemS3.service "2024-05-01T00:06:00Z" earlier_sync
           "wget-1.21.4-arm64_sonoma" "completed" empty_store) in
  exists st1,
    st' = Ret st1 /\
    NoDup (completed_bottles st1) /\
    NoDup (failed_bottles st1) /\
    NoDup (skipped_bottles st1).
Proof.
  apply (update_progress_keeps_collections_duplicate_free MemS3.state
           MemS3.service "2024-05-01T00:06:00Z" earlier_sync
           "wget-1.21.4-arm64_sonoma" "completed" empty_store).
  - cbn. constructor; [intros [] | constructor].
  - constructor.
  - constructor.
Defined.

(** ** Adding bottles and asking for them *)

Lemma PyDict_get_set_same {V} (k : string) (v : V) (d : PyDict.t V) :
  PyDict.get k (PyDict.set k v d) = Some v.
Proof.
  induction d as [| [k0 v0] d IH]; cbn.
  - now rewrite String.eqb_refl.
  - destruct (String.eqb k0 k) eqn:E; cbn; rewrite E; [reflexivity | exact IH].
Qed.

Lemma PyDict_set_set {V} (k : string) (v v' : V) (d : PyDict.t V) :
  PyDict.set k v' (PyDict.set k v d) = PyDict.set k v' d.
Proof.
  induction d as [| [k0 v0] d IH]; cbn.
  - now rewrite String.eqb_refl.
  - destruct (String.eqb k0 k) eqn:E; cbn; rewrite E;
      [reflexivity | now rewrite IH].
Qed.

Lemma PyDict_keys_set {V} (k : string) (v : V) (d : PyDict.t V) :
  PyDict.keys (PyDict.set k v d) =
  if PyDict.mem k d then PyDict.keys d else (PyDict.keys d ++ [k])%list.
Proof.
  unfold PyDict.mem, PyDict.keys.
  induction d as [| [k0 v0] d IH]; cbn; [reflexivity |].
  destruct (String.eqb k0 k) eqn:E; cbn; [reflexivity |].
  rewrite IH. destruct (PyDict.get k d); reflexivity.
Qed.

Lemma PyDict_mem_keys {V} (k : string) (d : PyDict.t V) :
  PyDict.mem k d = true <-> In k (PyDict.keys d).
Proof.
  unfold PyDict.mem, PyDict.keys.
  induction d as [| [k0 v0] d IH]; cbn; [split; [discriminate | tauto] |].
  destruct (String.eqb k0 k) eqn:E.
  - apply String.eqb_eq in E. split; [now left | reflexivity].
  - apply String.eqb_neq in E. rewrite IH. split; [now right |].
    intros [H | H]; [congruence | exact H].
Qed.

Lemma PyDict_wf_set {V} (k : string) (v : V) (d : PyDict.t V) :
  PyDict.wf d -> PyDict.wf (PyDict.set k v d).
Proof.
  unfold PyDict.wf. intros Hwf. rewrite PyDict_keys_set.
  destruct (PyDict.mem k d) eqn:Hmem; [exact Hwf |].
  assert (Hnot : ~ In k (PyDict.keys d)).
  { intros H. apply PyDict_mem_keys in H. congruence. }
  clear Hmem. induction (PyDict.keys d) as [| x xs IH]; cbn.
  - constructor; [intros [] | constructor].
  - inversion Hwf as [| ? ? Hx Hxs]; subst. constructor.
    + rewrite in_app_iff. cbn. intros [H | [H | []]]; [tauto |].
      subst. apply Hnot. now left.
    + apply IH; [assumption |]. intros H. apply Hnot. now right.
Qed.

(** X10. A bottle that [add_bottle] accepted is found by [has_bottle]; a
    candidate for the same formula and platform with another hash is not;
    what is stored under other keys stays; and adding the same bottle
    again changes nothing, so the map does not grow. *)
Theorem add_bottle_then_has_bottle :
  forall (DT : Datetime) (formula : Formula.t) (platform : string)
         (bottle : BottleInfo.t) (download_date : string)
         (self : HashFileManager.t),
    HashEntry.validate (entry_of formula platform bottle download_date) =
      Ret tt ->
    exists self',
      HashFileManager.add_bottle formula platform bottle download_date self =
        (Ret tt, self') /\
      HashFileManager.has_bottle self' formula platform bottle = true /\
      (forall other,
         BottleInfo.sha256 other <> BottleInfo.sha256 bottle ->
         HashFileManager.has_bottle self' formula platform other = false) /\
      (forall k,
         k <> bottle_key_of (Formula.name formula) (Formula.version formula)
                platform ->
         PyDict.get k (HashFileManager.bottles self') =
         PyDict.get k (HashFileManager.bottles self)) /\
      HashFileManager.add_bottle formula platform bottle download_date self' =
        (Ret tt, self').
Proof.
  intros DT formula platform bottle download_date self Hvalid.
  unfold entry_of in Hvalid.
  unfold HashFileManager.add_bottle, bind, lift_res, modify.
  rewrite Hvalid. cbn.
  eexists. split; [reflexivity |].
  unfold HashFileManager.has_bottle, HashFileManager.set_bottles. cbn.
  rewrite PyDict_get_set_same. cbn.
  split; [apply String.eqb_refl |]. split; [| split].
  - intros other Hne. apply String.eqb_neq. congruence.
  - intros k Hne. now apply PyDict_get_set_other.
  - now rewrite PyDict_set_set.
Qed.

Lemma add_bottle_then_has_bottle_witness :
  exists self',
    @HashFileManager.add_bottle Calendar.datetime wget_formula "arm64_sonoma"
      wget_bottle "2024-04-30" HashFileManager.init = (Ret tt, self') /\
    HashFileManager.has_bottle self' wget_formula "arm64_sonoma" wget_bottle =
      true /\
    (forall other,
       BottleInfo.sha256 other <> BottleInfo.sha256 wget_bottle ->
       HashFileManager.has_bottle self' wget_formula "arm64_sonoma" other =
         false) /\
    (forall k,
       k <> bottle_key_of (Formula.name wget_formula)
              (Formula.version wget_formula) "arm64_sonoma" ->
       PyDict.get k (HashFileManager.bottles self') =
       PyDict.get k (HashFileManager.bottles HashFileManager.init)) /\
    @HashFileManager.add_bottle Calendar.datetime wget_formula "arm64_sonoma"
      wget_bottle "2024-04-30" self' = (Ret tt, self').
Proof.
  apply (add_bottle_then_has_bottle Calendar.datetime wget_formula
           "arm64_sonoma" wget_bottle "2024-04-30" HashFileManager.init).
  reflexivity.
Defined.

Lemma PyDict_set_In_key {V} (k : string) (v : V) (d : PyDict.t V) k' v' :
  In (k', v') (PyDict.set k v d) -> In (k', v') d \/ (k' = k /\ v' = v).
Proof.
  induction d as [| [k0 v0] d IH]; cbn.
  - intros [[= <- <-] | []]. now right.
  - destruct (String.eqb k0 k) eqn:E; cbn.
    + apply String.eqb_eq in E. subst k0.
      intros [[= <- <-] | H]; [now right | left; now right].
    + intros [H | H]; [left; now left |].
      destruct (IH H) as [H' | H']; [left; now right | now right].
Qed.

(** X11. [add_bottle] is all or nothing and keeps a manager in order: an
    entry that does not validate raises [ValueError] and leaves the
    manager as it was; an accepted one leaves a manager in which every
    key still occurs once and every entry is valid and stored under the
    key made of its own fields. *)
Theorem add_bottle_keeps_order :
  forall (DT : Datetime) (formula : Formula.t) (platform : string)
         (bottle : BottleInfo.t) (download_date : string)
         (self : HashFileManager.t),
    in_order self ->
    let run :=
      HashFileManager.add_bottle formula platform bottle download_date self in
    in_order (snd run) /\
    ((exists msg, fst run = Raise (ValueError msg) /\ snd run = self) \/
     fst run = Ret tt).
Proof.
  intros DT formula platform bottle download_date self [Hwf Hok] run.
  subst run.
  unfold HashFileManager.add_bottle, bind, lift_res, modify.
  destruct (validate_outcome
              (HashEntry.mk (Formula.name formula) (Formula.version formula)
                 platform (BottleInfo.sha256 bottle) download_date
                 (BottleInfo.size bottle))) as [Hvalid | [msg Hbad]].
  - rewrite Hvalid. cbn. split; [| now right].
    split.
    + now apply PyDict_wf_set.
    + intros k e Hin. apply PyDict_set_In_key in Hin.
      destruct Hin as [H | [-> ->]]; [now apply Hok |].
      split; [reflexivity | exact Hvalid].
  - rewrite Hbad. cbn. split; [now split |]. left. eauto.
Qed.

Lemma add_bottle_keeps_order_witness :
  let run :=
    @HashFileManager.add_bottle Calendar.datetime wget_formula "arm64_sonoma"
      wget_bottle "2024-04-30" HashFileManager.init in
  @in_order Calendar.datetime (snd run) /\
  ((exists msg, fst run = Raise (ValueError msg) /\
                snd run = HashFileManager.init) \/
   fst run = Ret tt).
Proof.
  apply (add_bottle_keeps_order Calendar.datetime wget_formula "arm64_sonoma"
           wget_bottle "2024-04-30" HashFileManager.init).
  split.
  - constructor.
  - intros k e [].
Defined.

(** ** What [detect_corruption] accepts *)

Lemma nodup_length_le (l : list string) :
  (List.length (nodup string_dec l) <= List.length l)%nat.
Proof.
  induction l as [| x l IH]; cbn; [lia |].
  destruct (in_dec string_dec x l); cbn; lia.
Qed.

Lemma nodup_same_length (l : list string) :
  List.length l = List.length (nodup string_dec l) <-> NoDup l.
Proof.
  split.
  - induction l as [| x l IH]; cbn; [constructor |].
    pose proof (nodup_length_le l) as Hle.
    destruct (in_dec string_dec x l) as [Hin | Hnot]; cbn; [lia |].
    intros [= Hlen]. constructor; [exact Hnot | now apply IH].
  - intros Hnd. now rewrite (nodup_fixed_point string_dec Hnd).
Qed.

Lemma existsb_false_forall {X} (f : X -> bool) (l : list X) :
  existsb f l = false <-> forall x, In x l -> f x = false.
Proof.
  induction l as [| y l IH]; cbn.
  - split; [intros _ x [] | reflexivity].
  - rewrite orb_false_iff, IH. split.
    + intros [Hy Hl] x [<- | Hin]; auto.
    + intros H. split; [apply H; now left | intros x Hin; apply H; now right].
Qed.

Section DetectFacts.
Context {DT : Datetime}.

Lemma validate_all_passes (entries : list HashEntry.t) :
  HashFileManager.validate_all entries = Ret tt <->
  forall e, In e entries -> HashEntry.validate e = Ret tt.
Proof.
  induction entries as [| e0 entries IH]; cbn.
  - split; [intros _ e [] | reflexivity].
  - destruct (HashEntry.validate e0) as [[] | err] eqn:H0.
    + rewrite IH. split.
      * intros H e [<- | Hin]; auto.
      * intros H e Hin. apply H. now right.
    + split; [discriminate |]. intros H.
      specialize (H e0 (or_introl eq_refl)). congruence.
Qed.

Lemma validate_all_outcome (entries : list HashEntry.t) :
  HashFileManager.validate_all entries = Ret tt \/
  exists msg, HashFileManager.validate_all entries = Raise (ValueError msg).
Proof.
  induction entries as [| e0 entries IH]; cbn; [now left |].
  destruct (validate_outcome e0) as [-> | [msg ->]]; [exact IH | eauto].
Qed.

Lemma check_dates_passes (current_date : Z) (entries : list HashEntry.t) :
  HashFileManager.check_dates current_date entries = false <->
  forall e, In e entries ->
            exists d, strptime_ymd (HashEntry.download_date e) = Some d /\
                      d <= current_date.
Proof.
  induction entries as [| e0 entries IH]; cbn.
  - split; [intros _ e [] | reflexivity].
  - destruct (strptime_ymd (HashEntry.download_date e0)) as [d0 |] eqn:H0.
    + destruct (d0 >? current_date) eqn:Hgt.
      * split; [discriminate |]. intros H.
        destruct (H e0 (or_introl eq_refl)) as (d & Hd & Hle).
        rewrite H0 in Hd. injection Hd as <-. lia.
      * rewrite IH. split.
        -- intros H e [<- | Hin]; [exists d0; split; [exact H0 | lia] | auto].
        -- intros H e Hin. apply H. now right.
    + split; [discriminate |]. intros H.
      destruct (H e0 (or_introl eq_refl)) as (d & Hd & _).
      rewrite H0 in Hd. discriminate.
Qed.

End DetectFacts.

(** What [detect_corruption] accepts, in full. *)
Lemma detect_corruption_accepts :
  forall (DT : Datetime) (current_date : Z) (self : HashFileManager.t),
    HashFileManager.detect_corruption current_date self = Ret false <->
    (exists stamp,
       HashFileManager.last_updated self = JStr stamp /\
       stamp <> "" /\
       fromisoformat (PyStr.replace_Z stamp) <> None) /\
    NoDup (PyDict.keys (HashFileManager.bottles self)) /\
    (forall k e,
       In (k, e) (HashFileManager.bottles self) ->
       HashEntry.validate e = Ret tt /\
       k = bottle_key_of (HashEntry.formula_name e) (HashEntry.version e)
             (HashEntry.platform e) /\
       HashEntry.file_size e <= TEN_GIB /\
       exists d, strptime_ymd (HashEntry.download_date e) = Some d /\
                 d <= current_date).
Proof.
  intros DT current_date [entries stamp_v].
  unfold HashFileManager.detect_corruption, HashFileManager.validate.
  cbn [HashFileManager.bottles HashFileManager.last_updated].
  assert (Hvalues : forall P : HashEntry.t -> Prop,
            (forall e, In e (PyDict.values entries) -> P e) <->
            (forall k e, In (k, e) entries -> P e)).
  { intros P. unfold PyDict.values. split.
    - intros H k e Hin. apply H. apply in_map_iff. now exists (k, e).
    - intros H e Hin. apply in_map_iff in Hin.
      destruct Hin as ([k e'] & <- & Hin). eauto. }
  destruct (validate_all_outcome (PyDict.values entries))
    as [Hval | [msg Hval]]; rewrite Hval; cbn.
  2: { split; [discriminate |]. intros (_ & _ & Hall).
       assert (HashFileManager.validate_all (PyDict.values entries) = Ret tt)
         as Hok.
       { apply validate_all_passes. apply Hvalues.
         intros k e Hin. exact (proj1 (Hall k e Hin)). }
       congruence. }
  pose proof (proj1 (Hvalues (fun e => HashEntry.validate e = Ret tt))
                (proj1 (validate_all_passes _) Hval)) as Hval'.
  clear Hval. rename Hval' into Hval.
  destruct stamp_v as [| z | stamp | items | fields]; cbn.
  1, 2, 4, 5:
    split;
    [ repeat match goal with
             | |- context [if ?c then _ else _] => destruct c
             | |- context [match ?l with [] => _ | _ => _ end] => destruct l
             end; cbn; discriminate
    | intros ((stamp & [=] & _) & _) ].
  destruct (String.eqb stamp "") eqn:Hempty; cbn.
  { apply String.eqb_eq in Hempty. split; [discriminate |].
    intros ((stamp' & [= <-] & Hne & _) & _). congruence. }
  apply String.eqb_neq in Hempty.
  destruct (fromisoformat (PyStr.replace_Z stamp)) as [iso |] eqn:Hiso.
  2: { split; [discriminate |].
       intros ((stamp' & [= <-] & _ & Hparse) & _). congruence. }
  destruct (List.length (PyDict.keys entries) =?
            List.length (nodup string_dec (PyDict.keys entries)))%nat
    eqn:Hlen; cbn.
  2: { apply Nat.eqb_neq in Hlen. split; [discriminate |].
       intros (_ & Hnd & _). apply nodup_same_length in Hnd. congruence. }
  apply Nat.eqb_eq, nodup_same_length in Hlen.
  destruct (existsb _ entries) eqn:Hkeys; cbn.
  { split; [discriminate |]. intros (_ & _ & Hall).
    apply existsb_exists in Hkeys. destruct Hkeys as ([k e] & Hin & Hbad).
    destruct (Hall k e Hin) as (_ & Hk & _). cbn in Hbad.
    rewrite <- Hk, String.eqb_refl in Hbad. discriminate. }
  rewrite existsb_false_forall in Hkeys.
  destruct (existsb _ (PyDict.values entries)) eqn:Hsizes; cbn.
  { split; [discriminate |]. intros (_ & _ & Hall).
    apply existsb_exists in Hsizes. destruct Hsizes as (e & Hin & Hbad).
    apply in_map_iff in Hin. destruct Hin as ([k e'] & <- & Hin).
    destruct (Hall k e' Hin) as (Hv & _ & Hsz & _). cbn in Hbad.
    unfold HashEntry.validate in Hv. unfold TEN_GIB in Hsz.
    repeat match type of Hv with
           | (if ?c then _ else _) = _ => destruct c; try discriminate
           | match ?c with _ => _ end = _ => destruct c eqn:?; try discriminate
           end.
    lia. }
  rewrite existsb_false_forall in Hsizes.
  split.
  - intros [= Hdates].
    pose proof (proj1 (check_dates_passes _ _) Hdates) as Hd. clear Hdates.
    rename Hd into Hdates.
    split; [exists stamp; repeat split; congruence |].
    split; [exact Hlen |].
    intros k e Hin. split; [now apply (Hval k) |]. split; [| split].
    + specialize (Hkeys (k, e) Hin). cbn in Hkeys.
      apply negb_false_iff, String.eqb_eq in Hkeys. exact Hkeys.
    + assert (In e (PyDict.values entries)) as Hine.
      { apply in_map_iff. now exists (k, e). }
      specialize (Hsizes e Hine). cbn in Hsizes.
      apply orb_false_iff in Hsizes. unfold TEN_GIB. lia.
    + apply Hdates. apply in_map_iff. now exists (k, e).
  - intros (_ & _ & Hall). f_equal. apply (proj2 (check_dates_passes _ _)).
    intros e Hin. apply in_map_iff in Hin.
    destruct Hin as ([k e'] & <- & Hin).
    exact (proj2 (proj2 (proj2 (Hall k e' Hin)))).
Qed.

(** X12. [detect_corruption] answers [False] exactly for the managers in
    which [last_updated] is a non-empty string that parses as an ISO
    timestamp, no key occurs twice, and every entry passes [validate], sits
    under the key made of its own fields, is at most ten gibibytes large
    and carries a date that is not after today.  How old a date is plays
    no part. *)
Theorem detect_corruption_clean_iff :
  forall (DT : Datetime) (current_date : Z) (self : HashFileManager.t),
    HashFileManager.detect_corruption current_date self = Ret false <->
    (exists stamp,
       HashFileManager.last_updated self = JStr stamp /\
       stamp <> "" /\
       fromisoformat (PyStr.replace_Z stamp) <> None) /\
    NoDup (PyDict.keys (HashFileManager.bottles self)) /\
    (forall k e,
       In (k, e) (HashFileManager.bottles self) ->
       HashEntry.validate e = Ret tt /\
       k = bottle_key_of (HashEntry.formula_name e) (HashEntry.version e)
             (HashEntry.platform e) /\
       HashEntry.file_size e <= TEN_GIB /\
       exists d, strptime_ymd (HashEntry.download_date e) = Some d /\
                 d <= current_date).
Proof.
  intros DT current_date self. split; intros H.
  - now apply (proj1 (detect_corruption_accepts DT current_date self)).
  - now apply (proj2 (detect_corruption_accepts DT current_date self)).
Qed.

(** X13. A manager that [detect_corruption] accepts today is accepted on
    every later day: entries only ever count against it for being dated
    in the future, never for having grown old. *)
Theorem detect_corruption_stays_clean :
  forall (DT : Datetime) (today later : Z) (self : HashFileManager.t),
    today <= later ->
    HashFileManager.detect_corruption today self = Ret false ->
    HashFileManager.detect_corruption later self = Ret false.
Proof.
  intros DT today later self Hle Hclean.
  apply detect_corruption_accepts in Hclean.
  apply detect_corruption_accepts.
  destruct Hclean as (Hstamp & Hnd & Hall).
  split; [exact Hstamp |]. split; [exact Hnd |].
  intros k e Hin. destruct (Hall k e Hin) as (Hv & Hk & Hsz & d & Hd & Hday).
  repeat split; try assumption. exists d. split; [exact Hd | lia].
Qed.

Lemma detect_corruption_stays_clean_witness :
  @HashFileManager.detect_corruption Calendar.datetime 30000 one_bottle =
  Ret false.
Proof.
  apply (detect_corruption_stays_clean Calendar.datetime 19844 30000
           one_bottle).
  - lia.
  - reflexivity.
Defined.

(** ** What [load_from_dict] leaves behind *)

Module SplitFacts.

Lemma break_at_rejoin (c : ascii) (s h t : string) :
  PyStr.break_at c s = (h, Some t) -> s = (h ++ String c t)%string.
Proof.
  revert h t. induction s as [| a s IH]; intros h t; cbn; [discriminate |].
  destruct (Ascii.eqb a c) eqn:E.
  - apply Ascii.eqb_eq in E. intros [= <- <-]. now subst.
  - destruct (PyStr.break_at c s) as [h' [t' |]]; intros [= <- <-].
    cbn. now rewrite (IH h' t' eq_refl).
Qed.

(** The two pieces of [rsplit1] put the string back together. *)
Lemma rsplit1_rejoin (c : ascii) (s a b : string) :
  PyStr.rsplit1 c s = [a; b] -> s = (a ++ String c b)%string.
Proof.
  unfold PyStr.rsplit1.
  destruct (PyStr.break_at c (PyStr.rev s)) as [t [h |]] eqn:Hb;
    [| discriminate].
  intros [= <- <-]. apply break_at_rejoin in Hb.
  rewrite <- (StrFacts.rev_involutive s), Hb.
  rewrite StrFacts.rev_append, StrFacts.rev_string, StrFacts.append_assoc.
  reflexivity.
Qed.

End SplitFacts.

Section LoadFacts.
Context {DT : Datetime}.

(** An entry that passed [validate] as [from_dict] built it is the typed
    entry with the same fields, and passes [validate] as such. *)
Lemma validate_raw_typed (r : HashEntry.raw) (e : HashEntry.t) :
  HashEntry.validate_raw r = Ret e ->
  HashEntry.validate e = Ret tt /\
  HashEntry.formula_name e = HashEntry.raw_formula_name r /\
  HashEntry.version e = HashEntry.raw_version r /\
  HashEntry.platform e = HashEntry.raw_platform r.
Proof.
  unfold HashEntry.validate_raw, HashEntry.validate.
  destruct r as [name ver plat sha date sz]. cbn.
  destruct (String.eqb name "") eqn:E1; [discriminate |].
  destruct (String.eqb ver "") eqn:E2; [discriminate |].
  destruct (String.eqb plat "") eqn:E3; [discriminate |].
  destruct (PyJson.truthy sha) eqn:T1; cbn; [| discriminate].
  destruct sha as [| | sha | |]; try discriminate.
  destruct (PyStr.is_sha256_hex sha) eqn:Hhex; cbn; [| discriminate].
  destruct (PyJson.truthy date) eqn:T2; cbn; [| discriminate].
  destruct date as [| | date | |]; try discriminate.
  destruct (strptime_ymd date) eqn:Hdate; [| discriminate].
  destruct sz as [| sz | | |]; try discriminate.
  destruct (sz <=? 0) eqn:Hsz; [discriminate |].
  intros [= <-]. cbn. rewrite E1, E2, E3, Hhex, Hdate, Hsz.
  cbn in T1, T2. apply negb_true_iff in T1, T2. rewrite T1, T2.
  repeat split; reflexivity.
Qed.

(** One turn of the loop of [load_from_dict] keeps a manager in order and
    does not touch [last_updated]. *)
Lemma load_entry_keeps_order (key : string) (data : Json)
    (self : HashFileManager.t) :
  in_order self ->
  in_order (snd (HashFileManager.load_entry key data self)) /\
  HashFileManager.last_updated
    (snd (HashFileManager.load_entry key data self)) =
  HashFileManager.last_updated self.
Proof.
  intros [Hwf Hok]. unfold HashFileManager.load_entry.
  destruct (PyStr.rsplit1 "-" key) as [| fv [| plat [| ? ?]]] eqn:H1;
    cbn; try (split; [now split | reflexivity]).
  destruct (PyStr.rsplit1 "-" fv) as [| name [| ver [| ? ?]]] eqn:H2;
    cbn; try (split; [now split | reflexivity]).
  unfold bind, lift_res, modify, ret.
  destruct (HashEntry.from_dict name ver plat data) as [r | err] eqn:Hfrom;
    cbn; [| split; [now split | reflexivity]].
  destruct (HashEntry.validate_raw r) as [e | err] eqn:Hraw;
    cbn; [| split; [now split | reflexivity]].
  split; [| reflexivity]. split.
  - now apply PyDict_wf_set.
  - intros k e' Hin. cbn in Hin. apply PyDict_set_In_key in Hin.
    destruct Hin as [Hin | [-> ->]]; [now apply Hok |].
    destruct (validate_raw_typed r e Hraw) as (Hv & Hn & Hver & Hp).
    split; [| exact Hv].
    assert (Hr : HashEntry.raw_formula_name r = name /\
                 HashEntry.raw_version r = ver /\
                 HashEntry.raw_platform r = plat).
    { unfold HashEntry.from_dict, res_bind in Hfrom.
      repeat match type of Hfrom with
             | match ?c with _ => _ end = _ =>
                 destruct c; try discriminate
             end.
      injection Hfrom as <-. cbn. tauto. }
    destruct Hr as (Hrn & Hrv & Hrp).
    rewrite Hn, Hver, Hp, Hrn, Hrv, Hrp.
    apply SplitFacts.rsplit1_rejoin in H1, H2. subst key fv.
    unfold bottle_key_of. rewrite StrFacts.append_assoc. reflexivity.
Qed.

End LoadFacts.

(** What a [load_from_dict] that returned has left. *)
Lemma load_from_dict_result :
  forall (DT : Datetime) (data : Json) (start : HashFileManager.t),
    fst (HashFileManager.load_from_dict data start) = Ret tt ->
    let self' := snd (HashFileManager.load_from_dict data start) in
    in_order self' /\
    PyJson.get "last_updated" data =
      Ret (HashFileManager.last_updated self') /\
    (forall other,
       HashFileManager.load_from_dict data other =
       HashFileManager.load_from_dict data start).
Proof.
  intros DT data start.
  unfold HashFileManager.load_from_dict, bind, lift_res, modify.
  destruct (PyJson.get "last_updated" data) as [v | err] eqn:Hget; cbn;
    [| discriminate].
  unfold HashFileManager.set_bottles, HashFileManager.set_last_updated. cbn.
  destruct (PyJson.get_default "bottles" (JObj []) data) as [bd | err]; cbn;
    [| discriminate].
  destruct (PyJson.items bd) as [items | err]; cbn; [| discriminate].
  intros _.
  pose proof (for_each_invariant
    (fun m => in_order m /\ HashFileManager.last_updated m = v)
    (fun kv => HashFileManager.load_entry (fst kv) (snd kv))) as Hloop.
  specialize (Hloop
    (fun kv m H =>
       let '(conj Hord Hlast) := H in
       conj (proj1 (load_entry_keeps_order (fst kv) (snd kv) m Hord))
            (eq_trans
               (proj2 (load_entry_keeps_order (fst kv) (snd kv) m Hord))
               Hlast))
    items (HashFileManager.mk [] v)).
  destruct Hloop as [Hord Hlast].
  { split; [| reflexivity]. split; [constructor | intros k e []]. }
  split; [exact Hord |]. split; [| reflexivity].
  now rewrite Hlast.
Qed.

(** X14. When [load_from_dict] returns, it leaves a manager in order: every
    key occurs once, every entry passes [validate] and sits under the key
    made of its own fields; [last_updated] is what the document holds
    under that name; and nothing of the manager it started from is left,
    so the result is the same from any start. *)
Theorem load_from_dict_leaves_order :
  forall (DT : Datetime) (data : Json) (start : HashFileManager.t),
    fst (HashFileManager.load_from_dict data start) = Ret tt ->
    let self' := snd (HashFileManager.load_from_dict data start) in
    in_order self' /\
    PyJson.get "last_updated" data =
      Ret (HashFileManager.last_updated self') /\
    (forall other,
       HashFileManager.load_from_dict data other =
       HashFileManager.load_from_dict data start).
Proof.
  intros DT data start Hreturned self'. subst self'.
  now apply load_from_dict_result.
Qed.

Lemma load_from_dict_leaves_order_witness :
  let data := HashFileManager.to_dict "2024-05-01T08:00:00Z" one_bottle in
  let self' :=
    snd (@HashFileManager.load_from_dict Calendar.datetime data
           rebuilt_manager) in
  @in_order Calendar.datetime self' /\
  PyJson.get "last_updated" data = Ret (HashFileManager.last_updated self') /\
  (forall other,
     @HashFileManager.load_from_dict Calendar.datetime data other =
     @HashFileManager.load_from_dict Calendar.datetime data rebuilt_manager).
Proof.
  apply (load_from_dict_leaves_order Calendar.datetime
           (HashFileManager.to_dict "2024-05-01T08:00:00Z" one_bottle)
           rebuilt_manager).
  reflexivity.
Defined.

(** ** Normalising a key changes nothing *)

Module JoinFacts.

Lemma break_at_none (c : ascii) (s h : string) :
  PyStr.break_at c s = (h, None) -> h = s.
Proof.
  revert h. induction s as [| a s IH]; intros h; cbn; [now intros [= <-] |].
  destruct (Ascii.eqb a c); [discriminate |].
  destruct (PyStr.break_at c s) as [h' [t' |]]; intros [= <-].
  now rewrite (IH h' eq_refl).
Qed.

Lemma break_at_shorter (c : ascii) (s h t : string) :
  PyStr.break_at c s = (h, Some t) ->
  (String.length t < String.length s)%nat.
Proof.
  revert h t. induction s as [| a s IH]; intros h t; cbn; [discriminate |].
  destruct (Ascii.eqb a c).
  - intros [= <- <-]. lia.
  - destruct (PyStr.break_at c s) as [h' [t' |]]; intros [= <- <-].
    specialize (IH h' t' eq_refl). lia.
Qed.

Lemma split_fuel_nonempty (fuel : nat) (c : ascii) (s : string) :
  PyStr.split_fuel fuel c s <> [].
Proof.
  destruct fuel; cbn; [discriminate |].
  destruct (PyStr.break_at c s) as [h [t |]]; discriminate.
Qed.

(** Joining the pieces of a split with the separator gives the string. *)
Lemma join_split_fuel (c : ascii) :
  forall (fuel : nat) (s : string),
    (String.length s <= fuel)%nat ->
    PyStr.join (String c "") (PyStr.split_fuel fuel c s) = s.
Proof.
  induction fuel as [| fuel IH]; intros s Hlen; [reflexivity |].
  cbn [PyStr.split_fuel].
  destruct (PyStr.break_at c s) as [h [t |]] eqn:Hb.
  - pose proof (break_at_shorter c s h t Hb) as Hshort.
    pose proof (SplitFacts.break_at_rejoin c s h t Hb) as Hs.
    cbn [PyStr.join].
    destruct (PyStr.split_fuel fuel c t) eqn:Hsplit.
    + now apply split_fuel_nonempty in Hsplit.
    + rewrite <- Hsplit, IH by lia. now subst s.
  - cbn. now apply break_at_none in Hb.
Qed.

Lemma join_split (c : ascii) (s : string) :
  PyStr.join (String c "") (PyStr.split c s) = s.
Proof. apply join_split_fuel. lia. Qed.

Lemma join_snoc (sep : string) (l : list string) (x : string) :
  l <> [] ->
  PyStr.join sep (l ++ [x]) = (PyStr.join sep l ++ sep ++ x)%string.
Proof.
  induction l as [| y l IH]; [congruence |]. intros _.
  destruct l as [| z l].
  - reflexivity.
  - change (PyStr.join sep ((y :: z :: l) ++ [x]))
      with (y ++ sep ++ PyStr.join sep ((z :: l) ++ [x]))%string.
    rewrite IH by discriminate.
    change (PyStr.join sep (y :: z :: l))
      with (y ++ sep ++ PyStr.join sep (z :: l))%string.
    now rewrite !StrFacts.append_assoc.
Qed.

(** A list of three or more is its front, its last but one and its last. *)
Lemma last_two (l : list string) :
  (3 <= List.length l)%nat ->
  l = (firstn (List.length l - 2) l
       ++ [nth (List.length l - 2) l ""] ++ [last l ""])%list /\
  firstn (List.length l - 2) l <> [].
Proof.
  intros Hlen.
  destruct (exists_last (l := l)) as (front & z & ->);
    [intros ->; cbn in Hlen; lia |].
  rewrite length_app in Hlen. cbn in Hlen.
  destruct (exists_last (l := front)) as (front' & y & ->);
    [intros ->; cbn in Hlen; lia |].
  rewrite length_app in Hlen. cbn in Hlen.
  rewrite <- app_assoc. cbn [app].
  rewrite !length_app. cbn [List.length].
  replace (List.length front' + 2 - 2)%nat with (List.length front') by lia.
  rewrite firstn_app, firstn_all, Nat.sub_diag. cbn [firstn].
  rewrite app_nil_r.
  rewrite app_nth2 by lia. rewrite Nat.sub_diag. cbn [nth].
  replace (front' ++ [y; z])%list with ((front' ++ [y]) ++ [z])%list
    by now rewrite <- app_assoc.
  rewrite last_last. rewrite <- app_assoc. split; [reflexivity |].
  destruct front'; [cbn in Hlen; lia | discriminate].
Qed.

End JoinFacts.

(** Splitting at the hyphens and joining the last two pieces back on. *)
Lemma normalize_unchanged :
  forall (standard_format : string -> bool) (bottle_key : string),
    _normalize_bottle_key standard_format bottle_key = bottle_key.
Proof.
  intros standard_format bottle_key. unfold _normalize_bottle_key.
  destruct (standard_format bottle_key); [reflexivity |].
  destruct (3 <=? List.length (PyStr.split "-" bottle_key))%nat eqn:Hlen;
    [| reflexivity].
  apply Nat.leb_le in Hlen.
  destruct (JoinFacts.last_two _ Hlen) as [Hparts Hfront].
  pose proof (JoinFacts.join_split "-" bottle_key) as Hjoin.
  rewrite Hparts in Hjoin at 1.
  rewrite app_assoc in Hjoin.
  rewrite JoinFacts.join_snoc in Hjoin
    by (intros H; apply app_eq_nil in H; destruct H; discriminate).
  rewrite JoinFacts.join_snoc in Hjoin by exact Hfront.
  rewrite StrFacts.append_assoc in Hjoin. exact Hjoin.
Qed.

(** X15. [_normalize_bottle_key] returns the key it was given, whatever the
    key and whatever the pattern makes of it: splitting at the hyphens
    and joining the last two pieces back on gives the same string. *)
Theorem normalize_bottle_key_is_identity :
  forall (standard_format : string -> bool) (bottle_key : string),
    _normalize_bottle_key standard_format bottle_key = bottle_key.
Proof.
  intros standard_format bottle_key.
  now rewrite normalize_unchanged.
Qed.

(** ** Formulas and their bottles *)

(** [get_target_bottles] holds, for each target platform, the bottle
    the formula has for it, and nothing for any other platform. *)
Theorem get_target_bottles_lookup :
  forall (formula : Formula.t) (target_platforms : list string)
         (platform : string),
    PyDict.get platform (get_target_bottles formula target_platforms) =
    if str_in platform target_platforms
    then PyDict.get platform (Formula.bottles formula)
    else None.
Proof.
  intros formula targets platform. unfold get_target_bottles.
  induction (Formula.bottles formula) as [| [p b] d IH]; cbn.
  - now destruct (str_in platform targets).
  - destruct (String.eqb p platform) eqn:E.
    + apply String.eqb_eq in E. subst p.
      destruct (str_in platform targets); cbn.
      * now rewrite String.eqb_refl.
      * exact IH.
    + destruct (str_in p targets); cbn; [rewrite E |]; exact IH.
Qed.

Lemma formula_validate_bottles_each (items : list (string * BottleInfo.t)) :
  formula_validate_bottles items = Ret tt ->
  forall platform bottle,
    In (platform, bottle) items ->
    platform <> "" /\ bottle_info_validate bottle = Ret tt.
Proof.
  induction items as [| [p b] items IH]; cbn; [intros _ ? ? [] |].
  destruct (String.eqb p "") eqn:Ep; [discriminate |].
  destruct (bottle_info_validate b) as [[] | err] eqn:Hb; [| discriminate].
  intros Hrest platform bottle [[= <- <-] | Hin].
  - split; [now apply String.eqb_neq | exact Hb].
  - now apply IH.
Qed.

(** X16. A bottle of a formula that passed [Formula.validate] is accepted
    by [add_bottle] for its platform under any download date that is not
    empty and parses: the checks of the formula cover what the hash entry
    checks of name, version, platform, hash and size. *)
Theorem validated_formula_bottle_is_accepted :
  forall (DT : Datetime) (formula : Formula.t) (platform : string)
         (bottle : BottleInfo.t) (download_date : string)
         (self : HashFileManager.t),
    formula_validate formula = Ret tt ->
    In (platform, bottle) (Formula.bottles formula) ->
    download_date <> "" ->
    strptime_ymd download_date <> None ->
    fst (HashFileManager.add_bottle formula platform bottle download_date
           self) = Ret tt.
Proof.
  intros DT formula platform bottle download_date self Hf Hin Hdate Hparse.
  unfold formula_validate in Hf.
  destruct (String.eqb (Formula.name formula) "") eqn:En; [discriminate |].
  destruct (is_formula_name (Formula.name formula)); [| discriminate].
  destruct (String.eqb (Formula.version formula) "") eqn:Ev; [discriminate |].
  cbn in Hf.
  destruct (formula_validate_bottles_each _ Hf platform bottle Hin)
    as [Hp Hb].
  unfold bottle_info_validate in Hb.
  destruct (String.eqb (BottleInfo.url bottle) ""); [discriminate |].
  destruct (negb _); [discriminate |].
  destruct (String.eqb (BottleInfo.sha256 bottle) "") eqn:Es; [discriminate |].
  destruct (PyStr.is_sha256_hex (BottleInfo.sha256 bottle)) eqn:Hhex;
    [| discriminate].
  destruct (BottleInfo.size bottle <=? 0) eqn:Hsz; [discriminate |].
  unfold HashFileManager.add_bottle, bind, lift_res, modify,
    HashEntry.validate. cbn.
  apply String.eqb_neq in Hp, Hdate.
  rewrite En, Ev, Hp, Es, Hhex, Hdate, Hsz. cbn.
  destruct (strptime_ymd download_date); [reflexivity | congruence].
Qed.

Lemma validated_formula_bottle_is_accepted_witness :
  fst (@HashFileManager.add_bottle Calendar.datetime wget_with_bottles
         "arm64_sonoma" wget_bottle "2024-04-30" HashFileManager.init) =
  Ret tt.
Proof.
  apply (validated_formula_bottle_is_accepted Calendar.datetime
           wget_with_bottles "arm64_sonoma" wget_bottle "2024-04-30"
           HashFileManager.init).
  - reflexivity.
  - left. reflexivity.
  - discriminate.
  - discriminate.
Defined.

(** ** The atomic save, step by step *)

(** X17. When the store takes the upload, serves on read-back a document
    that carries the timestamp just written, copies, and answers the
    request to delete (with [True] or with [False]), [save_to_s3_atomic]
    returns [True] after exactly these four requests in this order:
    upload to the temporary key, read-back, copy of the temporary key onto
    the canonical key, deletion of the temporary key.  The manager keeps
    its bottles and carries the new timestamp. *)
Theorem save_atomic_protocol :
  forall (W : Type) (svc : S3Service W) (now : string)
         (self : HashFileManager.t) (w : World W) (s1 s2 s3 s4 : W)
         (temp stamp : Json) (deleted : bool),
    let data :=
      HashFileManager.to_dict now
        (HashFileManager.set_last_updated (JStr now) self) in
    upload_json svc data HashFileManager.TEMP_HASH_FILE_KEY None (store w) =
      (true, s1) ->
    download_json svc HashFileManager.TEMP_HASH_FILE_KEY s1 =
      (Some temp, s2) ->
    PyJson.get "last_updated" temp = Ret stamp ->
    PyJson.eq_str stamp now = true ->
    copy_object svc HashFileManager.TEMP_HASH_FILE_KEY
      HashFileManager.HASH_FILE_KEY s2 = (Ret tt, s3) ->
    delete_object svc HashFileManager.TEMP_HASH_FILE_KEY s3 =
      (Ret deleted, s4) ->
    HashFileManager.save_to_s3_atomic (Some svc) now (self, w) =
    (Ret true,
     (HashFileManager.set_last_updated (JStr now) self,
      mkWorld s4
        (log w ++
         [EvUpload HashFileManager.TEMP_HASH_FILE_KEY data;
          EvDownload HashFileManager.TEMP_HASH_FILE_KEY;
          EvCopy HashFileManager.TEMP_HASH_FILE_KEY
            HashFileManager.HASH_FILE_KEY;
          EvDelete HashFileManager.TEMP_HASH_FILE_KEY])%list)).
Proof.
  intros W svc now self w s1 s2 s3 s4 temp stamp deleted data
    Hup Hdown Hget Hstamp Hcopy Hdel.
  unfold HashFileManager.save_to_s3_atomic, HashFileManager._copy_s3_object,
    try_except, bind, HashFileManager.in_self, HashFileManager.in_world,
    s3_upload_json, s3_download_json, s3_copy_object, s3_delete_object, emit,
    modify, get_state, on_store, on_store_res, lift_res, ret.
  cbn. fold data. rewrite Hup. cbn. rewrite Hdown. cbn.
  destruct temp; cbn in Hget; try discriminate.
  cbn. rewrite Hget. cbn. rewrite Hstamp. cbn. rewrite Hcopy. cbn.
  rewrite Hdel. cbn. rewrite <- !app_assoc. reflexivity.
Qed.

Lemma save_atomic_protocol_witness :
  let now := "2024-05-01T08:00:00Z" in
  let w := store_with_canonical MemS3.no_faults in
  let data :=
    HashFileManager.to_dict now
      (HashFileManager.set_last_updated (JStr now) one_bottle) in
  let s1 := snd (MemS3.put data HashFileManager.TEMP_HASH_FILE_KEY None
                   (store w)) in
  let s3 := snd (MemS3.copy HashFileManager.TEMP_HASH_FILE_KEY
                   HashFileManager.HASH_FILE_KEY s1) in
  let s4 := snd (MemS3.delete HashFileManager.TEMP_HASH_FILE_KEY s3) in
  HashFileManager.save_to_s3_atomic (Some MemS3.service) now (one_bottle, w) =
  (Ret true,
   (HashFileManager.set_last_updated (JStr now) one_bottle,
    mkWorld s4
      (log w ++
       [EvUpload HashFileManager.TEMP_HASH_FILE_KEY data;
        EvDownload HashFileManager.TEMP_HASH_FILE_KEY;
        EvCopy HashFileManager.TEMP_HASH_FILE_KEY
          HashFileManager.HASH_FILE_KEY;
        EvDelete HashFileManager.TEMP_HASH_FILE_KEY])%list)).
Proof.
  intros now w data s1 s3 s4.
  apply (save_atomic_protocol MemS3.state MemS3.service now one_bottle w
           s1 s1 s3 s4 data (JStr now) true); reflexivity.
Defined.

(** After the save of the example the canonical key holds the new document
    and the temporary key is gone. *)
Example save_atomic_replaces_canonical :
  let now := "2024-05-01T08:00:00Z" in
  let '(_, (_, w')) :=
    HashFileManager.save_to_s3_atomic (Some MemS3.service) now
      (one_bottle, store_with_canonical MemS3.no_faults) in
  option_map MemS3.body
    (MemS3.content (store w') HashFileManager.HASH_FILE_KEY) =
    Some (HashFileManager.to_dict now
            (HashFileManager.set_last_updated (JStr now) one_bottle))
  /\ MemS3.content (store w') HashFileManager.TEMP_HASH_FILE_KEY = None.
Proof. split; reflexivity. Qed.

(** X18. A save is not undone by a failed cleanup, and is then not
    reported as a success: when everything up to the copy onto the
    canonical key went through and the request to delete the temporary
    key raises, the handler asks for the deletion once more and
    [save_to_s3_atomic] returns [False], or raises what that second
    request raised; the copy has been issued all the same. *)
Theorem save_atomic_cleanup_failure :
  forall (W : Type) (svc : S3Service W) (now : string)
         (self : HashFileManager.t) (w : World W) (s1 s2 s3 s4 s5 : W)
         (temp stamp : Json) (e : PyExc) (again : Res bool),
    let data :=
      HashFileManager.to_dict now
        (HashFileManager.set_last_updated (JStr now) self) in
    upload_json svc data HashFileManager.TEMP_HASH_FILE_KEY None (store w) =
      (true, s1) ->
    download_json svc HashFileManager.TEMP_HASH_FILE_KEY s1 =
      (Some temp, s2) ->
    PyJson.get "last_updated" temp = Ret stamp ->
    PyJson.eq_str stamp now = true ->
    copy_object svc HashFileManager.TEMP_HASH_FILE_KEY
      HashFileManager.HASH_FILE_KEY s2 = (Ret tt, s3) ->
    delete_object svc HashFileManager.TEMP_HASH_FILE_KEY s3 =
      (Raise e, s4) ->
    delete_object svc HashFileManager.TEMP_HASH_FILE_KEY s4 = (again, s5) ->
    HashFileManager.save_to_s3_atomic (Some svc) now (self, w) =
    (match again with
     | Ret _ => Ret false
     | Raise e' => Raise e'
     end,
     (HashFileManager.set_last_updated (JStr now) self,
      mkWorld s5
        (log w ++
         [EvUpload HashFileManager.TEMP_HASH_FILE_KEY data;
          EvDownload HashFileManager.TEMP_HASH_FILE_KEY;
          EvCopy HashFileManager.TEMP_HASH_FILE_KEY
            HashFileManager.HASH_FILE_KEY;
          EvDelete HashFileManager.TEMP_HASH_FILE_KEY;
          EvDelete HashFileManager.TEMP_HASH_FILE_KEY])%list)).
Proof.
  intros W svc now self w s1 s2 s3 s4 s5 temp stamp e again data
    Hup Hdown Hget Hstamp Hcopy Hdel Hagain.
  unfold HashFileManager.save_to_s3_atomic, HashFileManager._copy_s3_object,
    try_except, bind, HashFileManager.in_self, HashFileManager.in_world,
    s3_upload_json, s3_download_json, s3_copy_object, s3_delete_object, emit,
    modify, get_state, on_store, on_store_res, lift_res, ret.
  cbn. fold data. rewrite Hup. cbn. rewrite Hdown. cbn.
  destruct temp; cbn in Hget; try discriminate.
  cbn. rewrite Hget. cbn. rewrite Hstamp. cbn. rewrite Hcopy. cbn.
  rewrite Hdel. cbn. rewrite Hagain. cbn.
  destruct again; cbn; rewrite <- !app_assoc; reflexivity.
Qed.

Lemma save_atomic_cleanup_failure_witness :
  let now := "2024-05-01T08:00:00Z" in
  let w := store_with_canonical failing_delete in
  let data :=
    HashFileManager.to_dict now
      (HashFileManager.set_last_updated (JStr now) one_bottle) in
  let s1 := snd (MemS3.put data HashFileManager.TEMP_HASH_FILE_KEY None
                   (store w)) in
  let s3 := snd (MemS3.copy HashFileManager.TEMP_HASH_FILE_KEY
                   HashFileManager.HASH_FILE_KEY s1) in
  HashFileManager.save_to_s3_atomic (Some MemS3.service) now (one_bottle, w) =
  (Raise (ConnectionError "reset"),
   (HashFileManager.set_last_updated (JStr now) one_bottle,
    mkWorld s3
      (log w ++
       [EvUpload HashFileManager.TEMP_HASH_FILE_KEY data;
        EvDownload HashFileManager.TEMP_HASH_FILE_KEY;
        EvCopy HashFileManager.TEMP_HASH_FILE_KEY
          HashFileManager.HASH_FILE_KEY;
        EvDelete HashFileManager.TEMP_HASH_FILE_KEY;
        EvDelete HashFileManager.TEMP_HASH_FILE_KEY])%list)).
Proof.
  intros now w data s1 s3.
  apply (save_atomic_cleanup_failure MemS3.state MemS3.service now one_bottle
           w s1 s1 s3 s3 s3 data (JStr now) (ConnectionError "reset")
           (Raise (ConnectionError "reset"))); reflexivity.
Defined.

(** There the canonical key already holds the new document. *)
Example failed_cleanup_after_replacement :
  let now := "2024-05-01T08:00:00Z" in
  let '(r, (_, w')) :=
    HashFileManager.save_to_s3_atomic (Some MemS3.service) now
      (one_bottle, store_with_canonical failing_delete) in
  r = Raise (ConnectionError "reset") /\
  option_map MemS3.body
    (MemS3.content (store w') HashFileManager.HASH_FILE_KEY) =
    Some (HashFileManager.to_dict now
            (HashFileManager.set_last_updated (JStr now) one_bottle)).
Proof. split; reflexivity. Qed.

(** ** Loading from the store *)

Section LoadFromS3Facts.
Context {DT : Datetime} {W : Type}.

(** The guarded load answers [True] only with a manager in order, and
    never touches the world. *)
Lemma load_if_present_true (data : option Json)
    (s : HashFileManager.Sys W) :
  fst (load_if_present data s) = Ret true ->
  in_order (fst (snd (load_if_present data s))).
Proof.
  unfold load_if_present.
  destruct data as [[| z | str | items | fields] |]; cbn; try discriminate.
  all: unfold try_except_value_key, bind, HashFileManager.in_self, ret.
  all: match goal with
       | |- context [HashFileManager.load_from_dict ?d ?m0] =>
           pose proof (load_from_dict_result DT d m0) as Hres;
           destruct (HashFileManager.load_from_dict d m0)
             as [[[] | err] m] eqn:Hload
       end; cbn in *.
  all: try (intros _; exact (proj1 (Hres eq_refl))).
  all: match goal with
       | |- context [is_value_or_key_error ?e] =>
           destruct (is_value_or_key_error e); cbn; discriminate
       end.
Qed.

End LoadFromS3Facts.

(** X19. An external document that loads wins: [load_from_s3] given an
    external key downloads that key, from the other bucket when one is
    named that is not the service's own, loads the document, and returns
    [True] without asking for the canonical key. *)
Theorem load_from_s3_external_first :
  forall (DT : Datetime) (W : Type) (svc : S3Service W)
         (bucket_name : string) (connect : string -> S3Service W)
         (key : string) (external_bucket : option string)
         (self : HashFileManager.t) (w : World W) (data : Json) (s1 : W),
    key <> "" ->
    let source :=
      match external_bucket with
      | Some b =>
          if negb (String.eqb b "") && negb (String.eqb b bucket_name)
          then connect b else svc
      | None => svc
      end in
    download_json source key (store w) = (Some data, s1) ->
    fst (HashFileManager.load_from_dict data self) = Ret tt ->
    load_from_s3 (Some svc) bucket_name connect (Some key) external_bucket
      (self, w) =
    (Ret true,
     (snd (HashFileManager.load_from_dict data self),
      mkWorld s1 (log w ++ [EvDownload key])%list)).
Proof.
  intros DT W svc bucket_name connect key external_bucket self w data s1
    Hkey source Hdown Hload.
  apply String.eqb_neq in Hkey.
  unfold load_from_s3, bind. cbn [opt_truthy]. rewrite Hkey. cbn [negb].
  assert (Hfetch :
    (if opt_truthy external_bucket
        && negb (String.eqb (match external_bucket with
                             | Some b => b
                             | None => ""
                             end) bucket_name)
     then HashFileManager.in_world
            (s3_download_json
               (connect (match external_bucket with
                         | Some b => b
                         | None => ""
                         end)) key)
     else HashFileManager.in_world (s3_download_json svc key)) (self, w) =
    (Ret (Some data), (self, mkWorld s1 (log w ++ [EvDownload key])%list))).
  { subst source.
    destruct external_bucket as [b |]; cbn [opt_truthy andb].
    - destruct (negb (String.eqb b "") && negb (String.eqb b bucket_name));
        unfold HashFileManager.in_world, s3_download_json, bind, emit,
          modify, on_store; cbn; rewrite Hdown; reflexivity.
    - unfold HashFileManager.in_world, s3_download_json, bind, emit,
        modify, on_store; cbn; rewrite Hdown; reflexivity. }
  rewrite Hfetch.
  unfold load_if_present.
  destruct data as [| z | str | items | fields];
    try (cbn in Hload; discriminate).
  unfold try_except_value_key, bind, HashFileManager.in_self, ret.
  cbn [fst snd].
  destruct (HashFileManager.load_from_dict (JObj fields) self)
    as [[[] | err] m]; cbn in Hload; [reflexivity | discriminate].
Qed.

Lemma load_from_s3_external_first_witness :
  let data := HashFileManager.to_dict "2024-05-01T08:00:00Z" one_bottle in
  let w :=
    MemS3.world [("mirror/bottles_hash.json", MemS3.mk_object data 0)]
      MemS3.no_faults in
  @load_from_s3 Calendar.datetime _ (Some MemS3.service) "bottles"
    (fun _ => MemS3.service) (Some "mirror/bottles_hash.json") None
    (HashFileManager.init, w) =
  (Ret true,
   (snd (@HashFileManager.load_from_dict Calendar.datetime data
           HashFileManager.init),
    mkWorld (store w) (log w ++ [EvDownload "mirror/bottles_hash.json"])%list)).
Proof.
  intros data w.
  apply (load_from_s3_external_first Calendar.datetime MemS3.state
           MemS3.service "bottles" (fun _ => MemS3.service)
           "mirror/bottles_hash.json" None HashFileManager.init w data
           (store w)).
  - discriminate.
  - reflexivity.
  - reflexivity.
Defined.

(** X20. When [load_from_s3] returns [True], the manager is in order: every
    key occurs once and every entry passes [validate] and sits under the
    key made of its own fields, whichever document was loaded. *)
Theorem load_from_s3_true_leaves_order :
  forall (DT : Datetime) (W : Type) (svc : S3Service W)
         (bucket_name : string) (connect : string -> S3Service W)
         (external_key external_bucket : option string)
         (s : HashFileManager.Sys W),
    let run :=
      load_from_s3 (Some svc) bucket_name connect external_key
        external_bucket s in
    fst run = Ret true ->
    in_order (fst (snd run)).
Proof.
  intros DT W svc bucket_name connect external_key external_bucket s run.
  subst run. unfold load_from_s3, bind.
  match goal with
  | |- context [match ?c s with _ => _ end] =>
      assert (Hfirst : fst (c s) = Ret true ->
                       in_order (fst (snd (c s))));
      [| destruct (c s) as [[[|] | err] s1]; cbn in *]
  end.
  - destruct (opt_truthy external_key); [| discriminate].
    match goal with
    | |- context [(if ?b then ?c1 else ?c2) s] =>
        destruct ((if b then c1 else c2) s) as [[data | err] s0] eqn:Hfetch
    end; [| discriminate].
    apply load_if_present_true.
  - intros _. now apply Hfirst.
  - unfold HashFileManager.in_world, s3_download_json, bind, emit, modify,
      on_store. cbn.
    destruct (download_json svc HashFileManager.HASH_FILE_KEY (store (snd s1)))
      as [data s2]. cbn.
    apply load_if_present_true.
  - discriminate.
Qed.

Lemma load_from_s3_true_leaves_order_witness :
  let run :=
    @load_from_s3 Calendar.datetime _ (Some MemS3.service) "bottles"
      (fun _ => MemS3.service) None None
      (rebuilt_manager, store_with_canonical MemS3.no_faults) in
  @in_order Calendar.datetime (fst (snd run)).
Proof.
  apply (load_from_s3_true_leaves_order Calendar.datetime MemS3.state
           MemS3.service "bottles" (fun _ => MemS3.service) None None
           (rebuilt_manager, store_with_canonical MemS3.no_faults)).
  reflexivity.
Defined.

(** ** A rebuilt hash file does not load *)

Module OccFacts.

Lemma occurrences_append (c : ascii) (a b : string) :
  occurrences c (a ++ b) = (occurrences c a + occurrences c b)%nat.
Proof.
  induction a as [| x a IH]; cbn; [reflexivity |].
  destruct (Ascii.eqb x c); rewrite IH; reflexivity.
Qed.

Lemma occurrences_rev (c : ascii) (s : string) :
  occurrences c (PyStr.rev s) = occurrences c s.
Proof.
  induction s as [| x s IH]; [reflexivity |].
  rewrite StrFacts.rev_string, occurrences_append, IH. cbn.
  destruct (Ascii.eqb x c); lia.
Qed.

Lemma break_at_found (c : ascii) (s : string) :
  (1 <= occurrences c s)%nat ->
  exists h t, PyStr.break_at c s = (h, Some t) /\ occurrences c h = 0%nat.
Proof.
  induction s as [| a s IH]; cbn; [lia |].
  destruct (Ascii.eqb a c) eqn:E.
  - intros _. exists EmptyString, s. split; reflexivity.
  - intros H. destruct (IH H) as (h & t & -> & Hh).
    exists (String a h), t. split; [reflexivity |]. cbn. now rewrite E.
Qed.

(** A string in which [c] occurs splits in two at the last [c], and [c]
    occurs once less in what is before it. *)
Lemma rsplit1_found (c : ascii) (s : string) :
  (1 <= occurrences c s)%nat ->
  exists a b,
    PyStr.rsplit1 c s = [a; b] /\
    occurrences c s = S (occurrences c a).
Proof.
  intros H. unfold PyStr.rsplit1.
  destruct (break_at_found c (PyStr.rev s)) as (t & h & Hb & Ht);
    [now rewrite occurrences_rev |].
  rewrite Hb. exists (PyStr.rev h), (PyStr.rev t). split; [reflexivity |].
  apply SplitFacts.break_at_rejoin in Hb.
  rewrite <- (occurrences_rev c s), Hb, occurrences_append, Ht.
  cbn. rewrite Ascii.eqb_refl, occurrences_rev. reflexivity.
Qed.

Lemma key_has_two_hyphens (name ver plat : string) :
  (2 <= occurrences "-" (bottle_key_of name ver plat))%nat.
Proof.
  unfold bottle_key_of. rewrite !occurrences_append. cbn. lia.
Qed.

End OccFacts.

Section ReloadFacts.
Context {DT : Datetime}.

(** An entry with the placeholder hash under a key of its fields stops the
    loop of [load_from_dict] with a [ValueError]. *)
Lemma load_entry_refuses_rebuilt (name ver plat : string) (e : HashEntry.t)
    (self : HashFileManager.t) :
  HashEntry.sha256 e = "unknown" ->
  exists msg,
    HashFileManager.load_entry (bottle_key_of name ver plat)
      (HashEntry.to_dict e) self = (Raise (ValueError msg), self).
Proof.
  intros Hsha. unfold HashFileManager.load_entry.
  destruct (OccFacts.rsplit1_found "-" (bottle_key_of name ver plat))
    as (fv & p & -> & Hocc).
  { pose proof (OccFacts.key_has_two_hyphens name ver plat). lia. }
  destruct (OccFacts.rsplit1_found "-" fv) as (n & v & -> & _).
  { pose proof (OccFacts.key_has_two_hyphens name ver plat). lia. }
  unfold bind, lift_res. unfold HashEntry.from_dict, HashEntry.to_dict.
  cbn. rewrite Hsha. unfold HashEntry.validate_raw. cbn.
  destruct (String.eqb n ""); [eauto |].
  destruct (String.eqb v ""); [eauto |].
  destruct (String.eqb p ""); [eauto |].
  change (PyStr.is_sha256_hex "unknown") with false. cbn. eauto.
Qed.

End ReloadFacts.

Section RebuildKeyFacts.
Context {DT : Datetime} {W : Type} (svc : S3Service W).

Lemma all_rebuilt_set (k : string) (e : HashEntry.t)
    (d : PyDict.t HashEntry.t) :
  HashEntry.sha256 e = "unknown" ->
  k = bottle_key_of (HashEntry.formula_name e) (HashEntry.version e)
        (HashEntry.platform e) ->
  all_rebuilt d -> all_rebuilt (PyDict.set k e d).
Proof.
  intros He Hk Hd k' e' Hin.
  destruct (PyDict_set_In_key k e d k' e' Hin) as [H | [-> ->]];
    [exact (Hd k' e' H) | now split].
Qed.

Lemma rebuild_entry_rebuilt (obj : S3Object) (s : HashFileManager.Sys W) :
  all_rebuilt (HashFileManager.bottles (fst s)) ->
  all_rebuilt
    (HashFileManager.bottles
       (fst (snd (HashFileManager.rebuild_entry svc obj s)))).
Proof.
  intros Hs. unfold HashFileManager.rebuild_entry.
  repeat match goal with
         | |- context [if ?c then _ else _] => destruct c; cbn; try exact Hs
         | |- context [match strptime_ymd ?d with _ => _ end] =>
             destruct (strptime_ymd d); cbn; try exact Hs
         | |- context [match PyStr.rsplit1 ?c ?x with _ => _ end] =>
             destruct (PyStr.rsplit1 c x) as [| ? [| ? [| ? ?]]];
             cbn; try exact Hs
         end.
  unfold bind, HashFileManager.in_world, HashFileManager.in_self,
    s3_get_object_metadata, emit, modify, on_store_res, ret. cbn.
  destruct (get_object_metadata svc (obj_key obj) (store (snd s)))
    as [[[md |] | e] s']; cbn; try exact Hs.
  apply all_rebuilt_set; [reflexivity | reflexivity | exact Hs].
Qed.

Lemma rebuild_all_rebuilt (now : string) (s : HashFileManager.Sys W) :
  all_rebuilt
    (HashFileManager.bottles
       (fst (snd (HashFileManager.rebuild_from_s3_metadata (Some svc) now s)))).
Proof.
  unfold HashFileManager.rebuild_from_s3_metadata, try_except.
  match goal with
  | |- context [match ?c s with _ => _ end] =>
      assert (Hc : all_rebuilt (HashFileManager.bottles (fst (snd (c s)))));
      [| destruct (c s) as [[ok | e] s1]; cbn in *; exact Hc]
  end.
  unfold bind, HashFileManager.in_self, HashFileManager.in_world,
    s3_list_objects, emit, modify, on_store_res, ret. cbn.
  destruct (list_objects svc "" 10000 (store (snd s)))
    as [[objects | e] s1]; cbn; [| intros k e0 []].
  match goal with
  | |- context [for_each objects ?body ?s0] =>
      pose proof (for_each_invariant
        (fun st : HashFileManager.Sys W =>
           all_rebuilt (HashFileManager.bottles (fst st)))
        body (fun x st H => rebuild_entry_rebuilt x st H) objects s0) as Hloop;
      destruct (for_each objects body s0) as [[u | e] s2]
  end; cbn in *; apply Hloop; intros k e0 [].
Qed.

End RebuildKeyFacts.

(** X21. The hash file of a rebuild can not be loaded back.  When
    [rebuild_from_s3_metadata] has left at least one entry, [to_dict] of
    the manager is a document on which [load_from_dict] raises
    [ValueError] at the first entry, leaving no bottles; the guarded load
    of [load_from_s3] then answers [False] for it. *)
Theorem rebuilt_file_does_not_load :
  forall (DT : Datetime) (W : Type) (svc : S3Service W) (now later : string)
         (s : HashFileManager.Sys W) (start : HashFileManager.Sys W),
    let rebuilt :=
      fst (snd (HashFileManager.rebuild_from_s3_metadata (Some svc) now s)) in
    HashFileManager.bottles rebuilt <> [] ->
    (exists msg self',
       HashFileManager.load_from_dict (HashFileManager.to_dict later rebuilt)
         (fst start) = (Raise (ValueError msg), self') /\
       HashFileManager.bottles self' = []) /\
    fst (load_if_present (Some (HashFileManager.to_dict later rebuilt)) start)
      = Ret false.
Proof.
  intros DT W svc now later s start rebuilt Hnonempty.
  pose proof (rebuild_all_rebuilt svc now s) as Hall. fold rebuilt in Hall.
  destruct (HashFileManager.bottles rebuilt) as [| [k e] rest] eqn:Hb;
    [congruence |].
  destruct (Hall k e (or_introl eq_refl)) as [Hsha Hk].
  assert (Hload : exists msg self',
    HashFileManager.load_from_dict (HashFileManager.to_dict later rebuilt)
      (fst start) = (Raise (ValueError msg), self') /\
    HashFileManager.bottles self' = []).
  { unfold HashFileManager.load_from_dict, HashFileManager.to_dict.
    rewrite Hb. unfold bind, lift_res, modify. cbn -[HashEntry.to_dict].
    destruct (PyJson.truthy (HashFileManager.last_updated rebuilt));
      cbn -[HashEntry.to_dict]; unfold bind;
      rewrite Hk;
      match goal with
      | |- context [HashFileManager.load_entry _ _ ?m] =>
          destruct (load_entry_refuses_rebuilt (HashEntry.formula_name e)
                      (HashEntry.version e) (HashEntry.platform e) e m Hsha)
            as [msg Hentry]
      end;
      rewrite Hentry; eexists _, _; (split; [reflexivity |]); reflexivity. }
  split; [exact Hload |].
  destruct Hload as (msg & self' & Hload & _).
  unfold load_if_present, HashFileManager.to_dict, try_except_value_key, bind,
    HashFileManager.in_self.
  unfold HashFileManager.to_dict in Hload. rewrite Hload. reflexivity.
Qed.

Lemma rebuilt_file_does_not_load_witness :
  let start := (HashFileManager.init, empty_store) in
  (exists msg self',
     @HashFileManager.load_from_dict Calendar.datetime
       (HashFileManager.to_dict "2024-05-02T08:00:00Z" rebuilt_manager)
       (fst start) = (Raise (ValueError msg), self') /\
     HashFileManager.bottles self' = []) /\
  fst (@load_if_present Calendar.datetime _
         (Some (HashFileManager.to_dict "2024-05-02T08:00:00Z"
                  rebuilt_manager)) start) = Ret false.
Proof.
  apply (rebuilt_file_does_not_load Calendar.datetime MemS3.state
           MemS3.service "2024-05-01T08:00:00Z" "2024-05-02T08:00:00Z"
           (one_bottle, bucket_with_bottles)
           (HashFileManager.init, empty_store)).
  discriminate.
Defined.

(** [rebuild_from_s3_metadata] keeps nothing of the manager it is
    called on: from the same store it leaves the same manager and the
    same outcome, whatever the manager held. *)
Theorem rebuild_forgets_the_manager :
  forall (DT : Datetime) (W : Type) (svc : S3Service W) (now : string)
         (self other : HashFileManager.t) (w : World W),
    HashFileManager.rebuild_from_s3_metadata (Some svc) now (self, w) =
    HashFileManager.rebuild_from_s3_metadata (Some svc) now (other, w).
Proof.
  intros DT W svc now self other w.
  unfold HashFileManager.rebuild_from_s3_metadata, try_except.
  unfold bind at 1 3. unfold HashFileManager.in_self at 1 3. cbn.
  reflexivity.
Qed.

(** ** Merging an external hash file *)

Section MergeFacts.
Context {DT : Datetime}.
Variable standard_format : string -> bool.

(** What one turn of the merge loop can do: nothing, or store a valid
    entry under the key made of its own fields. *)
Lemma merge_entry_outcome (key : string) (data : Json)
    (self : HashFileManager.t) :
  let run := merge_entry key data self in
  (snd run = self /\ fst run <> Ret true) \/
  (exists e,
     fst run = Ret true /\
     snd run =
       HashFileManager.set_bottles
         (PyDict.set key e (HashFileManager.bottles self)) self /\
     HashEntry.validate e = Ret tt /\
     key = bottle_key_of (HashEntry.formula_name e) (HashEntry.version e)
             (HashEntry.platform e) /\
     exists formula_version,
       PyStr.rsplit1 "-" key = [formula_version; HashEntry.platform e] /\
       PyStr.rsplit1 "-" formula_version =
         [HashEntry.formula_name e; HashEntry.version e] /\
       exists r,
         HashEntry.from_dict (HashEntry.formula_name e) (HashEntry.version e)
           (HashEntry.platform e) data = Ret r /\
         HashEntry.validate_raw r = Ret e).
Proof.
  intros run. subst run. unfold merge_entry, try_except_value_key.
  destruct (PyStr.rsplit1 "-" key) as [| fv [| plat [| ? ?]]] eqn:H1;
    cbn; try (left; split; [reflexivity | discriminate]).
  destruct (PyStr.rsplit1 "-" fv) as [| name [| ver [| ? ?]]] eqn:H2;
    cbn; try (left; split; [reflexivity | discriminate]).
  unfold bind, lift_res, modify, ret.
  destruct (HashEntry.from_dict name ver plat data) as [r | err] eqn:Hfrom;
    cbn.
  2: { left. destruct (is_value_or_key_error err); cbn;
       (split; [reflexivity | discriminate]). }
  destruct (HashEntry.validate_raw r) as [e | err] eqn:Hraw; cbn.
  2: { left. destruct (is_value_or_key_error err); cbn;
       (split; [reflexivity | discriminate]). }
  right. exists e.
  destruct (validate_raw_typed r e Hraw) as (Hv & Hn & Hver & Hp).
  assert (Hr : HashEntry.raw_formula_name r = name /\
               HashEntry.raw_version r = ver /\
               HashEntry.raw_platform r = plat).
  { unfold HashEntry.from_dict, res_bind in Hfrom.
    repeat match type of Hfrom with
           | match ?c with _ => _ end = _ => destruct c; try discriminate
           end.
    injection Hfrom as <-. cbn. tauto. }
  destruct Hr as (Hrn & Hrv & Hrp).
  rewrite Hrn in Hn. rewrite Hrv in Hver. rewrite Hrp in Hp.
  subst name ver plat.
  split; [reflexivity |]. split; [reflexivity |]. split; [exact Hv |].
  split.
  - apply SplitFacts.rsplit1_rejoin in H1, H2. subst key fv.
    unfold bottle_key_of. rewrite StrFacts.append_assoc. reflexivity.
  - exists fv. split; [first [exact H1 | reflexivity] |].
    split; [first [exact H2 | reflexivity] |].
    exists r. split; [first [exact Hfrom | reflexivity] | exact Hraw].
Qed.

Lemma merge_entry_keeps_order (key : string) (data : Json)
    (self : HashFileManager.t) :
  in_order self -> in_order (snd (merge_entry key data self)).
Proof.
  intros [Hwf Hok].
  destruct (merge_entry_outcome key data self)
    as [[-> _] | (e & _ & -> & Hv & Hk & _)]; [now split |].
  split.
  - now apply PyDict_wf_set.
  - intros k e' Hin. cbn in Hin. apply PyDict_set_In_key in Hin.
    destruct Hin as [Hin | [-> ->]]; [now apply Hok | now split].
Qed.

Lemma merge_entries_keep_order (items : list (string * Json)) :
  forall (count : Z) (self : HashFileManager.t),
    in_order self -> in_order (snd (merge_entries items count self)).
Proof.
  induction items as [| [k d] items IH]; intros count self Hord;
    [exact Hord |].
  cbn [merge_entries]. unfold bind.
  pose proof (merge_entry_keeps_order k d self Hord) as Hstep.
  destruct (merge_entry k d self) as [[merged | err] self1]; cbn in *.
  - now apply IH.
  - exact Hstep.
Qed.

(** A merge keeps a manager in order, however it ends. *)
Lemma merge_keeps_order (migrated_at today now : string) (data : Json)
    (self : HashFileManager.t) :
  in_order self ->
  in_order
    (snd (merge_with_external_hash_file standard_format migrated_at today now
            data self)).
Proof.
  intros Hord. unfold merge_with_external_hash_file, bind.
  match goal with
  | |- context [(if ?b then ?c1 else ?c2) self] =>
      assert (Hfirst : snd ((if b then c1 else c2) self) = self);
      [ destruct b; [reflexivity |]; unfold lift_res; reflexivity
      | destruct ((if b then c1 else c2) self) as [[doc | err] self0] ]
  end; cbn in Hfirst; subst self0; [| exact Hord].
  unfold lift_res.
  destruct (PyJson.get_default "bottles" (JObj []) doc) as [bd | err];
    [| exact Hord].
  destruct (PyJson.items bd) as [items | err]; [| exact Hord].
  pose proof (merge_entries_keep_order items 0 self Hord) as Hloop.
  destruct (merge_entries items 0 self) as [[count | err] self1]; cbn in *;
    [| exact Hloop].
  destruct (count >? 0); cbn; [| exact Hloop].
  destruct Hloop as [Hwf Hok]. split; assumption.
Qed.

End MergeFacts.

(** X22. [merge_with_external_hash_file] keeps a manager in order whatever
    the external document is and however the merge ends, by returning a
    count or by raising midway: every key occurs once, and every entry,
    merged or kept, passes [validate] and sits under the key made of its
    own fields. *)
Theorem merge_keeps_manager_in_order :
  forall (DT : Datetime) (standard_format : string -> bool)
         (migrated_at today now : string) (external_data : Json)
         (self : HashFileManager.t),
    in_order self ->
    in_order
      (snd (merge_with_external_hash_file standard_format migrated_at today
              now external_data self)).
Proof.
  intros DT standard_format migrated_at today now external_data self Hord.
  now apply merge_keeps_order.
Qed.

Lemma merge_keeps_manager_in_order_witness :
  @in_order Calendar.datetime
    (snd (@merge_with_external_hash_file Calendar.datetime (fun _ => true)
            "2024-05-01T08:00:00Z" "2024-05-01" "2024-05-01T08:00:01Z"
            (HashFileManager.to_dict "2024-05-01T07:00:00Z" rebuilt_manager)
            one_bottle)).
Proof.
  apply (merge_keeps_manager_in_order Calendar.datetime (fun _ => true)
           "2024-05-01T08:00:00Z" "2024-05-01" "2024-05-01T08:00:01Z"
           (HashFileManager.to_dict "2024-05-01T07:00:00Z" rebuilt_manager)
           one_bottle).
  split.
  - unfold PyDict.wf. cbn. constructor; [intros [] | constructor].
  - intros k e [[= <- <-] | []]. split; reflexivity.
Defined.

Lemma overwrite_lookup {V} (incoming : PyDict.t V) :
  forall (d : PyDict.t V) (k : string),
    PyDict.wf incoming ->
    PyDict.get k (overwrite_with incoming d) =
    match PyDict.get k incoming with
    | Some v => Some v
    | None => PyDict.get k d
    end.
Proof.
  unfold overwrite_with, PyDict.wf.
  induction incoming as [| [k0 v0] rest IH]; intros d k Hwf; [reflexivity |].
  cbn [fold_left fst snd PyDict.get].
  cbn in Hwf. inversion Hwf as [| ? ? Hnot Hrest]; subst.
  rewrite IH by exact Hrest.
  destruct (String.eqb k0 k) eqn:E.
  - apply String.eqb_eq in E. subst k0.
    destruct (PyDict.get k rest) as [v |] eqn:Hget.
    + apply PyDict_get_In in Hget. exfalso. apply Hnot.
      change k with (fst (k, v)). now apply in_map.
    + apply PyDict_get_set_same.
  - apply String.eqb_neq in E.
    destruct (PyDict.get k rest); [reflexivity |].
    apply PyDict_get_set_other. congruence.
Qed.

Section MergeSerialized.
Context {DT : Datetime}.
Variable standard_format : string -> bool.

(** One turn of the merge loop on what [to_dict] wrote for a sound entry. *)
Lemma merge_entry_sound (key : string) (e : HashEntry.t)
    (self : HashFileManager.t) :
  keyed_by_fields key e ->
  HashEntry.validate e = Ret tt ->
  merge_entry key (HashEntry.to_dict e) self =
  (Ret true,
   HashFileManager.set_bottles
     (PyDict.set key e (HashFileManager.bottles self)) self).
Proof.
  intros (Hkey & Hver & Hplat) Hvalid.
  destruct (key_reads_back (HashEntry.formula_name e) _ _ Hver Hplat)
    as [H1 H2].
  unfold merge_entry, try_except_value_key. rewrite Hkey, H1, H2.
  unfold bind, lift_res, modify, ret.
  change (HashEntry.from_dict (HashEntry.formula_name e)
            (HashEntry.version e) (HashEntry.platform e)
            (HashEntry.to_dict e))
    with (Ret (HashEntry.to_raw e)).
  cbv beta iota. rewrite (validate_raw_of_typed e Hvalid). reflexivity.
Qed.

Lemma merge_entries_sound (entries : PyDict.t HashEntry.t) :
  forall (count : Z) (self : HashFileManager.t),
    (forall k e, In (k, e) entries ->
                 keyed_by_fields k e /\ HashEntry.validate e = Ret tt) ->
    merge_entries
      (map (fun kv => (fst kv, HashEntry.to_dict (snd kv))) entries)
      count self =
    (Ret (count + Z.of_nat (List.length entries)),
     HashFileManager.set_bottles
       (overwrite_with entries (HashFileManager.bottles self)) self).
Proof.
  induction entries as [| [k e] entries IH]; intros count self Hok.
  - cbn. unfold ret. rewrite Z.add_0_r. now destruct self.
  - cbn [map merge_entries fst snd]. unfold bind.
    destruct (Hok k e (or_introl eq_refl)) as [Hkey Hvalid].
    rewrite (merge_entry_sound k e self Hkey Hvalid).
    rewrite IH by (intros k' e' Hin; apply Hok; now right).
    cbn [List.length HashFileManager.set_bottles HashFileManager.bottles
         HashFileManager.last_updated overwrite_with fold_left fst snd].
    f_equal. f_equal. lia.
Qed.

(** The repair leaves the entries [to_dict] wrote as they are. *)
Lemma migrate_bottles_of_serialized (today : string)
    (entries : PyDict.t HashEntry.t) :
  forall acc : list (string * Json),
    NoDup (PyDict.keys acc ++ PyDict.keys entries) ->
    migrate_bottles standard_format today
      (map (fun kv => (fst kv, HashEntry.to_dict (snd kv))) entries) acc =
    (acc ++ map (fun kv => (fst kv, HashEntry.to_dict (snd kv))) entries)%list.
Proof.
  induction entries as [| [k e] entries IH]; intros acc Hnd.
  - cbn. now rewrite app_nil_r.
  - cbn [map migrate_bottles fst snd HashEntry.to_dict].
    rewrite normalize_unchanged.
    change (migrate_bottle today
              [("sha256", JStr (HashEntry.sha256 e));
               ("download_date", JStr (HashEntry.download_date e));
               ("file_size", JInt (HashEntry.file_size e))])
      with [("sha256", JStr (HashEntry.sha256 e));
            ("download_date", JStr (HashEntry.download_date e));
            ("file_size", JInt (HashEntry.file_size e))].
    assert (Hnew : ~ In k (PyDict.keys acc)).
    { cbn in Hnd. apply NoDup_remove_2 in Hnd.
      rewrite in_app_iff in Hnd. tauto. }
    rewrite (PyDict_set_new k _ acc Hnew).
    rewrite IH.
    + now rewrite <- app_assoc.
    + unfold PyDict.keys in *. rewrite map_app. cbn.
      rewrite <- app_assoc. exact Hnd.
Qed.

End MergeSerialized.

(** X23. External entries win.  Merging the document [to_dict] wrote for a
    sound manager (timestamp set, keys all different, every entry valid
    and under the key of its own fields, no hyphen in version or
    platform) returns the number of its entries; afterwards every key of
    the external manager holds the external entry, every other key holds
    what it held, and [last_updated] is the time of the merge unless the
    external manager was empty.  This holds whether the validator takes
    the document as it is or sends it through the migration. *)
Theorem merge_external_entries_win :
  forall (DT : Datetime) (standard_format : string -> bool)
         (migrated_at today now written : string)
         (external self : HashFileManager.t),
    PyJson.truthy (HashFileManager.last_updated external) = true ->
    PyDict.wf (HashFileManager.bottles external) ->
    (forall k e, In (k, e) (HashFileManager.bottles external) ->
                 keyed_by_fields k e /\ HashEntry.validate e = Ret tt) ->
    exists self',
      merge_with_external_hash_file standard_format migrated_at today now
        (HashFileManager.to_dict written external) self =
        (Ret (Z.of_nat (List.length (HashFileManager.bottles external))),
         self') /\
      (forall k,
         PyDict.get k (HashFileManager.bottles self') =
         match PyDict.get k (HashFileManager.bottles external) with
         | Some e => Some e
         | None => PyDict.get k (HashFileManager.bottles self)
         end) /\
      HashFileManager.last_updated self' =
        match HashFileManager.bottles external with
        | [] => HashFileManager.last_updated self
        | _ => JStr now
        end.
Proof.
  intros DT standard_format migrated_at today now written
    [entries stamp] self Hstamp Hwf Hok.
  cbn [HashFileManager.bottles HashFileManager.last_updated] in *.
  set (items := map (fun kv => (fst kv, HashEntry.to_dict (snd kv))) entries).
  set (doc := JObj [("last_updated", stamp); ("bottles", JObj items)]).
  assert (Hdoc : HashFileManager.to_dict written
                   (HashFileManager.mk entries stamp) = doc).
  { unfold HashFileManager.to_dict. cbn. now rewrite Hstamp. }
  assert (Hmigrate :
    migrate_external_hash_file standard_format migrated_at today doc =
    Ret doc).
  { unfold migrate_external_hash_file, doc. cbn. rewrite Hstamp. cbn.
    subst items.
    rewrite (migrate_bottles_of_serialized standard_format today entries [])
      by exact Hwf.
    reflexivity. }
  assert (Hfirst :
    (if external_file_is_valid standard_format doc then ret doc
     else lift_res (migrate_external_hash_file standard_format migrated_at
                      today doc)) self = (Ret doc, self)).
  { destruct (external_file_is_valid standard_format doc); [reflexivity |].
    unfold lift_res. now rewrite Hmigrate. }
  unfold merge_with_external_hash_file. rewrite Hdoc.
  unfold bind at 1. rewrite Hfirst.
  unfold bind, lift_res. cbn [PyJson.get_default PyJson.items doc].
  cbn -[merge_entries items].
  subst items. rewrite (merge_entries_sound entries 0 self Hok). cbn [fst snd].
  destruct (0 + Z.of_nat (List.length entries) >? 0) eqn:Hpos.
  - unfold modify, ret. cbn.
    eexists. split; [reflexivity |]. cbn. split.
    + intros k. now apply overwrite_lookup.
    + destruct entries; [cbn in Hpos; discriminate | reflexivity].
  - assert (entries = []) as ->.
    { destruct entries; [reflexivity |].
      exfalso. cbn [List.length] in Hpos.
      assert (0 < 0 + Z.of_nat (S (List.length entries))) as H by lia.
      apply Z.gtb_lt in H. congruence. }
    cbn. exists self. split; [now destruct self |]. split; reflexivity.
Qed.

Lemma merge_external_entries_win_witness :
  exists self',
    @merge_with_external_hash_file Calendar.datetime (fun _ => true)
      "2024-05-01T08:00:00Z" "2024-05-01" "2024-05-01T08:00:01Z"
      (HashFileManager.to_dict "2024-05-01T07:00:00Z" mirror_manager)
      one_bottle =
      (Ret (Z.of_nat (List.length (HashFileManager.bottles mirror_manager))),
       self') /\
    (forall k,
       PyDict.get k (HashFileManager.bottles self') =
       match PyDict.get k (HashFileManager.bottles mirror_manager) with
       | Some e => Some e
       | None => PyDict.get k (HashFileManager.bottles one_bottle)
       end) /\
    HashFileManager.last_updated self' =
      match HashFileManager.bottles mirror_manager with
      | [] => HashFileManager.last_updated one_bottle
      | _ => JStr "2024-05-01T08:00:01Z"
      end.
Proof.
  apply (merge_external_entries_win Calendar.datetime (fun _ => true)
           "2024-05-01T08:00:00Z" "2024-05-01" "2024-05-01T08:00:01Z"
           "2024-05-01T07:00:00Z" mirror_manager one_bottle).
  - reflexivity.
  - unfold PyDict.wf. cbn.
    constructor; [intros [H | []]; discriminate |].
    constructor; [intros [] | constructor].
  - intros k e [[= <- <-] | [[= <- <-] | []]];
      (split; [split; [reflexivity | split; reflexivity] | reflexivity]).
Defined.

(** The local bottle of wget now carries the hash of the mirror. *)
Example merge_replaces_local_hash :
  let '(_, merged) :=
    @merge_with_external_hash_file Calendar.datetime (fun _ => true)
      "2024-05-01T08:00:00Z" "2024-05-01" "2024-05-01T08:00:01Z"
      (HashFileManager.to_dict "2024-05-01T07:00:00Z" mirror_manager)
      one_bottle in
  option_map HashEntry.sha256
    (PyDict.get "wget-1.21.4-arm64_sonoma" (HashFileManager.bottles merged)) =
  Some "fedcba9876543210fedcba9876543210fedcba9876543210fedcba9876543210"
  /\ HashFileManager.has_bottle merged wget_formula "arm64_sonoma" wget_bottle
     = false.
Proof. split; reflexivity. Qed.

(** ** What the migration can not repair *)

Section IncompleteEntries.
Context {DT : Datetime}.
Variable standard_format : string -> bool.

(** An entry that validates carries a real hash and a positive size. *)
Lemma validate_raw_needs (r : HashEntry.raw) (e : HashEntry.t) :
  HashEntry.validate_raw r = Ret e ->
  (exists sha, HashEntry.raw_sha256 r = JStr sha /\
               PyStr.is_sha256_hex sha = true) /\
  (exists sz, HashEntry.raw_file_size r = JInt sz /\ 0 < sz).
Proof.
  unfold HashEntry.validate_raw.
  destruct r as [name ver plat sha date sz]. cbn.
  destruct (String.eqb name ""); [discriminate |].
  destruct (String.eqb ver ""); [discriminate |].
  destruct (String.eqb plat ""); [discriminate |].
  destruct (PyJson.truthy sha); cbn; [| discriminate].
  destruct sha as [| | sha | |]; try discriminate.
  destruct (PyStr.is_sha256_hex sha) eqn:Hhex; cbn; [| discriminate].
  destruct (PyJson.truthy date); cbn; [| discriminate].
  destruct date as [| | date | |]; try discriminate.
  destruct (strptime_ymd date); [| discriminate].
  destruct sz as [| sz | | |]; try discriminate.
  destruct (sz <=? 0) eqn:Hsz; [discriminate |].
  intros _. split; [exists sha; now split | exists sz; split; [reflexivity | lia]].
Qed.

Lemma from_dict_fields (name ver plat : string) (fields : list (string * Json))
    (r : HashEntry.raw) :
  HashEntry.from_dict name ver plat (JObj fields) = Ret r ->
  PyDict.get "sha256" fields = Some (HashEntry.raw_sha256 r) /\
  PyDict.get "file_size" fields = Some (HashEntry.raw_file_size r).
Proof.
  unfold HashEntry.from_dict, res_bind, PyJson.index.
  destruct (PyDict.get "sha256" fields); [| discriminate].
  destruct (PyDict.get "download_date" fields); [| discriminate].
  destruct (PyDict.get "file_size" fields); [| discriminate].
  intros [= <-]. now split.
Qed.

Lemma mem_false_get {V} (k : string) (d : PyDict.t V) :
  PyDict.mem k d = false -> PyDict.get k d = None.
Proof. unfold PyDict.mem. now destruct (PyDict.get k d). Qed.

Lemma PyDict_mem_set_other {V} (k k' : string) (v : V) (d : PyDict.t V) :
  k' <> k -> PyDict.mem k' (PyDict.set k v d) = PyDict.mem k' d.
Proof.
  intros Hne. unfold PyDict.mem. now rewrite PyDict_get_set_other.
Qed.

(** What the repair puts in the place of a missing hash or size. *)
Lemma migrate_bottle_defaults (today : string) (fields : list (string * Json)) :
  (PyDict.mem "sha256" fields = false ->
   PyDict.get "sha256" (migrate_bottle today fields) =
     Some (JStr "unknown")) /\
  (PyDict.mem "file_size" fields = false ->
   PyDict.get "file_size" (migrate_bottle today fields) = Some (JInt 0)).
Proof.
  unfold migrate_bottle. split; intros Hmissing.
  - rewrite Hmissing.
    repeat match goal with
           | |- context [if ?c then _ else _] => destruct c
           end;
      rewrite ?PyDict_get_set_other by discriminate;
      apply PyDict_get_set_same.
  - destruct (PyDict.mem "sha256" fields);
      destruct (PyDict.mem "download_date" _);
      rewrite ?PyDict_mem_set_other by discriminate;
      rewrite Hmissing; apply PyDict_get_set_same.
Qed.

(** The repaired entry is passed over by the merge loop. *)
Lemma merge_entry_passes_over (today key : string)
    (fields : list (string * Json)) (self : HashFileManager.t) :
  PyDict.mem "sha256" fields = false \/
  PyDict.mem "file_size" fields = false ->
  snd (merge_entry key (JObj (migrate_bottle today fields)) self) = self.
Proof.
  intros Hmissing.
  destruct (merge_entry_outcome standard_format key
              (JObj (migrate_bottle today fields)) self)
    as [[Hsame _] | (e & _ & _ & _ & _ & fv & _ & _ & r & Hfrom & Hraw)];
    [exact Hsame |].
  exfalso.
  destruct (from_dict_fields _ _ _ _ _ Hfrom) as [Hsha Hsize].
  destruct (validate_raw_needs r e Hraw)
    as [(sha & Hrsha & Hhex) (sz & Hrsz & Hpos)].
  destruct (migrate_bottle_defaults today fields) as [Hd1 Hd2].
  destruct Hmissing as [Hm | Hm].
  - rewrite (Hd1 Hm) in Hsha. rewrite Hrsha in Hsha.
    injection Hsha as <-. discriminate.
  - rewrite (Hd2 Hm) in Hsize. rewrite Hrsz in Hsize.
    injection Hsize as <-. lia.
Qed.

(** Where the entries of the repaired document come from. *)
Lemma migrate_bottles_origin (today : string) (items : list (string * Json)) :
  forall (acc : list (string * Json)) (k : string) (d : Json),
    In (k, d) (migrate_bottles standard_format today items acc) ->
    In (k, d) acc \/
    exists fields, In (k, JObj fields) items /\
                   d = JObj (migrate_bottle today fields).
Proof.
  induction items as [| [k0 d0] items IH]; intros acc k d Hin;
    [now left |].
  cbn [migrate_bottles] in Hin.
  destruct d0 as [| z0 | s0 | l0 | fields0].
  1-4: destruct (IH acc k d Hin) as [H | (f & H & ->)];
       [now left | right; exists f; split; [now right | reflexivity]].
  rewrite normalize_unchanged in Hin.
  destruct (IH _ k d Hin) as [H | (f & H & ->)].
  - apply PyDict_set_In_key in H. destruct H as [H | [-> ->]]; [now left |].
    right. exists fields0. split; [now left | reflexivity].
  - right. exists f. split; [now right | reflexivity].
Qed.

Lemma wf_same_key {V} (d : PyDict.t V) (k : string) (v v' : V) :
  PyDict.wf d -> In (k, v) d -> In (k, v') d -> v = v'.
Proof.
  unfold PyDict.wf, PyDict.keys.
  induction d as [| [k0 v0] d IH]; cbn; [intros _ [] |].
  intros Hwf H1 H2. inversion Hwf as [| ? ? Hnot Hrest]; subst.
  destruct H1 as [E1 | H1], H2 as [E2 | H2].
  - congruence.
  - exfalso. apply Hnot. injection E1 as -> _.
    change k with (fst (k, v')). now apply in_map.
  - exfalso. apply Hnot. injection E2 as -> _.
    change k with (fst (k, v)). now apply in_map.
  - now apply IH.
Qed.

(** The loop leaves a key alone when it passes over every entry it meets
    under that key. *)
Lemma merge_entries_frame (key : string) (items : list (string * Json)) :
  (forall d self, In (key, d) items -> snd (merge_entry key d self) = self) ->
  forall (count : Z) (self : HashFileManager.t),
    PyDict.get key
      (HashFileManager.bottles (snd (merge_entries items count self))) =
    PyDict.get key (HashFileManager.bottles self).
Proof.
  induction items as [| [k d] items IH]; intros Hpass count self;
    [reflexivity |].
  cbn [merge_entries]. unfold bind.
  assert (Hstep :
    PyDict.get key (HashFileManager.bottles (snd (merge_entry k d self))) =
    PyDict.get key (HashFileManager.bottles self)).
  { destruct (String.eqb k key) eqn:E.
    - apply String.eqb_eq in E. subst k.
      now rewrite (Hpass d self (or_introl eq_refl)).
    - apply String.eqb_neq in E.
      destruct (merge_entry_outcome standard_format k d self)
        as [[-> _] | (e & _ & -> & _)]; [reflexivity |].
      cbn. apply PyDict_get_set_other. congruence. }
  destruct (merge_entry k d self) as [[merged | err] self1]; cbn in *.
  - rewrite IH; [exact Hstep |].
    intros d' self' Hin. apply Hpass. now right.
  - exact Hstep.
Qed.

Lemma incomplete_entry_is_reported (fields : list (string * Json))
    (items : list (string * Json)) (key : string)
    (bottle_fields : list (string * Json)) :
  PyDict.get "bottles" fields = Some (JObj items) ->
  In (key, JObj bottle_fields) items ->
  PyDict.mem "sha256" bottle_fields = false \/
  PyDict.mem "file_size" bottle_fields = false ->
  external_file_is_valid standard_format (JObj fields) = false.
Proof.
  intros Hbottles Hin Hmissing.
  destruct (external_file_is_valid standard_format (JObj fields)) eqn:Hvalid;
    [| reflexivity].
  exfalso. unfold external_file_is_valid in Hvalid. rewrite Hbottles in Hvalid.
  apply andb_true_iff in Hvalid. destruct Hvalid as [_ Hall].
  rewrite forallb_forall in Hall. specialize (Hall _ Hin). cbn in Hall.
  destruct Hmissing as [Hm | Hm]; rewrite Hm in Hall;
    rewrite ?andb_false_r in Hall; cbn in Hall; discriminate.
Qed.

End IncompleteEntries.

(** X24. The migration never makes an incomplete entry mergeable.  An
    entry of the external document that has no [sha256] or no [file_size]
    is never merged: after [merge_with_external_hash_file], however it
    ends, the manager holds under that key what it held before.  The
    placeholder hash and the size 0 the migration fills in do not pass
    [validate]. *)
Theorem merge_passes_over_incomplete_entries :
  forall (DT : Datetime) (standard_format : string -> bool)
         (migrated_at today now : string)
         (fields items : list (string * Json)) (key : string)
         (bottle_fields : list (string * Json)) (self : HashFileManager.t),
    PyDict.get "bottles" fields = Some (JObj items) ->
    PyDict.wf items ->
    In (key, JObj bottle_fields) items ->
    PyDict.mem "sha256" bottle_fields = false \/
    PyDict.mem "file_size" bottle_fields = false ->
    PyDict.get key
      (HashFileManager.bottles
         (snd (merge_with_external_hash_file standard_format migrated_at
                 today now (JObj fields) self))) =
    PyDict.get key (HashFileManager.bottles self).
Proof.
  intros DT standard_format migrated_at today now fields items key
    bottle_fields self Hbottles Hwf Hin Hmissing.
  unfold merge_with_external_hash_file.
  rewrite (incomplete_entry_is_reported standard_format fields items key
             bottle_fields Hbottles Hin Hmissing).
  unfold bind at 1. unfold lift_res at 1.
  unfold migrate_external_hash_file.
  set (md1 := match PyDict.get "last_updated" fields with
              | Some v =>
                  if PyJson.truthy v then fields
                  else PyDict.set "last_updated" (JStr migrated_at) fields
              | None => PyDict.set "last_updated" (JStr migrated_at) fields
              end).
  assert (Hmd1 : PyDict.get "bottles" md1 = Some (JObj items)).
  { subst md1. destruct (PyDict.get "last_updated" fields) as [v |];
      [destruct (PyJson.truthy v) |];
      rewrite ?PyDict_get_set_other by discriminate; exact Hbottles. }
  assert (Hmem : PyDict.mem "bottles" md1 = true).
  { unfold PyDict.mem. now rewrite Hmd1. }
  cbv zeta. rewrite Hmem, Hmd1.
  unfold bind, lift_res. cbn [PyJson.get_default].
  rewrite PyDict_get_set_same. cbn [PyJson.items].
  set (items' := migrate_bottles standard_format today items []).
  assert (Hpass : forall d m, In (key, d) items' ->
                              snd (merge_entry key d m) = m).
  { intros d m Hd. subst items'.
    apply migrate_bottles_origin in Hd.
    destruct Hd as [[] | (f & Hf & ->)].
    pose proof (wf_same_key items key _ _ Hwf Hin Hf) as Heq.
    injection Heq as <-.
    now apply (merge_entry_passes_over standard_format). }
  pose proof (merge_entries_frame standard_format key items' Hpass 0 self)
    as Hframe.
  destruct (merge_entries items' 0 self) as [[count | err] self1];
    cbn in Hframe |- *; [| exact Hframe].
  destruct (count >? 0); cbn; exact Hframe.
Qed.

Lemma merge_passes_over_incomplete_entries_witness :
  PyDict.get "wget-1.21.4-arm64_sonoma"
    (HashFileManager.bottles
       (snd (@merge_with_external_hash_file Calendar.datetime (fun _ => true)
               "2024-05-01T08:00:00Z" "2024-05-01" "2024-05-01T08:00:01Z"
               incomplete_document one_bottle))) =
  PyDict.get "wget-1.21.4-arm64_sonoma" (HashFileManager.bottles one_bottle).
Proof.
  apply (merge_passes_over_incomplete_entries Calendar.datetime
           (fun _ => true) "2024-05-01T08:00:00Z" "2024-05-01"
           "2024-05-01T08:00:01Z"
           [("last_updated", JStr "2024-05-01T06:00:00Z");
            ("bottles",
             JObj [("wget-1.21.4-arm64_sonoma",
                    JObj [("download_date", JStr "2024-05-01");
                          ("file_size", JInt 1048600)]);
                   ("jq-1.7.1-arm64_sonoma",
                    JObj [("sha256",
                           JStr "00112233445566778899aabbccddeeff00112233445566778899aabbccddeeff");
                          ("download_date", JStr "2024-05-01")])])]
           [("wget-1.21.4-arm64_sonoma",
             JObj [("download_date", JStr "2024-05-01");
                   ("file_size", JInt 1048600)]);
            ("jq-1.7.1-arm64_sonoma",
             JObj [("sha256",
                    JStr "00112233445566778899aabbccddeeff00112233445566778899aabbccddeeff");
                   ("download_date", JStr "2024-05-01")])]
           "wget-1.21.4-arm64_sonoma"
           [("download_date", JStr "2024-05-01"); ("file_size", JInt 1048600)]
           one_bottle).
  - reflexivity.
  - unfold PyDict.wf. cbn.
    constructor; [intros [H | []]; discriminate |].
    constructor; [intros [] | constructor].
  - left. reflexivity.
  - left. reflexivity.
Defined.

(** Neither entry of that document is merged, and nothing changes. *)
Example merge_of_incomplete_document :
  @merge_with_external_hash_file Calendar.datetime (fun _ => true)
    "2024-05-01T08:00:00Z" "2024-05-01" "2024-05-01T08:00:01Z"
    incomplete_document one_bottle = (Ret 0, one_bottle).
Proof. reflexivity. Qed.

(** A document the validator accepts can still stop the merge: a
    [file_size] of [null] passes the validator and makes [validate] raise
    [TypeError], which the loop does not catch. *)
Example merge_raises_on_null_size :
  let data :=
    JObj [("last_updated", JStr "2024-05-01T06:00:00+00:00");
          ("bottles",
           JObj [("jq-1.7.1-arm64_sonoma",
                  JObj [("sha256",
                         JStr "00112233445566778899aabbccddeeff00112233445566778899aabbccddeeff");
                        ("download_date", JStr "2024-05-01");
                        ("file_size", JNull)])])] in
  @external_file_is_valid Calendar.datetime (fun _ => true) data = true /\
  @merge_with_external_hash_file Calendar.datetime (fun _ => true)
    "2024-05-01T08:00:00Z" "2024-05-01" "2024-05-01T08:00:01Z"
    data one_bottle = (Raise (TypeError "'<=' not supported"), one_bottle).
Proof. split; reflexivity. Qed.

(** ** A loaded file and the corruption check *)

(** X25. For a hash file that [load_from_dict] has just loaded,
    [detect_corruption] depends on three things only: it answers [False]
    exactly when [last_updated] is a non-empty string that parses as a
    timestamp, no entry is larger than ten gibibytes, and no entry is
    dated after today.  Keys and fields can not be at fault: the load has
    checked them. *)
Theorem loaded_file_corruption_causes :
  forall (DT : Datetime) (data : Json) (start : HashFileManager.t)
         (current_date : Z),
    fst (HashFileManager.load_from_dict data start) = Ret tt ->
    let self' := snd (HashFileManager.load_from_dict data start) in
    HashFileManager.detect_corruption current_date self' = Ret false <->
    (exists stamp,
       HashFileManager.last_updated self' = JStr stamp /\
       stamp <> "" /\
       fromisoformat (PyStr.replace_Z stamp) <> None) /\
    (forall k e,
       In (k, e) (HashFileManager.bottles self') ->
       HashEntry.file_size e <= TEN_GIB /\
       exists d, strptime_ymd (HashEntry.download_date e) = Some d /\
                 d <= current_date).
Proof.
  intros DT data start current_date Hloaded self'.
  destruct (load_from_dict_result DT data start Hloaded)
    as ([Hwf Hok] & _ & _).
  fold self' in Hwf, Hok.
  split.
  - intros Hclean. apply detect_corruption_accepts in Hclean.
    destruct Hclean as (Hstamp & _ & Hall).
    split; [exact Hstamp |].
    intros k e Hin. destruct (Hall k e Hin) as (_ & _ & Hsz & Hdate).
    now split.
  - intros (Hstamp & Hall). apply detect_corruption_accepts.
    split; [exact Hstamp |]. split; [exact Hwf |].
    intros k e Hin. destruct (Hok k e Hin) as [Hk Hv].
    destruct (Hall k e Hin) as [Hsz Hdate].
    repeat split; assumption.
Qed.

Lemma loaded_file_corruption_causes_witness :
  let data := HashFileManager.to_dict "2024-05-01T08:00:00Z" one_bottle in
  let self' :=
    snd (@HashFileManager.load_from_dict Calendar.datetime data
           HashFileManager.init) in
  @HashFileManager.detect_corruption Calendar.datetime 19844 self' =
    Ret false <->
  (exists stamp,
     HashFileManager.last_updated self' = JStr stamp /\
     stamp <> "" /\
     @fromisoformat Calendar.datetime (PyStr.replace_Z stamp) <> None) /\
  (forall k e,
     In (k, e) (HashFileManager.bottles self') ->
     HashEntry.file_size e <= TEN_GIB /\
     exists d, @strptime_ymd Calendar.datetime (HashEntry.download_date e) =
               Some d /\ d <= 19844).
Proof.
  apply (loaded_file_corruption_causes Calendar.datetime
           (HashFileManager.to_dict "2024-05-01T08:00:00Z" one_bottle)
           HashFileManager.init 19844).
  reflexivity.
Defined.

(** ** A rebuild that fails *)

Section FailedRebuild.
Context {DT : Datetime} {W : Type} (svc : S3Service W).

Lemma rebuild_entry_keeps_stamp (obj : S3Object) (s : HashFileManager.Sys W) :
  HashFileManager.last_updated
    (fst (snd (HashFileManager.rebuild_entry svc obj s))) =
  HashFileManager.last_updated (fst s).
Proof.
  unfold HashFileManager.rebuild_entry.
  repeat match goal with
         | |- context [if ?c then _ else _] => destruct c; cbn; try reflexivity
         | |- context [match strptime_ymd ?d with _ => _ end] =>
             destruct (strptime_ymd d); cbn; try reflexivity
         | |- context [match PyStr.rsplit1 ?c ?x with _ => _ end] =>
             destruct (PyStr.rsplit1 c x) as [| ? [| ? [| ? ?]]];
             cbn; try reflexivity
         end.
  unfold bind, HashFileManager.in_world, HashFileManager.in_self,
    s3_get_object_metadata, emit, modify, on_store_res, ret. cbn.
  destruct (get_object_metadata svc (obj_key obj) (store (snd s)))
    as [[[md |] | e] s']; reflexivity.
Qed.

(** A rebuild that answers [False] has left no timestamp. *)
Lemma failed_rebuild_has_no_stamp (now : string) (s : HashFileManager.Sys W) :
  fst (HashFileManager.rebuild_from_s3_metadata (Some svc) now s) =
    Ret false ->
  HashFileManager.last_updated
    (fst (snd (HashFileManager.rebuild_from_s3_metadata (Some svc) now s))) =
  JNull.
Proof.
  unfold HashFileManager.rebuild_from_s3_metadata, try_except.
  unfold bind, HashFileManager.in_self, HashFileManager.in_world,
    s3_list_objects, emit, modify, on_store_res, ret. cbn.
  destruct (list_objects svc "" 10000 (store (snd s)))
    as [[objects | e] s1]; cbn; [| reflexivity].
  match goal with
  | |- context [for_each objects ?body ?s0] =>
      pose proof (for_each_invariant
        (fun st : HashFileManager.Sys W =>
           HashFileManager.last_updated (fst st) = JNull)
        body
        (fun x st H => eq_trans (rebuild_entry_keeps_stamp x st) H)
        objects s0 eq_refl) as Hloop;
      destruct (for_each objects body s0) as [[u | e] s2]
  end; cbn in *; [discriminate | intros _; exact Hloop].
Qed.

End FailedRebuild.

(** X26. A rebuild that answers [False] leaves a manager that
    [detect_corruption] reports: the listing or a metadata request raised
    before the timestamp was set, so [last_updated] is [None]. *)
Theorem failed_rebuild_is_reported_corrupted :
  forall (DT : Datetime) (W : Type) (svc : S3Service W) (now : string)
         (s : HashFileManager.Sys W) (current_date : Z),
    let run := HashFileManager.rebuild_from_s3_metadata (Some svc) now s in
    fst run = Ret false ->
    HashFileManager.last_updated (fst (snd run)) = JNull /\
    HashFileManager.detect_corruption current_date (fst (snd run)) = Ret true.
Proof.
  intros DT W svc now s current_date run Hfailed.
  pose proof (failed_rebuild_has_no_stamp svc now s Hfailed) as Hstamp.
  fold run in Hstamp. split; [exact Hstamp |].
  generalize dependent (fst (snd run)). intros m Hstamp.
  unfold HashFileManager.detect_corruption, HashFileManager.validate.
  rewrite Hstamp.
  destruct (validate_all_outcome
              (PyDict.values (HashFileManager.bottles m)))
    as [-> | [msg ->]]; reflexivity.
Qed.

Lemma failed_rebuild_is_reported_corrupted_witness :
  let svc :=
    mkS3Service MemS3.put MemS3.get MemS3.delete MemS3.copy MemS3.exists_
      (fun _ _ s => (Raise (ConnectionError "reset"), s)) MemS3.head in
  let run :=
    @HashFileManager.rebuild_from_s3_metadata Calendar.datetime _ (Some svc)
      "2024-05-01T08:00:00Z" (one_bottle, bucket_with_bottles) in
  HashFileManager.last_updated (fst (snd run)) = JNull /\
  @HashFileManager.detect_corruption Calendar.datetime 19844 (fst (snd run)) =
    Ret true.
Proof.
  intros svc.
  apply (failed_rebuild_is_reported_corrupted Calendar.datetime MemS3.state
           svc "2024-05-01T08:00:00Z" (one_bottle, bucket_with_bottles)
           19844).
  reflexivity.
Defined.
